(** * Clairvoyant: the walk-forward backtest engine of [clairvoyant/Backtest.py]

    A shallow embedding of class [Backtest]: the constructor, [runModel],
    [buyStats], [sellStats] and [visualizeModel].

    Conventions of the embedding.
    - The instance [self] is a record; a method is a function in a small
      state-and-exception monad over that record.  When a call raises, the
      instance keeps whatever was assigned to it before the exception.
    - Python [int] is [Z].  A float is the rational [Q] it stands for.  The
      engine only compares floats; the statistics compute with them, and
      there every operation is followed by the rounding [fl] of its exact
      result to a float.  [fl] is a parameter: the identity gives exact
      arithmetic, [fl64] double precision.
    - The helpers of [clairvoyant.utils] ([DateIndex], [FindConditions],
      [PercentChange], [Predict]), the date handling of pandas/pytz, the
      classifier of scikit-learn and the plotting of matplotlib are not part
      of [Backtest.py]; they are parameters of the development, each one a
      function that returns a value or raises. *)

From Stdlib Require Import ZArith QArith Qround Qabs Qpower Lqa.
From Stdlib Require Import List String Ascii DecimalString Bool Lia.
From Equations Require Import Equations.
Import ListNotations.

Set Implicit Arguments.
Local Open Scope Z_scope.

(* ------------------------------------------------------------------ *)
(** ** Exceptions and results *)

Inductive exn : Type :=
| IndexError
| KeyError
| ValueError
| ZeroDivisionError
| OtherError (msg : string).

Inductive result (A : Type) : Type :=
| Ok (a : A)
| Raise (e : exn).

Arguments Ok {A} a.
Arguments Raise {A} e.

(* ------------------------------------------------------------------ *)
(** ** Numbers *)

(** [x < y] on floats, as a boolean. *)
Definition Qlt_bool (x y : Q) : bool :=
  (Qnum x * QDen y <? Qnum y * QDen x)%Z.

(** Round half to even, the rule of Python's [round]. *)
Definition round_half_even (x : Q) : Z :=
  let f := Qfloor x in
  match (x - inject_Z f ?= 1 # 2)%Q with
  | Lt => f
  | Gt => f + 1
  | Eq => if Z.even f then f else f + 1
  end.

(** The binary exponent of a rational [x <> 0]: the [e] with
    [2^e <= |x| < 2^(e+1)]. *)
Definition expo (x : Q) : Z :=
  let e0 := Z.log2 (Z.abs (Qnum x)) - Z.log2 (QDen x) in
  if Qlt_bool (Qabs x) (2 ^ e0)%Q then e0 - 1 else e0.

(** The double nearest to a rational, ties to even: 53 significant bits.
    The exponent is not bounded (no subnormal numbers, no overflow), which
    is exact for magnitudes such as those of percentages. *)
Definition fl64 (x : Q) : Q :=
  if Qeq_bool x 0 then 0%Q
  else
    let s := 52 - expo x in
    (inject_Z (round_half_even (x * 2 ^ s)) * 2 ^ (- s))%Q.

(** [range(lo, hi)]. *)
Definition range (lo hi : Z) : list Z :=
  map (fun k => lo + Z.of_nat k) (seq 0 (Z.to_nat (hi - lo))).

(** [numpy.vstack] of a list of rows: needs at least one row, and rows of
    one length. *)
Definition vstack (X : list (list Q)) : result (list (list Q)) :=
  match X with
  | [] => Raise ValueError
  | r :: rs =>
      if forallb (fun r' => Nat.eqb (List.length r') (List.length r)) rs
      then Ok X else Raise ValueError
  end.

(** [numpy.hstack] of a list of scalars: needs at least one. *)
Definition hstack (y : list Z) : result (list Z) :=
  match y with
  | [] => Raise ValueError
  | _ :: _ => Ok y
  end.

(** [l[len(l)-1]]: on an empty list the index is [-1], an [IndexError]. *)
Definition last_item {A} (l : list A) : result A :=
  match rev l with
  | [] => Raise IndexError
  | a :: _ => Ok a
  end.

(** A value together with the equation that names it (for recursion that
    depends on the result of a call). *)
Definition inspect {A} (a : A) : {b : A | a = b} := exist _ a eq_refl.

(* ------------------------------------------------------------------ *)
(** ** A small concrete market

    An instance of the helpers, to run the engine on: closing prices
    indexed from 0, an instant being an index.  The classifier is fitted to
    the frequencies of the two labels and refuses a one-class label set, as
    scikit-learn does. *)

Module Market.

Definition Data := list Z.

Definition in_bounds (data : Data) (i : Z) : bool :=
  (0 <=? i) && (i <? Z.of_nat (List.length data)).

Definition price (data : Data) (i : Z) : Z := nth (Z.to_nat i) data 0.

Definition localize (_ : unit) (d : Z) : result Z := Ok d.

Definition DateIndex (data : Data) (t : Z) (_ : bool) (_ : string)
    : result Z :=
  if in_bounds data t then Ok t else Raise IndexError.

Definition PercentChange (data : Data) (i : Z) : result Q :=
  if in_bounds data i && in_bounds data (i - 1) then
    Ok (inject_Z (price data i - price data (i - 1))
          / inject_Z (price data (i - 1)))%Q
  else Raise IndexError.

Definition FindConditions (data : Data) (i : Z) (_ : string) : result Q :=
  PercentChange data i.

Definition date_strftime (data : Data) (i : Z) : result string :=
  if in_bounds data i then Ok "01/01/2016"%string else Raise KeyError.

Definition Model := (Q * Q)%type.

Definition SVC (_ _ : Q) : Model := (1 # 2, 1 # 2)%Q.

Definition ups (y : list Z) : Z :=
  Z.of_nat (List.length (filter (Z.eqb 1) y)).

Definition fit (_ : Model) (_ : list (list Q)) (y : list Z)
    : result Model :=
  let n := Z.of_nat (List.length y) in
  let u := ups y in
  if (u =? 0) || (u =? n) then Raise ValueError
  else Ok (inject_Z (n - u) / inject_Z n, inject_Z u / inject_Z n)%Q.

(** Confidence follows the fitted frequencies after a rise, and swaps them
    after a fall or a flat period. *)
Definition Predict (m : Model) (Xs : list Q) : result (Q * Q) :=
  match Xs with
  | [] => Raise ValueError
  | x :: _ => if Qlt_bool 0 x then Ok m else Ok (snd m, fst m)
  end.

Definition fit_transform (X : list (list Q)) : result (list (list Q)) :=
  Ok X.

Definition contour_grid (_ _ _ : Q) (_ : Model) (_ : list (list Q))
    : result unit := Ok tt.

Definition draw (_ : unit) (_ : string) (_ : list (list Q)) (_ : list Z)
    : result unit := Ok tt.

Definition prices : Data := [100; 102; 101; 103; 103; 105; 104; 106; 108; 107].

End Market.

(* ------------------------------------------------------------------ *)
(** ** The engine *)

Section Engine.

(** The dataset, instants (timezone-aware datetimes), raw dates as the
    caller gives them, time zones, the classifier object, figures. *)
Variables (Data Instant RawDate TZ Model Figure : Type).

(** [tz.localize(to_datetime(d))]. *)
Variable localize : TZ -> RawDate -> result Instant.
(** The helpers of [clairvoyant.utils]. *)
Variable DateIndex : Data -> Instant -> bool -> string -> result Z.
Variable FindConditions : Data -> Z -> string -> result Q.
Variable PercentChange : Data -> Z -> result Q.
Variable Predict : Model -> list Q -> result (Q * Q).
(** [data['Date'][i].strftime('%m/%d/%Y')]. *)
Variable date_strftime : Data -> Z -> result string.
(** [SVC(C=..., gamma=..., probability=True)] and [model.fit(XX, yy)].
    Line 80 gives the classifier no [random_state], and the fit of its
    probabilities draws random numbers: [fit] stands for the fits as one
    run gets them, and the fits of another run may return other models.
    What compares two runs takes one such function for each of them. *)
Variable SVC : Q -> Q -> Model.
Variable fit : Model -> list (list Q) -> list Z -> result Model.
(** The rounding of an exact result to a float. *)
Variable fl : Q -> Q.
(** [StandardScaler().fit_transform(X)]. *)
Variable fit_transform : list (list Q) -> result (list (list Q)).
(** Lines 230-239: the mesh, the figure and [decision_function] on it. *)
Variable Grid : Type.
Variable contour_grid :
  Q -> Q -> Q -> Model -> list (list Q) -> result Grid.
(** Lines 242-246: title, contour shading, scatter and axis limits. *)
Variable draw : Grid -> string -> list (list Q) -> list Z -> result Figure.
(** [str(x)] for a float. *)
Variable str_float : Q -> string.

Record Backtest : Type := mkBacktest {
  (* Conditions *)
  variables : list string;
  trainStart : Instant;
  trainEnd : Instant;
  testStart : Instant;
  testEnd : Instant;
  buyThreshold : Q;
  sellThreshold : Q;
  C : Q;
  gamma : Q;
  continuedTraining : bool;
  (* Stats *)
  stocks : list string;
  dates : list (list string);
  totalBuys : Z;
  correctBuys : Z;
  totalSells : Z;
  correctSells : Z;
  (* Visualize *)
  XX : option (list (list Q));
  yy : option (list Z);
  model : option Model
}.

(** Assignments to the attributes that the methods write. *)
Definition set_stocks (v : list string) (s : Backtest) : Backtest :=
  mkBacktest (variables s) (trainStart s) (trainEnd s) (testStart s)
    (testEnd s) (buyThreshold s) (sellThreshold s) (C s) (gamma s)
    (continuedTraining s) v (dates s) (totalBuys s) (correctBuys s)
    (totalSells s) (correctSells s) (XX s) (yy s) (model s).

Definition set_dates (v : list (list string)) (s : Backtest) : Backtest :=
  mkBacktest (variables s) (trainStart s) (trainEnd s) (testStart s)
    (testEnd s) (buyThreshold s) (sellThreshold s) (C s) (gamma s)
    (continuedTraining s) (stocks s) v (totalBuys s) (correctBuys s)
    (totalSells s) (correctSells s) (XX s) (yy s) (model s).

Definition set_totalBuys (v : Z) (s : Backtest) : Backtest :=
  mkBacktest (variables s) (trainStart s) (trainEnd s) (testStart s)
    (testEnd s) (buyThreshold s) (sellThreshold s) (C s) (gamma s)
    (continuedTraining s) (stocks s) (dates s) v (correctBuys s)
    (totalSells s) (correctSells s) (XX s) (yy s) (model s).

Definition set_correctBuys (v : Z) (s : Backtest) : Backtest :=
  mkBacktest (variables s) (trainStart s) (trainEnd s) (testStart s)
    (testEnd s) (buyThreshold s) (sellThreshold s) (C s) (gamma s)
    (continuedTraining s) (stocks s) (dates s) (totalBuys s) v
    (totalSells s) (correctSells s) (XX s) (yy s) (model s).

Definition set_totalSells (v : Z) (s : Backtest) : Backtest :=
  mkBacktest (variables s) (trainStart s) (trainEnd s) (testStart s)
    (testEnd s) (buyThreshold s) (sellThreshold s) (C s) (gamma s)
    (continuedTraining s) (stocks s) (dates s) (totalBuys s)
    (correctBuys s) v (correctSells s) (XX s) (yy s) (model s).

Definition set_correctSells (v : Z) (s : Backtest) : Backtest :=
  mkBacktest (variables s) (trainStart s) (trainEnd s) (testStart s)
    (testEnd s) (buyThreshold s) (sellThreshold s) (C s) (gamma s)
    (continuedTraining s) (stocks s) (dates s) (totalBuys s)
    (correctBuys s) (totalSells s) v (XX s) (yy s) (model s).

Definition set_buyThreshold (v : Q) (s : Backtest) : Backtest :=
  mkBacktest (variables s) (trainStart s) (trainEnd s) (testStart s)
    (testEnd s) v (sellThreshold s) (C s) (gamma s)
    (continuedTraining s) (stocks s) (dates s) (totalBuys s)
    (correctBuys s) (totalSells s) (correctSells s) (XX s) (yy s)
    (model s).

Definition set_model (v : option Model) (s : Backtest) : Backtest :=
  mkBacktest (variables s) (trainStart s) (trainEnd s) (testStart s)
    (testEnd s) (buyThreshold s) (sellThreshold s) (C s) (gamma s)
    (continuedTraining s) (stocks s) (dates s) (totalBuys s)
    (correctBuys s) (totalSells s) (correctSells s) (XX s) (yy s) v.

(** [self.XX = XX; self.yy = yy; self.model = model]. *)
Definition set_visualize (vx : list (list Q)) (vy : list Z) (vm : Model)
    (s : Backtest) : Backtest :=
  mkBacktest (variables s) (trainStart s) (trainEnd s) (testStart s)
    (testEnd s) (buyThreshold s) (sellThreshold s) (C s) (gamma s)
    (continuedTraining s) (stocks s) (dates s) (totalBuys s)
    (correctBuys s) (totalSells s) (correctSells s)
    (Some vx) (Some vy) (Some vm).

(** *** The monad of methods *)

Definition M (A : Type) : Type := Backtest -> Backtest * result A.

Definition ret {A} (a : A) : M A := fun self => (self, Ok a).

Definition bind {A B} (m : M A) (k : A -> M B) : M B :=
  fun self =>
    match m self with
    | (self', Ok a) => k a self'
    | (self', Raise e) => (self', Raise e)
    end.

(** A call that does not touch the instance. *)
Definition call {A} (r : result A) : M A := fun self => (self, r).

(** Reading and writing attributes of [self]. *)
Definition attr {A} (f : Backtest -> A) : M A :=
  fun self => (self, Ok (f self)).

Definition assign (f : Backtest -> Backtest) : M unit :=
  fun self => (f self, Ok tt).

Notation "x <- m ;; k" := (bind m (fun x => k))
  (at level 61, m at next level, right associativity).
Notation "' p <- m ;; k" := (bind m (fun x => let p := x in k))
  (at level 61, p pattern, m at next level, right associativity).
Notation "m ;;; k" := (bind m (fun _ => k))
  (at level 61, right associativity).

(** *** The constructor *)

Definition __init__ (variables0 : list string)
    (trainStart0 trainEnd0 testStart0 testEnd0 : RawDate)
    (buyThreshold0 sellThreshold0 C0 gamma0 : Q)
    (continuedTraining0 : bool) (tz : TZ) : result Backtest :=
  match localize tz trainStart0 with Raise e => Raise e | Ok trS =>
  match localize tz trainEnd0 with Raise e => Raise e | Ok trE =>
  match localize tz testStart0 with Raise e => Raise e | Ok teS =>
  match localize tz testEnd0 with Raise e => Raise e | Ok teE =>
    Ok (mkBacktest variables0 trS trE teS teE
          buyThreshold0 sellThreshold0 C0 gamma0 continuedTraining0
          [] [] 0 0 0 0
          None None None)
  end end end end.

(** *** runModel *)

(** [for var in self.variables: Xs.append(FindConditions(data, i, var))]. *)
Fixpoint conditions (data : Data) (i : Z) (vars : list string)
    (Xs : list Q) : result (list Q) :=
  match vars with
  | [] => Ok Xs
  | var :: vars' =>
      match FindConditions data i var with
      | Raise e => Raise e
      | Ok x => conditions data i vars' (Xs ++ [x])
      end
  end.

(** The label of a percent change: 1 if it went up, else 0. *)
Definition label (pc : Q) : Z := if Qlt_bool 0 pc then 1 else 0.

(** The training loop over [range(trainStart, trainEnd+1)]. *)
Fixpoint training (data : Data) (idx : list Z)
    (X : list (list Q)) (y : list Z) : M (list (list Q) * list Z) :=
  match idx with
  | [] => ret (X, y)
  | i :: idx' =>
      vars <- attr variables ;;
      Xs <- call (conditions data i vars []) ;;
      y1 <- call (PercentChange data (i + 1)) ;;
      training data idx' (X ++ [Xs]) (y ++ [label y1])
  end.

(** The local variables of [runModel] that live across the testing loop. *)
Record Locals : Type := mkLocals {
  l_X : list (list Q);
  l_y : list Z;
  l_XX : list (list Q);
  l_yy : list Z;
  l_model : Model;
  testPeriod : Z
}.

(** Lines 102-104: the prediction, 1 (buy), -1 (sell) or 0. *)
Definition predict_decision (buyT sellT neg pos : Q) : Z :=
  if Qle_bool buyT pos then 1
  else if Qle_bool sellT neg then -1
  else 0.

(** Lines 106-110. *)
Definition count_prediction (prediction : Z) : M unit :=
  if prediction =? 1 then
    assign (fun s => set_totalBuys (totalBuys s + 1) s)
  else if prediction =? -1 then
    assign (fun s => set_totalSells (totalSells s + 1) s)
  else ret tt.

(** Lines 122-136. *)
Definition record_outcome (prediction : Z) (nextPeriodPerformance : Q)
    : M unit :=
  if (prediction =? 1) && Qlt_bool 0 nextPeriodPerformance then
    assign (fun s => set_correctBuys (correctBuys s + 1) s)
  else if (prediction =? 1) && Qle_bool nextPeriodPerformance 0 then
    ret tt
  else if (prediction =? -1) && Qlt_bool nextPeriodPerformance 0 then
    assign (fun s => set_correctSells (correctSells s + 1) s)
  else if (prediction =? -1) && Qle_bool 0 nextPeriodPerformance then
    ret tt
  else ret tt.

(** Lines 143-152. *)
Definition update_model (l : Locals) (Xs : list Q)
    (nextPeriodPerformance : Q) (testPeriod' : Z) : M Locals :=
  ct <- attr continuedTraining ;;
  if ct then
    let X := l_X l ++ [Xs] in
    let y := l_y l ++ [label nextPeriodPerformance] in
    XX' <- call (vstack X) ;;
    yy' <- call (hstack y) ;;
    model' <- call (fit (l_model l) XX' yy') ;;
    ret (mkLocals X y XX' yy' model' testPeriod')
  else
    ret (mkLocals (l_X l) (l_y l) (l_XX l) (l_yy l) (l_model l)
           testPeriod').

(** One pass through the body of the [while] loop, lines 96-152. *)
Definition test_body (data : Data) (l : Locals) : M Locals :=
  vars <- attr variables ;;
  Xs <- call (conditions data (testPeriod l) vars []) ;;
  np <- call (Predict (l_model l) Xs) ;;
  buyT <- attr buyThreshold ;;
  sellT <- attr sellThreshold ;;
  let prediction := predict_decision buyT sellT (fst np) (snd np) in
  count_prediction prediction ;;;
  let testPeriod' := testPeriod l + 1 in
  nextPeriodPerformance <- call (PercentChange data testPeriod') ;;
  record_outcome prediction nextPeriodPerformance ;;;
  update_model l Xs nextPeriodPerformance testPeriod'.

(** The body advances the cursor by one. *)
Lemma update_model_testPeriod (l l' : Locals) Xs npp t (self self' : Backtest) :
  update_model l Xs npp t self = (self', Ok l') -> testPeriod l' = t.
Proof.
  unfold update_model, bind, attr, call, ret.
  destruct (continuedTraining self).
  - destruct (vstack _); [|discriminate].
    destruct (hstack _); [|discriminate].
    destruct (fit _ _ _); [|discriminate].
    intros [= _ <-]. reflexivity.
  - intros [= _ <-]. reflexivity.
Qed.

Lemma test_body_testPeriod (data : Data) (l l' : Locals)
    (self self' : Backtest) :
  test_body data l self = (self', Ok l') ->
  testPeriod l' = testPeriod l + 1.
Proof.
  unfold test_body, bind at 1 2 3 4 5 6 7 8, attr, call.
  destruct (conditions _ _ _ _); [|discriminate].
  destruct (Predict _ _); [|discriminate].
  destruct (count_prediction _ _) as [s1 [[]|]]; [|discriminate].
  destruct (PercentChange _ _); [|discriminate].
  destruct (record_outcome _ _ _) as [s2 [[]|]]; [|discriminate].
  apply update_model_testPeriod.
Qed.

(** [while (testPeriod < testEnd): ...], lines 88-152. *)
Equations? testing (data : Data) (testEnd' : Z) (l : Locals)
    (self : Backtest) : Backtest * result Locals
    by wf (Z.to_nat (testEnd' - testPeriod l)) lt :=
  testing data testEnd' l self with Z_lt_dec (testPeriod l) testEnd' := {
    | right _ => (self, Ok l)
    | left _ with inspect (test_body data l self) := {
        | exist _ (self', Ok l') _ => testing data testEnd' l' self'
        | exist _ (self', Raise e) _ => (self', Raise e)
      }
  }.
Proof.
  apply test_body_testPeriod in e. lia.
Qed.

(** [runModel(self, data)], lines 48-157. *)
Definition runModel (data : Data) : M unit :=
  stocks0 <- attr stocks ;;
  stock <- call (last_item stocks0) ;;
  i1 <- attr trainStart ;;
  trainStart' <- call (DateIndex data i1 false stock) ;;
  i2 <- attr trainEnd ;;
  trainEnd' <- call (DateIndex data i2 true stock) ;;
  i3 <- attr testStart ;;
  testStart' <- call (DateIndex data i3 false stock) ;;
  i4 <- attr testEnd ;;
  testEnd' <- call (DateIndex data i4 true stock) ;;
  d1 <- call (date_strftime data trainStart') ;;
  d2 <- call (date_strftime data trainEnd') ;;
  d3 <- call (date_strftime data testStart') ;;
  d4 <- call (date_strftime data testEnd') ;;
  assign (fun s => set_dates (dates s ++ [[d1; d2; d3; d4]]) s) ;;;
  Xy <- training data (range trainStart' (trainEnd' + 1)) [] [] ;;
  XX' <- call (vstack (fst Xy)) ;;
  yy' <- call (hstack (snd Xy)) ;;
  c <- attr C ;;
  g <- attr gamma ;;
  model' <- call (fit (SVC c g) XX' yy') ;;
  l <- testing data testEnd'
         (mkLocals (fst Xy) (snd Xy) XX' yy' model' testStart') ;;
  assign (set_visualize (l_XX l) (l_yy l) (l_model l)).

(** [backtest.stocks.append(stock)], which the caller does before a run:
    [runModel] reads the last symbol of [self.stocks]. *)
Definition add_stock (stock : string) (self : Backtest) : Backtest :=
  set_stocks (stocks self ++ [stock]) self.

(** *** Statistics, lines 159-165 *)

(** [round(x, ndigits)] for a float [x] and [ndigits >= 0]: the value of
    [x] rounded half to even at [ndigits] decimals, as a float. *)
Definition round (x : Q) (ndigits : nat) : Q :=
  let p := inject_Z (10 ^ Z.of_nat ndigits) in
  fl (inject_Z (round_half_even (x * p)) / p)%Q.

(** [float(a) / b] for two ints: raises [ZeroDivisionError] when [b == 0]. *)
Definition float_div (a b : Z) : result Q :=
  if b =? 0 then Raise ZeroDivisionError
  else Ok (fl (fl (inject_Z a) / fl (inject_Z b)))%Q.

Definition buyStats (self : Backtest) : result Q :=
  match float_div (correctBuys self) (totalBuys self) with
  | Ok q => Ok (round (fl (q * 100)) 2)
  | Raise ZeroDivisionError => Ok 0%Q
  | Raise e => Raise e
  end.

Definition sellStats (self : Backtest) : result Q :=
  match float_div (correctSells self) (totalSells self) with
  | Ok q => Ok (round (fl (q * 100)) 2)
  | Raise ZeroDivisionError => Ok 0%Q
  | Raise e => Raise e
  end.

(** *** visualizeModel, lines 218-247 *)

(** What a method shows to the outside: lines printed and files saved. *)
Inductive Event : Type :=
| Print (line : string)
| SaveFig (path : string) (fig : Figure).

Definition visualizeModel (width height stepsize : Q) (self : Backtest)
    : Backtest * (list Event * result unit) :=
  if negb (Nat.eqb (List.length (variables self)) 2) then
    (self, ([Print "Error: Plotting is restricted to 2 dimensions"], Ok tt))
  else
    match XX self, yy self, model self with
    | Some X, Some y, Some m =>
        match fit_transform X with
        | Raise e => (self, ([], Raise e))
        | Ok Xn =>
            match fit m Xn y with
            | Raise e => (self, ([], Raise e))
            | Ok m' =>
                let self' := set_model (Some m') self in
                match contour_grid width height stepsize m' Xn with
                | Raise e => (self', ([], Raise e))
                | Ok g =>
                    match last_item (stocks self') with
                    | Raise e => (self', ([], Raise e))
                    | Ok stock =>
                        match draw g stock Xn y with
                        | Raise e => (self', ([], Raise e))
                        | Ok fig =>
                            (self',
                             ([SaveFig (stock ++ ".png") fig], Ok tt))
                        end
                    end
                end
            end
        end
    | _, _, _ =>
        (self, ([Print "Error: Please run model before visualizing"], Ok tt))
    end.

(** *** displayConditions and displayStats, lines 167-216

    [print] is the function of Python 3: its arguments are written with a
    space between them.  A method here gives the lines it prints and
    whether it returns or raises. *)

(** [str(i)] for an int and [str(b)] for a bool. *)
Definition str_int (z : Z) : string := NilZero.string_of_int (Z.to_int z).
Definition str_bool (b : bool) : string :=
  if b then "True"%string else "False"%string.

(** The escape sequences [bld], [gre], [red], [end] and a line feed. *)
Definition esc : string := String (ascii_of_nat 27) EmptyString.
Definition bld : string := (esc ++ "[1m")%string.
Definition gre : string := (esc ++ "[92m")%string.
Definition red : string := (esc ++ "[91m")%string.
Definition end_ : string := (esc ++ "[0m")%string.
Definition newline : string := String (ascii_of_nat 10) EmptyString.

(** Lines 171-174: one line per variable, numbered from [i]. *)
Fixpoint condition_lines (i : Z) (vars : list string) : list Event :=
  match vars with
  | [] => []
  | var :: vars' =>
      Print ("X" ++ str_int i ++ ": " ++ var)%string
      :: condition_lines (i + 1) vars'
  end.

(** [displayConditions(self)]: it cannot raise. *)
Definition displayConditions (self : Backtest) : list Event :=
  [Print (bld ++ "Conditions" ++ end_)%string]
  ++ condition_lines 1 (variables self)
  ++ [Print ("Buy Threshold: "
             ++ str_float (fl (buyThreshold self * 100)) ++ "%")%string;
      Print ("Sell Threshold: "
             ++ str_float (fl (sellThreshold self * 100)) ++ "%")%string;
      Print ("C: " ++ str_float (C self))%string;
      Print ("gamma: " ++ str_float (gamma self))%string;
      Print ("Continued Training: "
             ++ str_bool (continuedTraining self))%string].

(** [self.dates[i][k]]. *)
Definition date_item (ds : list (list string)) (i k : nat) : result string :=
  match nth_error ds i with
  | None => Raise IndexError
  | Some d =>
      match nth_error d k with
      | None => Raise IndexError
      | Some x => Ok x
      end
  end.

(** Lines 191-196: one line per stock, with the dates of the same index. *)
Fixpoint stock_lines (ds : list (list string)) (i : nat)
    (stocks0 : list string) : list Event * result unit :=
  match stocks0 with
  | [] => ([], Ok tt)
  | stock :: rest =>
      match date_item ds i 0 with Raise e => ([], Raise e) | Ok d0 =>
      match date_item ds i 1 with Raise e => ([], Raise e) | Ok d1 =>
      match date_item ds i 2 with Raise e => ([], Raise e) | Ok d2 =>
      match date_item ds i 3 with Raise e => ([], Raise e) | Ok d3 =>
        let line :=
          Print (stock ++ " |" ++ " " ++ "Training: " ++ d0 ++ "-" ++ d1
                 ++ " " ++ "Testing: " ++ d2 ++ "-" ++ d3)%string in
        let rest_lines := stock_lines ds (S i) rest in
        (line :: fst rest_lines, snd rest_lines)
      end end end end
  end.

(** Lines 200-205 and 210-215: the accuracy in green above 50, in red
    below, plain at 50. *)
Definition accuracy_text (v : Q) : string :=
  if Qlt_bool 50 v then (gre ++ str_float v ++ "%" ++ end_)%string
  else if Qlt_bool v 50 then (red ++ str_float v ++ "%" ++ end_)%string
  else (str_float v ++ "%")%string.

(** [displayStats(self)]. *)
Definition displayStats (self : Backtest) : list Event * result unit :=
  if Nat.eqb (List.length (dates self)) 0 then
    ([Print "Error: Please run model before displaying stats"], Ok tt)
  else
    let header := [Print (bld ++ "Stats" ++ end_)%string;
                   Print "Stock(s):"] in
    match stock_lines (dates self) 0 (stocks self) with
    | (ev, Raise e) => (header ++ ev, Raise e)
    | (ev, Ok _) =>
        let ev1 :=
          header ++ ev
          ++ [Print (newline ++ "Total Buys: "
                     ++ str_int (totalBuys self))%string] in
        match buyStats self with
        | Raise e => (ev1, Raise e)
        | Ok vb =>
            let ev2 :=
              ev1
              ++ [Print ("Buy Accuracy:" ++ " " ++ accuracy_text vb)%string;
                  Print ("Total Sells: "
                         ++ str_int (totalSells self))%string] in
            match sellStats self with
            | Raise e => (ev2, Raise e)
            | Ok vs =>
                (ev2
                 ++ [Print ("Sell Accuracy:" ++ " "
                            ++ accuracy_text vs)%string],
                 Ok tt)
            end
        end
    end.

(* ---------------------------------------------------------------- *)
(** ** Vocabulary of the properties

    Nothing below is called by the methods: these definitions name what
    the theorems speak about. *)

(** The four counters written at once (a proof device: the methods only
    ever write them one by one). *)
Definition set_stats (tb cb ts cs : Z) (s : Backtest) : Backtest :=
  mkBacktest (variables s) (trainStart s) (trainEnd s) (testStart s)
    (testEnd s) (buyThreshold s) (sellThreshold s) (C s) (gamma s)
    (continuedTraining s) (stocks s) (dates s) tb cb ts cs
    (XX s) (yy s) (model s).

(** Increments of the counters for a prediction and an outcome. *)
Definition buys_of (p : Z) : Z := if p =? 1 then 1 else 0.
Definition sells_of (p : Z) : Z := if p =? -1 then 1 else 0.
Definition good_buy (p : Z) (o : Q) : Z :=
  if (p =? 1) && Qlt_bool 0 o then 1 else 0.
Definition good_sell (p : Z) (o : Q) : Z :=
  if (p =? -1) && Qlt_bool o 0 then 1 else 0.

(** The increments of one iteration: total buys, correct buys, total
    sells, correct sells.  A call that raises stops the iteration, and
    what was counted before it stays counted. *)
Definition tally (data : Data) (l : Locals) (self : Backtest)
    : Z * Z * Z * Z :=
  match conditions data (testPeriod l) (variables self) [] with
  | Raise _ => (0, 0, 0, 0)
  | Ok Xs =>
      match Predict (l_model l) Xs with
      | Raise _ => (0, 0, 0, 0)
      | Ok np =>
          let p := predict_decision (buyThreshold self)
                     (sellThreshold self) (fst np) (snd np) in
          match PercentChange data (testPeriod l + 1) with
          | Raise _ => (buys_of p, 0, sells_of p, 0)
          | Ok o => (buys_of p, good_buy p o, sells_of p, good_sell p o)
          end
      end
  end.

(** The cursor of the loop set to [t]. *)
Definition set_testPeriod (t : Z) (l : Locals) : Locals :=
  mkLocals (l_X l) (l_y l) (l_XX l) (l_yy l) (l_model l) t.

(** The body of the loop run once for each index of a list, in the order of
    the list, with the cursor at that index on entry. *)
Fixpoint test_each (data : Data) (idx : list Z) (l : Locals) : M Locals :=
  match idx with
  | [] => ret l
  | t :: idx' =>
      l' <- test_body data (set_testPeriod t l) ;;
      test_each data idx' l'
  end.

(** The attributes that decide which calls a run makes and what its local
    variables hold: everything but the thresholds, the statistics and the
    data kept for plotting. *)
Definition same_setup (s1 s2 : Backtest) : Prop :=
  variables s1 = variables s2
  /\ trainStart s1 = trainStart s2
  /\ trainEnd s1 = trainEnd s2
  /\ testStart s1 = testStart s2
  /\ testEnd s1 = testEnd s2
  /\ C s1 = C s2
  /\ gamma s1 = gamma s2
  /\ continuedTraining s1 = continuedTraining s2
  /\ stocks s1 = stocks s2.

(** Two computations that, from related instances, give the same result
    and leave related instances. *)
Definition lockstep (R : Backtest -> Backtest -> Prop) {A : Type}
    (m1 m2 : M A) : Prop :=
  forall s1 s2, R s1 s2 ->
    snd (m1 s1) = snd (m2 s2) /\ R (fst (m1 s1)) (fst (m2 s2)).

(** Second run has the higher buy threshold and no more buys so far. *)
Definition fewer_buys (s1 s2 : Backtest) : Prop :=
  same_setup s1 s2
  /\ (buyThreshold s1 <= buyThreshold s2)%Q
  /\ totalBuys s2 <= totalBuys s1.

(** From [s] to [s']: the configuration and the symbols stay, dates are
    only appended, and each correct counter grows by no more than its
    total does. *)
Definition evolves (s s' : Backtest) : Prop :=
  same_setup s s'
  /\ buyThreshold s' = buyThreshold s
  /\ sellThreshold s' = sellThreshold s
  /\ (exists D, dates s' = dates s ++ D)
  /\ 0 <= correctBuys s' - correctBuys s <= totalBuys s' - totalBuys s
  /\ 0 <= correctSells s' - correctSells s <= totalSells s' - totalSells s.

(** A computation whose every outcome, returned or raised, leaves the
    instance in relation [P] with the one it started from. *)
Definition keeps (P : Backtest -> Backtest -> Prop) {A : Type} (m : M A)
    : Prop :=
  forall s, P s (fst (m s)).

(** The training pair of index [i]: the conditions at [i] and the label of
    the percent change at [i+1]. *)
Definition features_at (data : Data) (vars : list string) (i : Z)
    (Xs : list Q) : Prop :=
  conditions data i vars [] = Ok Xs.

Definition label_at (data : Data) (i : Z) (lab : Z) : Prop :=
  exists o, PercentChange data (i + 1) = Ok o
            /\ ((0 < o)%Q /\ lab = 1 \/ (o <= 0)%Q /\ lab = 0).

(** The instance after the loop differs from the one before in the four
    counters only. *)
Definition only_stats (s s' : Backtest) : Prop :=
  s' = set_stats (totalBuys s') (correctBuys s') (totalSells s')
         (correctSells s') s.

(** The instance with its statistics as the constructor leaves them. *)
Definition clear_stats (s : Backtest) : Backtest :=
  set_dates [] (set_stats 0 0 0 0 s).

(** [s] is [s0] with the statistics of [base] added in front. *)
Definition on_top_of (base s s0 : Backtest) : Prop :=
  same_setup s s0
  /\ buyThreshold s = buyThreshold s0
  /\ sellThreshold s = sellThreshold s0
  /\ dates s = dates base ++ dates s0
  /\ totalBuys s = totalBuys base + totalBuys s0
  /\ correctBuys s = correctBuys base + correctBuys s0
  /\ totalSells s = totalSells base + totalSells s0
  /\ correctSells s = correctSells base + correctSells s0.

(** The states an instance goes through: built by the constructor, given
    a symbol by the caller, after a run (returned or raised), after any
    iteration of the testing loop, inside an iteration between the update
    of the totals and the outcome, and after a call to [visualizeModel]. *)
Inductive reachable : Backtest -> Prop :=
| reach_init vars d1 d2 d3 d4 b s c g ct tz self :
    __init__ vars d1 d2 d3 d4 b s c g ct tz = Ok self -> reachable self
| reach_add_stock stock self :
    reachable self -> reachable (add_stock stock self)
| reach_run data self :
    reachable self -> reachable (fst (runModel data self))
| reach_iteration data l self :
    reachable self -> reachable (fst (test_body data l self))
| reach_count p self :
    reachable self -> reachable (fst (count_prediction p self))
| reach_visualize w h st self :
    reachable self -> reachable (fst (visualizeModel w h st self)).

(** The ratios are fractions between 0 and 1. *)
Definition counters_ok (s : Backtest) : Prop :=
  0 <= correctBuys s <= totalBuys s /\ 0 <= correctSells s <= totalSells s.

(** The model held on entry to an iteration was fitted on the matrices
    held with it. *)
Definition fitted_on (l : Locals) : Prop :=
  exists m0, fit m0 (l_XX l) (l_yy l) = Ok (l_model l).

(** Every entry of the date list holds four strings. *)
Definition dates_ok (s : Backtest) : Prop :=
  Forall (fun d => List.length d = 4%nat) (dates s).

(** The data kept for plotting is absent altogether, or present altogether
    on an instance that has a symbol and a date entry. *)
Definition plot_data_ok (s : Backtest) : Prop :=
  (XX s = None /\ yy s = None /\ model s = None)
  \/ (XX s <> None /\ yy s <> None /\ model s <> None
      /\ stocks s <> [] /\ dates s <> []).

(** Second run has the higher sell threshold: the same buys, no more
    sells. *)
Definition fewer_sells (s1 s2 : Backtest) : Prop :=
  same_setup s1 s2
  /\ buyThreshold s1 = buyThreshold s2
  /\ (sellThreshold s1 <= sellThreshold s2)%Q
  /\ totalBuys s2 = totalBuys s1
  /\ correctBuys s2 = correctBuys s1
  /\ totalSells s2 <= totalSells s1
  /\ correctSells s2 <= correctSells s1.

(** Second run has the higher buy threshold: no fewer sells, no more
    decisions. *)
Definition buys_turn_into_sells (s1 s2 : Backtest) : Prop :=
  same_setup s1 s2
  /\ (buyThreshold s1 <= buyThreshold s2)%Q
  /\ sellThreshold s1 = sellThreshold s2
  /\ totalSells s1 <= totalSells s2
  /\ totalBuys s2 + totalSells s2 <= totalBuys s1 + totalSells s1.

(** [self.sellThreshold = v]; no method assigns it, a caller may. *)
Definition set_sellThreshold (v : Q) (s : Backtest) : Backtest :=
  mkBacktest (variables s) (trainStart s) (trainEnd s) (testStart s)
    (testEnd s) (buyThreshold s) v (C s) (gamma s)
    (continuedTraining s) (stocks s) (dates s) (totalBuys s)
    (correctBuys s) (totalSells s) (correctSells s) (XX s) (yy s)
    (model s).

(* ---------------------------------------------------------------- *)
(** ** Basic facts *)

Lemma Qlt_bool_iff (x y : Q) : Qlt_bool x y = true <-> (x < y)%Q.
Proof. unfold Qlt_bool, Qlt. apply Z.ltb_lt. Qed.

Lemma Qlt_bool_false_iff (x y : Q) : Qlt_bool x y = false <-> (y <= x)%Q.
Proof. unfold Qlt_bool, Qle. apply Z.ltb_ge. Qed.

Lemma Qle_bool_false_iff (x y : Q) : Qle_bool x y = false <-> (y < x)%Q.
Proof.
  unfold Qle_bool, Qlt. rewrite Z.leb_gt. reflexivity.
Qed.

Lemma count_prediction_ok (p : Z) (self : Backtest) :
  snd (count_prediction p self) = Ok tt.
Proof.
  unfold count_prediction.
  destruct (p =? 1); [reflexivity|]. destruct (p =? -1); reflexivity.
Qed.

Lemma record_outcome_ok (p : Z) (o : Q) (self : Backtest) :
  snd (record_outcome p o self) = Ok tt.
Proof.
  unfold record_outcome.
  repeat match goal with
         | |- context [if ?b then _ else _] => destruct b
         end; reflexivity.
Qed.

Lemma update_model_self (l : Locals) Xs o t (self : Backtest) :
  fst (update_model l Xs o t self) = self.
Proof.
  unfold update_model, bind, attr, call, ret.
  destruct (continuedTraining self); [|reflexivity].
  destruct (vstack _); [|reflexivity].
  destruct (hstack _); [|reflexivity].
  destruct (fit _ _ _); reflexivity.
Qed.

(** The body, call by call. *)
Lemma test_body_unfold (data : Data) (l : Locals) (self : Backtest) :
  test_body data l self =
  match conditions data (testPeriod l) (variables self) [] with
  | Raise e => (self, Raise e)
  | Ok Xs =>
      match Predict (l_model l) Xs with
      | Raise e => (self, Raise e)
      | Ok np =>
          let p := predict_decision (buyThreshold self)
                     (sellThreshold self) (fst np) (snd np) in
          let s1 := fst (count_prediction p self) in
          match PercentChange data (testPeriod l + 1) with
          | Raise e => (s1, Raise e)
          | Ok o =>
              update_model l Xs o (testPeriod l + 1)
                (fst (record_outcome p o s1))
          end
      end
  end.
Proof.
  unfold test_body, bind at 1 2 3 4 5 6 7 8, attr, call.
  destruct (conditions _ _ _ _) as [Xs|]; [|reflexivity].
  destruct (Predict _ _) as [np|]; [|reflexivity].
  cbv zeta.
  pose proof (count_prediction_ok
                (predict_decision (buyThreshold self) (sellThreshold self)
                   (fst np) (snd np)) self) as Hc.
  destruct (count_prediction _ self) as [s1 r1]. simpl in Hc. subst r1.
  simpl fst.
  destruct (PercentChange _ _) as [o|]; [|reflexivity].
  pose proof (record_outcome_ok
                (predict_decision (buyThreshold self) (sellThreshold self)
                   (fst np) (snd np)) o s1) as Hr.
  destruct (record_outcome _ _ s1) as [s2 r2]. simpl in Hr. subst r2.
  reflexivity.
Qed.

(** The loop, one turn at a time. *)
Lemma testing_loop (data : Data) (tE : Z) (l : Locals) (self : Backtest) :
  testing data tE l self =
  if testPeriod l <? tE then
    match test_body data l self with
    | (self', Ok l') => testing data tE l' self'
    | (self', Raise e) => (self', Raise e)
    end
  else (self, Ok l).
Proof.
  rewrite testing_equation_1.
  destruct (Z_lt_dec (testPeriod l) tE) as [Hlt|Hge]; simpl.
  - apply Z.ltb_lt in Hlt. rewrite Hlt.
    destruct (test_body data l self) as [s' [l'|e]]; reflexivity.
  - apply Z.nlt_ge, Z.ltb_ge in Hge. rewrite Hge. reflexivity.
Qed.

(* ---------------------------------------------------------------- *)
(** ** What one iteration does to the counters *)

Lemma set_stats_id (s : Backtest) :
  set_stats (totalBuys s) (correctBuys s) (totalSells s) (correctSells s) s
  = s.
Proof. destruct s; reflexivity. Qed.

Lemma count_prediction_eq (p : Z) (s : Backtest) :
  fst (count_prediction p s) =
  set_stats (totalBuys s + buys_of p) (correctBuys s)
    (totalSells s + sells_of p) (correctSells s) s.
Proof.
  unfold count_prediction, buys_of, sells_of.
  destruct (Z.eqb_spec p 1) as [->|H1]; simpl.
  - rewrite Z.add_0_r. reflexivity.
  - destruct (Z.eqb_spec p (-1)); simpl;
      rewrite ?Z.add_0_r; [reflexivity|].
    symmetry. apply set_stats_id.
Qed.

Lemma record_outcome_eq (p : Z) (o : Q) (s : Backtest) :
  fst (record_outcome p o s) =
  set_stats (totalBuys s) (correctBuys s + good_buy p o)
    (totalSells s) (correctSells s + good_sell p o) s.
Proof.
  unfold record_outcome, good_buy, good_sell.
  destruct (Z.eqb_spec p 1) as [->|H1]; simpl.
  - rewrite Z.add_0_r.
    destruct (Qlt_bool 0 o); simpl.
    + reflexivity.
    + rewrite Z.add_0_r.
      destruct (Qle_bool o 0); symmetry; apply set_stats_id.
  - rewrite Z.add_0_r.
    destruct (Z.eqb_spec p (-1)) as [->|H2]; simpl.
    + destruct (Qlt_bool o 0); simpl.
      * reflexivity.
      * rewrite Z.add_0_r.
        destruct (Qle_bool 0 o); symmetry; apply set_stats_id.
    + rewrite Z.add_0_r. symmetry. apply set_stats_id.
Qed.

Lemma test_body_self (data : Data) (l : Locals) (self : Backtest) :
  fst (test_body data l self) =
  let '(tb, cb, ts, cs) := tally data l self in
  set_stats (totalBuys self + tb) (correctBuys self + cb)
    (totalSells self + ts) (correctSells self + cs) self.
Proof.
  rewrite test_body_unfold. unfold tally.
  destruct (conditions _ _ _ _) as [Xs|]; simpl.
  2:{ rewrite !Z.add_0_r. symmetry. apply set_stats_id. }
  destruct (Predict _ _) as [np|]; simpl.
  2:{ rewrite !Z.add_0_r. symmetry. apply set_stats_id. }
  destruct (PercentChange _ _) as [o|]; simpl.
  - rewrite update_model_self, record_outcome_eq, count_prediction_eq.
    reflexivity.
  - rewrite count_prediction_eq, !Z.add_0_r. reflexivity.
Qed.

Lemma predict_decision_cases (b s neg pos : Q) :
  ((b <= pos)%Q /\ predict_decision b s neg pos = 1)
  \/ ((pos < b)%Q /\ (s <= neg)%Q /\ predict_decision b s neg pos = -1)
  \/ ((pos < b)%Q /\ (neg < s)%Q /\ predict_decision b s neg pos = 0).
Proof.
  unfold predict_decision.
  destruct (Qle_bool b pos) eqn:Hb.
  - left. split; [apply Qle_bool_iff, Hb|reflexivity].
  - apply Qle_bool_false_iff in Hb. right.
    destruct (Qle_bool s neg) eqn:Hs.
    + left. repeat split; [exact Hb|apply Qle_bool_iff, Hs].
    + right. apply Qle_bool_false_iff in Hs. repeat split; assumption.
Qed.

(** C1. In an iteration of the testing loop that gets as far as the
    prediction, the rule is tried buy first: if P(up) >= buyThreshold the
    prediction is 1 and totalBuys alone is incremented; else if
    P(down) >= sellThreshold it is -1 and totalSells alone is
    incremented; else it is 0 and neither is.  When both thresholds are
    reached the iteration counts a buy and no sell. *)
Theorem decision_buy_first (data : Data) (l : Locals) (self : Backtest)
    (Xs : list Q) (neg pos : Q) :
  conditions data (testPeriod l) (variables self) [] = Ok Xs ->
  Predict (l_model l) Xs = Ok (neg, pos) ->
  let b := buyThreshold self in
  let s := sellThreshold self in
  let self' := fst (test_body data l self) in
  ((b <= pos)%Q ->
     predict_decision b s neg pos = 1
     /\ totalBuys self' = totalBuys self + 1
     /\ totalSells self' = totalSells self)
  /\ ((pos < b)%Q -> (s <= neg)%Q ->
     predict_decision b s neg pos = -1
     /\ totalBuys self' = totalBuys self
     /\ totalSells self' = totalSells self + 1)
  /\ ((pos < b)%Q -> (neg < s)%Q ->
     predict_decision b s neg pos = 0
     /\ totalBuys self' = totalBuys self
     /\ totalSells self' = totalSells self)
  /\ ((b <= pos)%Q -> (s <= neg)%Q ->
     predict_decision b s neg pos = 1
     /\ totalBuys self' = totalBuys self + 1
     /\ totalSells self' = totalSells self).
Proof.
  intros HX HP b s self'.
  assert (Hself : totalBuys self'
                  = totalBuys self + buys_of (predict_decision b s neg pos)
                  /\ totalSells self'
                  = totalSells self + sells_of (predict_decision b s neg pos)).
  { subst self'. rewrite test_body_self. unfold tally.
    rewrite HX, HP. simpl fst; simpl snd. fold b s.
    destruct (PercentChange _ _); simpl; split; reflexivity. }
  destruct Hself as [Hb Hs]. rewrite Hb, Hs.
  destruct (predict_decision_cases b s neg pos)
    as [[H1 ->]|[[H1 [H2 ->]]|[H1 [H2 ->]]]];
    unfold buys_of, sells_of; simpl;
    repeat split; intros;
    try reflexivity; try lia;
    try (exfalso; eapply Qlt_irrefl, Qle_lt_trans; eassumption);
    try (exfalso; eapply Qlt_irrefl, Qlt_le_trans; eassumption).
Qed.

Lemma predict_decision_range (b s neg pos : Q) :
  predict_decision b s neg pos = 1
  \/ predict_decision b s neg pos = -1
  \/ predict_decision b s neg pos = 0.
Proof.
  destruct (predict_decision_cases b s neg pos) as [[_ H]|[[_ [_ H]]|[_ [_ H]]]];
    auto.
Qed.

(** The correct counters after an iteration whose three calls return. *)
Lemma test_body_correct (data : Data) (l : Locals) (self : Backtest)
    (Xs : list Q) (np : Q * Q) (o : Q) :
  conditions data (testPeriod l) (variables self) [] = Ok Xs ->
  Predict (l_model l) Xs = Ok np ->
  PercentChange data (testPeriod l + 1) = Ok o ->
  let p := predict_decision (buyThreshold self) (sellThreshold self)
             (fst np) (snd np) in
  let self' := fst (test_body data l self) in
  correctBuys self' = correctBuys self + good_buy p o
  /\ correctSells self' = correctSells self + good_sell p o.
Proof.
  intros HX HP HO p self'. subst self'.
  rewrite test_body_self. unfold tally. rewrite HX, HP, HO.
  split; reflexivity.
Qed.

(** C3. In an iteration whose outcome is [o]: after a buy (prediction 1)
    correctBuys is incremented exactly when [o > 0]; after a sell
    (prediction -1) correctSells is incremented exactly when [o < 0];
    after a hold (prediction 0) neither correct counter moves; and an
    outcome of exactly 0 moves neither, whatever the prediction. *)
Theorem outcome_zero_is_incorrect (data : Data) (l : Locals)
    (self : Backtest) (Xs : list Q) (neg pos o : Q) :
  conditions data (testPeriod l) (variables self) [] = Ok Xs ->
  Predict (l_model l) Xs = Ok (neg, pos) ->
  PercentChange data (testPeriod l + 1) = Ok o ->
  let p := predict_decision (buyThreshold self) (sellThreshold self)
             neg pos in
  let self' := fst (test_body data l self) in
  (p = 1 ->
     (correctBuys self' = correctBuys self + 1 <-> (0 < o)%Q)
     /\ (correctBuys self' = correctBuys self <-> (o <= 0)%Q)
     /\ correctSells self' = correctSells self)
  /\ (p = -1 ->
     (correctSells self' = correctSells self + 1 <-> (o < 0)%Q)
     /\ (correctSells self' = correctSells self <-> (0 <= o)%Q)
     /\ correctBuys self' = correctBuys self)
  /\ (p = 0 ->
     correctBuys self' = correctBuys self
     /\ correctSells self' = correctSells self)
  /\ ((o == 0)%Q ->
     correctBuys self' = correctBuys self
     /\ correctSells self' = correctSells self).
Proof.
  intros HX HP HO p self'.
  destruct (@test_body_correct data l self Xs (neg, pos) o HX HP HO) as [Hb Hs].
  simpl fst in Hb, Hs; simpl snd in Hb, Hs.
  fold p self' in Hb, Hs. rewrite Hb, Hs. clear Hb Hs.
  unfold good_buy, good_sell.
  destruct (Qlt_bool 0 o) eqn:Epos;
    [apply Qlt_bool_iff in Epos|apply Qlt_bool_false_iff in Epos];
    (destruct (Qlt_bool o 0) eqn:Eneg;
     [apply Qlt_bool_iff in Eneg|apply Qlt_bool_false_iff in Eneg]);
    repeat split; intros;
    repeat match goal with
           | H : p = _ |- _ => rewrite H in *; simpl in *
           | H : (o == 0)%Q |- _ => rewrite H in *
           | H : (?a < ?a)%Q |- _ => destruct (Qlt_irrefl _ H)
           | |- context [(p =? ?k)] => destruct (p =? k); simpl
           end;
    try lia; try assumption;
    try (unfold Qlt, Qle in *; simpl in *; lia).
Qed.

(* ---------------------------------------------------------------- *)
(** ** The indices the testing loop visits *)

Lemma range_nil (lo hi : Z) : hi <= lo -> range lo hi = [].
Proof.
  intros H. unfold range.
  replace (Z.to_nat (hi - lo)) with 0%nat by lia. reflexivity.
Qed.

Lemma range_cons (lo hi : Z) :
  lo < hi -> range lo hi = lo :: range (lo + 1) hi.
Proof.
  intros H. unfold range.
  replace (Z.to_nat (hi - lo)) with (S (Z.to_nat (hi - (lo + 1)))) by lia.
  simpl. f_equal; [lia|].
  rewrite <- seq_shift, map_map.
  apply map_ext. intros k. lia.
Qed.

Lemma range_length (lo hi : Z) :
  Z.of_nat (List.length (range lo hi)) = Z.max 0 (hi - lo).
Proof.
  unfold range. rewrite length_map, length_seq. lia.
Qed.

Lemma set_testPeriod_id (l : Locals) : set_testPeriod (testPeriod l) l = l.
Proof. destruct l; reflexivity. Qed.

Lemma testing_test_each (data : Data) (tE : Z) (n : nat) :
  forall (l : Locals) (self : Backtest),
    Z.to_nat (tE - testPeriod l) = n ->
    testing data tE l self
    = test_each data (range (testPeriod l) tE) l self.
Proof.
  induction n as [|n IH]; intros l self Hn; rewrite testing_loop.
  - assert (Hge : tE <= testPeriod l) by lia.
    rewrite (proj2 (Z.ltb_ge _ _) Hge), range_nil by exact Hge.
    reflexivity.
  - assert (Hlt : testPeriod l < tE) by lia.
    rewrite (proj2 (Z.ltb_lt _ _) Hlt), range_cons by exact Hlt.
    simpl. unfold bind. rewrite set_testPeriod_id.
    destruct (test_body data l self) as [self' [l'|e]] eqn:E;
      [|reflexivity].
    pose proof (test_body_testPeriod _ _ _ E) as Ht.
    rewrite <- Ht. apply IH. lia.
Qed.

(* ---------------------------------------------------------------- *)
(** ** Two runs side by side *)

Section Lockstep.

Variable R : Backtest -> Backtest -> Prop.
Hypothesis R_setup : forall s1 s2, R s1 s2 -> same_setup s1 s2.

Lemma lockstep_ret {A} (a : A) : lockstep R (ret a) (ret a).
Proof. intros s1 s2 H. split; [reflexivity|exact H]. Qed.

Lemma lockstep_call {A} (r : result A) : lockstep R (call r) (call r).
Proof. intros s1 s2 H. split; [reflexivity|exact H]. Qed.

Lemma lockstep_attr {A} (f : Backtest -> A) :
  (forall s1 s2, same_setup s1 s2 -> f s1 = f s2) ->
  lockstep R (attr f) (attr f).
Proof.
  intros Hf s1 s2 H. split; [|exact H].
  simpl. f_equal. apply Hf, R_setup, H.
Qed.

Lemma lockstep_assign (f : Backtest -> Backtest) :
  (forall s1 s2, R s1 s2 -> R (f s1) (f s2)) ->
  lockstep R (assign f) (assign f).
Proof. intros Hf s1 s2 H. split; [reflexivity|apply Hf, H]. Qed.

Lemma lockstep_bind {A B} (m1 m2 : M A) (k1 k2 : A -> M B) :
  lockstep R m1 m2 ->
  (forall a, lockstep R (k1 a) (k2 a)) ->
  lockstep R (bind m1 k1) (bind m2 k2).
Proof.
  intros Hm Hk s1 s2 H. unfold bind.
  destruct (Hm s1 s2 H) as [Hr Hs].
  destruct (m1 s1) as [s1' [a1|e1]], (m2 s2) as [s2' [a2|e2]];
    simpl in Hr, Hs; try discriminate.
  - injection Hr as ->. apply Hk, Hs.
  - injection Hr as ->. split; [reflexivity|exact Hs].
Qed.

Lemma update_model_result (l : Locals) Xs o t (s1 s2 : Backtest) :
  continuedTraining s1 = continuedTraining s2 ->
  snd (update_model l Xs o t s1) = snd (update_model l Xs o t s2).
Proof.
  intros H. unfold update_model, bind, attr, call, ret. rewrite H.
  destruct (continuedTraining s2); [|reflexivity].
  destruct (vstack _); [|reflexivity].
  destruct (hstack _); [|reflexivity].
  destruct (fit _ _ _); reflexivity.
Qed.

(** The result of an iteration does not depend on the thresholds or on
    the counters. *)
Lemma test_body_result (data : Data) (l : Locals) (s1 s2 : Backtest) :
  same_setup s1 s2 ->
  snd (test_body data l s1) = snd (test_body data l s2).
Proof.
  intros (Hv & _ & _ & _ & _ & _ & _ & Hc & _).
  rewrite !test_body_unfold, Hv.
  destruct (conditions _ _ _ _) as [Xs|]; [|reflexivity].
  destruct (Predict _ _) as [np|]; [|reflexivity].
  cbv zeta.
  destruct (PercentChange _ _) as [o|]; [|reflexivity].
  apply update_model_result.
  rewrite !record_outcome_eq, !count_prediction_eq. exact Hc.
Qed.

Hypothesis R_body : forall data l s1 s2, R s1 s2 ->
  R (fst (test_body data l s1)) (fst (test_body data l s2)).

Lemma lockstep_test_body (data : Data) (l : Locals) :
  lockstep R (test_body data l) (test_body data l).
Proof.
  intros s1 s2 H. split.
  - apply test_body_result, R_setup, H.
  - apply R_body, H.
Qed.

Lemma lockstep_testing (data : Data) (tE : Z) (n : nat) :
  forall l, Z.to_nat (tE - testPeriod l) = n ->
    lockstep R (testing data tE l) (testing data tE l).
Proof.
  induction n as [|n IH]; intros l Hn s1 s2 H; rewrite !testing_loop.
  - replace (testPeriod l <? tE) with false by (symmetry; apply Z.ltb_ge; lia).
    split; [reflexivity|exact H].
  - replace (testPeriod l <? tE) with true by (symmetry; apply Z.ltb_lt; lia).
    destruct (lockstep_test_body data l H) as [Hr Hs].
    destruct (test_body data l s1) as [s1' [l1|e1]] eqn:E1,
             (test_body data l s2) as [s2' [l2|e2]];
      simpl in Hr, Hs; try discriminate.
    + injection Hr as <-. apply IH; [|exact Hs].
      apply test_body_testPeriod in E1. lia.
    + injection Hr as <-. split; [reflexivity|exact Hs].
Qed.

Lemma lockstep_training (data : Data) (idx : list Z) :
  forall X y, lockstep R (training data idx X y) (training data idx X y).
Proof.
  induction idx as [|i idx IH]; intros X y; simpl.
  - apply lockstep_ret.
  - apply lockstep_bind.
    { apply lockstep_attr. intros s1 s2 H. apply H. }
    intros vars. apply lockstep_bind; [apply lockstep_call|].
    intros Xs. apply lockstep_bind; [apply lockstep_call|].
    intros y1. apply IH.
Qed.

Hypothesis R_dates : forall d s1 s2, R s1 s2 ->
  R (set_dates (dates s1 ++ [d]) s1) (set_dates (dates s2 ++ [d]) s2).
Hypothesis R_visualize : forall vx vy vm s1 s2, R s1 s2 ->
  R (set_visualize vx vy vm s1) (set_visualize vx vy vm s2).

Lemma lockstep_runModel (data : Data) :
  lockstep R (runModel data) (runModel data).
Proof.
  unfold runModel.
  repeat first
    [ apply lockstep_call
    | apply lockstep_training
    | apply lockstep_assign; intros s1 s2 H;
        first [apply R_dates, H | apply R_visualize, H]
    | apply lockstep_attr; intros s1 s2 H; apply H
    | eapply lockstep_testing; reflexivity
    | apply lockstep_bind; [|intros ?] ].
Qed.

End Lockstep.

Lemma same_setup_body (data : Data) (l : Locals) (s1 s2 : Backtest) :
  same_setup s1 s2 ->
  same_setup (fst (test_body data l s1)) (fst (test_body data l s2)).
Proof.
  intros H. rewrite !test_body_self.
  destruct (tally data l s1) as [[[? ?] ?] ?], (tally data l s2) as [[[? ?] ?] ?].
  exact H.
Qed.

Lemma buys_of_predict (b s neg pos : Q) :
  buys_of (predict_decision b s neg pos) = if Qle_bool b pos then 1 else 0.
Proof.
  unfold buys_of, predict_decision.
  destruct (Qle_bool b pos); [reflexivity|].
  destruct (Qle_bool s neg); reflexivity.
Qed.

(** The buys counted in an iteration, given the confidence of the model. *)
Lemma tally_buys (data : Data) (l : Locals) (self : Backtest) :
  fst (fst (fst (tally data l self))) =
  match conditions data (testPeriod l) (variables self) [] with
  | Raise _ => 0
  | Ok Xs =>
      match Predict (l_model l) Xs with
      | Raise _ => 0
      | Ok np => if Qle_bool (buyThreshold self) (snd np) then 1 else 0
      end
  end.
Proof.
  unfold tally.
  destruct (conditions _ _ _ _) as [Xs|]; [|reflexivity].
  destruct (Predict _ _) as [np|]; [|reflexivity].
  cbv zeta. rewrite <- (buys_of_predict _ (sellThreshold self) (fst np)).
  destruct (PercentChange _ _); reflexivity.
Qed.

Lemma fewer_buys_body (data : Data) (l : Locals) (s1 s2 : Backtest) :
  fewer_buys s1 s2 ->
  fewer_buys (fst (test_body data l s1)) (fst (test_body data l s2)).
Proof.
  intros (Hs & Hb & Ht). split; [apply same_setup_body, Hs|].
  pose proof (tally_buys data l s1) as T1.
  pose proof (tally_buys data l s2) as T2.
  rewrite !test_body_self.
  destruct (tally data l s1) as [[[tb1 cb1] ts1] cs1],
           (tally data l s2) as [[[tb2 cb2] ts2] cs2].
  simpl in *. split; [exact Hb|].
  destruct Hs as (Hv & _). rewrite <- Hv in T2.
  destruct (conditions _ _ _ _) as [Xs|]; [|lia].
  destruct (Predict _ _) as [np|]; [|lia].
  destruct (Qle_bool (buyThreshold s2) (snd np)) eqn:E2.
  - apply Qle_bool_iff in E2.
    assert (E1 : Qle_bool (buyThreshold s1) (snd np) = true).
    { apply Qle_bool_iff. eapply Qle_trans; eassumption. }
    rewrite E1 in T1. lia.
  - destruct (Qle_bool (buyThreshold s1) (snd np)); lia.
Qed.

(** Two runs that make the same fits stay in step, the second with the
    higher buy threshold counting no more buys. *)
Lemma fewer_buys_runModel (data : Data) :
  lockstep fewer_buys (runModel data) (runModel data).
Proof.
  apply lockstep_runModel.
  - intros s1 s2 H. apply H.
  - intros d l s1 s2 H. apply fewer_buys_body, H.
  - intros d s1 s2 H. exact H.
  - intros vx vy vm s1 s2 H. exact H.
Qed.

(* ---------------------------------------------------------------- *)
(** ** What a run may change *)

Lemma same_setup_refl (s : Backtest) : same_setup s s.
Proof. repeat split. Qed.

Lemma same_setup_trans (s1 s2 s3 : Backtest) :
  same_setup s1 s2 -> same_setup s2 s3 -> same_setup s1 s3.
Proof.
  unfold same_setup. intros H1 H2.
  repeat match goal with H : _ /\ _ |- _ => destruct H end.
  repeat split; congruence.
Qed.

Lemma evolves_refl (s : Backtest) : evolves s s.
Proof.
  split; [apply same_setup_refl|].
  repeat split; try lia.
  exists []. symmetry. apply app_nil_r.
Qed.

Lemma evolves_trans (s1 s2 s3 : Backtest) :
  evolves s1 s2 -> evolves s2 s3 -> evolves s1 s3.
Proof.
  intros (A1 & B1 & C1 & [D1 E1] & F1 & G1) (A2 & B2 & C2 & [D2 E2] & F2 & G2).
  split; [eapply same_setup_trans; eassumption|].
  split; [congruence|]. split; [congruence|].
  split; [exists (D1 ++ D2); rewrite E2, E1, app_assoc; reflexivity|].
  split; lia.
Qed.

Section Keeps.

Variable P : Backtest -> Backtest -> Prop.
Hypothesis P_refl : forall s, P s s.
Hypothesis P_trans : forall s1 s2 s3, P s1 s2 -> P s2 s3 -> P s1 s3.

Lemma keeps_ret {A} (a : A) : keeps P (ret a).
Proof. intros s. apply P_refl. Qed.

Lemma keeps_call {A} (r : result A) : keeps P (call r).
Proof. intros s. apply P_refl. Qed.

Lemma keeps_attr {A} (f : Backtest -> A) : keeps P (attr f).
Proof. intros s. apply P_refl. Qed.

Lemma keeps_bind {A B} (m : M A) (k : A -> M B) :
  keeps P m -> (forall a, keeps P (k a)) -> keeps P (bind m k).
Proof.
  intros Hm Hk s. unfold bind. specialize (Hm s).
  destruct (m s) as [s' [a|e]]; simpl in *.
  - eapply P_trans; [exact Hm|apply Hk].
  - exact Hm.
Qed.

Hypothesis P_body : forall data l, keeps P (test_body data l).

Lemma keeps_testing (data : Data) (tE : Z) (n : nat) :
  forall l, Z.to_nat (tE - testPeriod l) = n -> keeps P (testing data tE l).
Proof.
  induction n as [|n IH]; intros l Hn s; rewrite testing_loop.
  - replace (testPeriod l <? tE) with false by (symmetry; apply Z.ltb_ge; lia).
    apply P_refl.
  - replace (testPeriod l <? tE) with true by (symmetry; apply Z.ltb_lt; lia).
    pose proof (P_body data l s) as Hb.
    destruct (test_body data l s) as [s' [l'|e]] eqn:E; simpl in Hb.
    + eapply P_trans; [exact Hb|]. apply IH.
      apply test_body_testPeriod in E. lia.
    + exact Hb.
Qed.

Lemma keeps_training (data : Data) (idx : list Z) :
  forall X y, keeps P (training data idx X y).
Proof.
  induction idx as [|i idx IH]; intros X y; simpl.
  - apply keeps_ret.
  - repeat first [apply keeps_attr | apply keeps_call | apply IH
                 | apply keeps_bind; [|intros ?]].
Qed.

Hypothesis P_dates : forall d s, P s (set_dates (dates s ++ [d]) s).
Hypothesis P_visualize : forall vx vy vm s, P s (set_visualize vx vy vm s).

Lemma keeps_runModel (data : Data) : keeps P (runModel data).
Proof.
  unfold runModel.
  repeat first
    [ apply keeps_call
    | apply keeps_attr
    | apply keeps_training
    | eapply keeps_testing; reflexivity
    | intros s; apply P_dates
    | intros s; apply P_visualize
    | apply keeps_bind; [|intros ?] ].
Qed.

End Keeps.

(** The increments of one iteration are 0 or 1, at most one of buy and
    sell is counted, and a correct one only with its total. *)
Lemma tally_bounds (data : Data) (l : Locals) (self : Backtest) :
  let '(tb, cb, ts, cs) := tally data l self in
  0 <= cb <= tb /\ 0 <= cs <= ts /\ tb + ts <= 1.
Proof.
  unfold tally.
  destruct (conditions _ _ _ _) as [Xs|]; [|lia].
  destruct (Predict _ _) as [np|]; [|lia].
  cbv zeta.
  destruct (predict_decision_range (buyThreshold self) (sellThreshold self)
              (fst np) (snd np)) as [->|[->| ->]];
    destruct (PercentChange _ _) as [o|];
    unfold buys_of, sells_of, good_buy, good_sell; simpl;
    try destruct (Qlt_bool 0 o); try destruct (Qlt_bool o 0); lia.
Qed.

Lemma evolves_body (data : Data) (l : Locals) :
  keeps evolves (test_body data l).
Proof.
  intros s. rewrite test_body_self.
  pose proof (tally_bounds data l s) as Hb.
  destruct (tally data l s) as [[[tb cb] ts] cs].
  split; [exact (same_setup_refl s)|].
  simpl. repeat split; try lia.
  exists []. symmetry. apply app_nil_r.
Qed.

Lemma evolves_runModel (data : Data) : keeps evolves (runModel data).
Proof.
  apply keeps_runModel.
  - apply evolves_refl.
  - apply evolves_trans.
  - apply evolves_body.
  - intros d s. split; [exact (same_setup_refl s)|].
    simpl. repeat split; try lia. eexists. reflexivity.
  - intros vx vy vm s. split; [exact (same_setup_refl s)|].
    simpl. repeat split; try lia. exists []. symmetry. apply app_nil_r.
Qed.

(* ---------------------------------------------------------------- *)
(** ** A run that returns *)

Lemma training_self (data : Data) (idx : list Z) :
  forall X y self, fst (training data idx X y self) = self.
Proof.
  induction idx as [|i idx IH]; intros X y self; simpl; [reflexivity|].
  unfold bind, attr, call.
  destruct (conditions _ _ _ _); [|reflexivity].
  destruct (PercentChange _ _); [|reflexivity].
  apply IH.
Qed.

(** The calls of a run that returns, in order. *)
Lemma runModel_ok_inv (data : Data) (self self' : Backtest) :
  runModel data self = (self', Ok tt) ->
  exists stock trS trE teS teE d X y XX' yy' m s1 l',
    last_item (stocks self) = Ok stock
    /\ DateIndex data (trainStart self) false stock = Ok trS
    /\ DateIndex data (trainEnd self) true stock = Ok trE
    /\ DateIndex data (testStart self) false stock = Ok teS
    /\ DateIndex data (testEnd self) true stock = Ok teE
    /\ snd (training data (range trS (trE + 1)) [] []
              (set_dates (dates self ++ [d]) self)) = Ok (X, y)
    /\ vstack X = Ok XX'
    /\ hstack y = Ok yy'
    /\ fit (SVC (C self) (gamma self)) XX' yy' = Ok m
    /\ testing data teE (mkLocals X y XX' yy' m teS)
         (set_dates (dates self ++ [d]) self) = (s1, Ok l')
    /\ self' = set_visualize (l_XX l') (l_yy l') (l_model l') s1.
Proof.
  unfold runModel, bind at 1 2 3 4 5 6 7 8 9 10 11 12 13 14, attr, call.
  intros H.
  destruct (last_item _) as [stock|] eqn:E0; [|discriminate].
  destruct (DateIndex data (trainStart self) _ _) as [trS|] eqn:E1;
    [|discriminate].
  destruct (DateIndex data (trainEnd self) _ _) as [trE|] eqn:E2;
    [|discriminate].
  destruct (DateIndex data (testStart self) _ _) as [teS|] eqn:E3;
    [|discriminate].
  destruct (DateIndex data (testEnd self) _ _) as [teE|] eqn:E4;
    [|discriminate].
  destruct (date_strftime data trS) as [d1|]; [|discriminate].
  destruct (date_strftime data trE) as [d2|]; [|discriminate].
  destruct (date_strftime data teS) as [d3|]; [|discriminate].
  destruct (date_strftime data teE) as [d4|]; [|discriminate].
  unfold bind at 1, assign in H.
  unfold bind at 1 in H.
  pose proof (training_self data (range trS (trE + 1)) [] []
                (set_dates (dates self ++ [[d1; d2; d3; d4]]) self)) as Hs.
  destruct (training data _ _ _ _) as [s0 [[X y]|]] eqn:Etr;
    [|discriminate].
  simpl in Hs. subst s0.
  unfold bind at 1 2 3 4 5 in H. simpl fst in H; simpl snd in H.
  destruct (vstack X) as [XX'|] eqn:EX; [|discriminate].
  destruct (hstack y) as [yy'|] eqn:Ey; [|discriminate].
  destruct (fit _ XX' yy') as [m|] eqn:Ef; [|discriminate].
  unfold bind in H.
  destruct (testing _ _ _ _) as [s1 [l'|]] eqn:Ete; [|discriminate].
  injection H as <-.
  exists stock, trS, trE, teS, teE, [d1; d2; d3; d4], X, y, XX', yy', m, s1, l'.
  rewrite Etr. simpl in Ef.
  repeat split; try reflexivity; assumption.
Qed.

Lemma vstack_ok (X XX' : list (list Q)) : vstack X = Ok XX' -> XX' = X.
Proof.
  unfold vstack. destruct X as [|r rs]; [discriminate|].
  destruct (forallb _ rs); [|discriminate]. intros [= <-]. reflexivity.
Qed.

Lemma vstack_nonempty (X XX' : list (list Q)) : vstack X = Ok XX' -> X <> [].
Proof. destruct X; [discriminate|]. intros _. discriminate. Qed.

Lemma hstack_ok (y yy' : list Z) : hstack y = Ok yy' -> yy' = y.
Proof.
  unfold hstack. destruct y; [discriminate|]. intros [= <-]. reflexivity.
Qed.

Lemma label_cases (o : Q) :
  (0 < o)%Q /\ label o = 1 \/ (o <= 0)%Q /\ label o = 0.
Proof.
  unfold label. destruct (Qlt_bool 0 o) eqn:E.
  - left. split; [apply Qlt_bool_iff, E|reflexivity].
  - right. split; [apply Qlt_bool_false_iff, E|reflexivity].
Qed.

Lemma training_ok (data : Data) (idx : list Z) :
  forall X y self X' y',
    snd (training data idx X y self) = Ok (X', y') ->
    exists Xn yn,
      X' = X ++ Xn /\ y' = y ++ yn
      /\ Forall2 (features_at data (variables self)) idx Xn
      /\ Forall2 (label_at data) idx yn.
Proof.
  induction idx as [|i idx IH]; intros X y self X' y'; simpl.
  - intros [= <- <-]. exists [], []. rewrite !app_nil_r.
    repeat split; constructor.
  - unfold bind at 1 2 3, attr, call.
    destruct (conditions _ _ _ _) as [Xs|] eqn:EX; [|discriminate].
    destruct (PercentChange _ _) as [o|] eqn:EO; [|discriminate].
    intros H. apply IH in H. destruct H as (Xn & yn & -> & -> & HX & Hy).
    exists (Xs :: Xn), (label o :: yn). rewrite <- !app_assoc.
    repeat split; constructor; try assumption.
    exists o. split; [exact EO|apply label_cases].
Qed.

Lemma continuedTraining_set_stats (tb cb ts cs : Z) (s : Backtest) :
  continuedTraining (set_stats tb cb ts cs s) = continuedTraining s.
Proof. reflexivity. Qed.

(** What an iteration that returns did to the local variables. *)
Lemma test_body_locals (data : Data) (l l' : Locals) (self self' : Backtest) :
  test_body data l self = (self', Ok l') ->
  exists Xs o,
    conditions data (testPeriod l) (variables self) [] = Ok Xs
    /\ PercentChange data (testPeriod l + 1) = Ok o
    /\ if continuedTraining self then
         l_X l' = l_X l ++ [Xs] /\ l_y l' = l_y l ++ [label o]
         /\ l_XX l' = l_X l' /\ l_yy l' = l_y l'
       else
         l_X l' = l_X l /\ l_y l' = l_y l
         /\ l_XX l' = l_XX l /\ l_yy l' = l_yy l.
Proof.
  rewrite test_body_unfold.
  destruct (conditions _ _ _ _) as [Xs|]; [|discriminate].
  destruct (Predict _ _) as [np|]; [|discriminate].
  cbv zeta.
  destruct (PercentChange _ _) as [o|]; [|discriminate].
  intros H. exists Xs, o. split; [reflexivity|]. split; [reflexivity|].
  revert H. unfold update_model, bind, attr, call, ret.
  rewrite record_outcome_eq, continuedTraining_set_stats,
    count_prediction_eq, continuedTraining_set_stats.
  destruct (continuedTraining self).
  - destruct (vstack _) as [XX'|] eqn:EX; [|discriminate].
    destruct (hstack _) as [yy'|] eqn:Ey; [|discriminate].
    destruct (fit _ _ _); [|discriminate].
    intros [= _ <-]. simpl.
    apply vstack_ok in EX. apply hstack_ok in Ey. subst. auto.
  - intros [= _ <-]. simpl. auto.
Qed.

Lemma only_stats_testing (data : Data) (tE : Z) (l : Locals)
    (self : Backtest) :
  only_stats self (fst (testing data tE l self)).
Proof.
  eapply (@keeps_testing only_stats); try reflexivity.
  - intros s. symmetry. apply set_stats_id.
  - unfold only_stats. intros s1 s2 s3 H1 H2. rewrite H2 at 1. rewrite H1.
    reflexivity.
  - intros d l0 s. unfold only_stats. rewrite test_body_self.
    destruct (tally d l0 s) as [[[? ?] ?] ?]. reflexivity.
Qed.

Lemma testing_locals (data : Data) (tE : Z) (n : nat) :
  forall (l l' : Locals) (self self' : Backtest),
    Z.to_nat (tE - testPeriod l) = n ->
    testing data tE l self = (self', Ok l') ->
    l_XX l = l_X l -> l_yy l = l_y l ->
    l_XX l' = l_X l' /\ l_yy l' = l_y l'
    /\ exists Xn yn,
        l_X l' = l_X l ++ Xn /\ l_y l' = l_y l ++ yn
        /\ let periods := if continuedTraining self
                          then range (testPeriod l) tE else [] in
           Forall2 (features_at data (variables self)) periods Xn
           /\ Forall2 (label_at data) periods yn.
Proof.
  induction n as [|n IH]; intros l l' self self' Hn; rewrite testing_loop.
  - replace (testPeriod l <? tE) with false by (symmetry; apply Z.ltb_ge; lia).
    intros [= <- <-] HX Hy. split; [exact HX|]. split; [exact Hy|].
    exists [], []. rewrite !app_nil_r, range_nil by lia.
    destruct (continuedTraining self); repeat split; constructor.
  - assert (Hlt : testPeriod l < tE) by lia.
    rewrite (proj2 (Z.ltb_lt _ _) Hlt).
    destruct (test_body data l self) as [s1 [l1|e]] eqn:E; [|discriminate].
    intros H HX Hy.
    pose proof (test_body_testPeriod _ _ _ E) as Ht.
    destruct (test_body_locals _ _ _ E) as (Xs & o & EX & EO & Hl).
    pose proof (evolves_body data l self) as Hev. rewrite E in Hev.
    destruct Hev as ((Hv & _ & _ & _ & _ & _ & _ & Hc & _) & _).
    simpl in Hv, Hc.
    apply IH in H; [|lia| |].
    + destruct H as (HX' & Hy' & Xn & yn & EXn & Eyn & HF).
      split; [exact HX'|]. split; [exact Hy'|].
      rewrite <- Hv, <- Hc, Ht in HF. cbv zeta in HF.
      rewrite range_cons by exact Hlt.
      destruct (continuedTraining self).
      * destruct Hl as (A & B & _ & _). rewrite A in EXn. rewrite B in Eyn.
        exists (Xs :: Xn), (label o :: yn). rewrite <- app_assoc in EXn, Eyn.
        destruct HF as [HF1 HF2].
        repeat split; try assumption; constructor; try assumption.
        exists o. split; [exact EO|apply label_cases].
      * destruct Hl as (A & B & _ & _). rewrite A in EXn. rewrite B in Eyn.
        exists Xn, yn. repeat split; try assumption; apply HF.
    + destruct (continuedTraining self).
      * apply Hl.
      * destruct Hl as (A & _ & B & _). congruence.
    + destruct (continuedTraining self).
      * apply Hl.
      * destruct Hl as (_ & A & _ & B). congruence.
Qed.

Lemma range_nonempty (lo hi : Z) : range lo hi <> [] -> lo < hi.
Proof.
  intros H. destruct (Z_lt_dec lo hi) as [Hlt|Hge]; [exact Hlt|].
  exfalso. apply H, range_nil. lia.
Qed.

(** An iteration under continued training appends one training pair. *)
Lemma test_body_appends_one (data : Data) (l l' : Locals)
    (self self' : Backtest) :
  continuedTraining self = true ->
  test_body data l self = (self', Ok l') ->
  exists Xs lab,
    l_X l' = l_X l ++ [Xs] /\ l_y l' = l_y l ++ [lab]
    /\ features_at data (variables self) (testPeriod l) Xs
    /\ label_at data (testPeriod l) lab.
Proof.
  intros Hc E.
  destruct (test_body_locals _ _ _ E) as (Xs & o & EX & EO & Hl).
  rewrite Hc in Hl. destruct Hl as (A & B & _).
  exists Xs, (label o). repeat split; try assumption.
  exists o. split; [exact EO|apply label_cases].
Qed.

(** C4. After a run that returns, the retained training set has one
    (feature vector, label) pair per index of the resolved training
    window [trainStart..trainEnd], so [trainEnd - trainStart + 1] pairs,
    when continuedTraining is off; when it is on, it has in addition one
    pair per test period [testStart..testEnd-1], in order.  Each label is 1
    if the percent change at the next index is positive and 0 otherwise.
    Under continued training every iteration that returns appends exactly
    one pair, whatever the prediction was. *)
Theorem training_set_size (data : Data) :
  (forall self self',
     runModel data self = (self', Ok tt) ->
     exists stock trS trE teS teE X y,
       last_item (stocks self) = Ok stock
       /\ DateIndex data (trainStart self) false stock = Ok trS
       /\ DateIndex data (trainEnd self) true stock = Ok trE
       /\ DateIndex data (testStart self) false stock = Ok teS
       /\ DateIndex data (testEnd self) true stock = Ok teE
       /\ XX self' = Some X /\ yy self' = Some y
       /\ (continuedTraining self = false ->
           Z.of_nat (List.length X) = trE - trS + 1
           /\ Z.of_nat (List.length y) = trE - trS + 1
           /\ Forall2 (features_at data (variables self))
                (range trS (trE + 1)) X
           /\ Forall2 (label_at data) (range trS (trE + 1)) y)
       /\ (continuedTraining self = true ->
           Z.of_nat (List.length X) = trE - trS + 1 + Z.max 0 (teE - teS)
           /\ Z.of_nat (List.length y) = trE - trS + 1 + Z.max 0 (teE - teS)
           /\ Forall2 (features_at data (variables self))
                (range trS (trE + 1) ++ range teS teE) X
           /\ Forall2 (label_at data)
                (range trS (trE + 1) ++ range teS teE) y))
  /\ (forall l l' self self',
        continuedTraining self = true ->
        test_body data l self = (self', Ok l') ->
        exists Xs lab,
          l_X l' = l_X l ++ [Xs] /\ l_y l' = l_y l ++ [lab]
          /\ features_at data (variables self) (testPeriod l) Xs
          /\ label_at data (testPeriod l) lab).
Proof.
  split; [|intros l l' self self'; apply test_body_appends_one].
  intros self self' H.
  destruct (runModel_ok_inv _ _ H)
    as (stock & trS & trE & teS & teE & d & X & y & XX' & yy' & m & s1 & l'
        & E0 & E1 & E2 & E3 & E4 & Etr & EX & Ey & Ef & Ete & ->).
  apply training_ok in Etr. destruct Etr as (Xn & yn & -> & -> & HX & Hy).
  simpl in HX, Hy.
  pose proof (vstack_nonempty EX) as Hne.
  apply vstack_ok in EX. apply hstack_ok in Ey. subst XX' yy'.
  assert (Hle : trS < trE + 1).
  { apply range_nonempty. intros Hr. rewrite Hr in HX.
    inversion HX. subst. apply Hne. reflexivity. }
  eapply testing_locals in Ete; try reflexivity.
  destruct Ete as (HXX & Hyy & Xt & yt & EXt & Eyt & HF).
  simpl in EXt, Eyt, HF. destruct HF as [HF1 HF2].
  exists stock, trS, trE, teS, teE, (l_XX l'), (l_yy l').
  rewrite HXX, Hyy, EXt, Eyt.
  pose proof (range_length trS (trE + 1)) as Hlen.
  pose proof (range_length teS teE) as Hlen'.
  do 5 (split; [assumption|]). do 2 (split; [reflexivity|]).
  split; intros Hc; rewrite Hc in HF1, HF2.
  - inversion HF1; inversion HF2; subst. rewrite !app_nil_r.
    rewrite <- (Forall2_length HX), <- (Forall2_length Hy).
    repeat split; try assumption; lia.
  - pose proof (Forall2_app HX HF1) as HX'.
    pose proof (Forall2_app Hy HF2) as Hy'.
    rewrite <- (Forall2_length HX'), <- (Forall2_length Hy'), length_app.
    repeat split; try assumption; lia.
Qed.

(* ---------------------------------------------------------------- *)
(** ** Statistics across runs *)

Lemma tally_ext (data : Data) (l : Locals) (s1 s2 : Backtest) :
  variables s1 = variables s2 ->
  buyThreshold s1 = buyThreshold s2 ->
  sellThreshold s1 = sellThreshold s2 ->
  tally data l s1 = tally data l s2.
Proof. intros Hv Hb Hs. unfold tally. rewrite Hv, Hb, Hs. reflexivity. Qed.

Lemma on_top_of_runModel (base : Backtest) (data : Data) :
  lockstep (on_top_of base) (runModel data) (runModel data).
Proof.
  apply lockstep_runModel.
  - intros s1 s2 H. apply H.
  - intros d l s1 s2 (Hs & Hb & Hl & Hd & H1 & H2 & H3 & H4).
    rewrite !test_body_self.
    rewrite (@tally_ext d l s1 s2 (proj1 Hs) Hb Hl).
    destruct (tally d l s2) as [[[tb cb] ts] cs].
    split; [exact Hs|]. simpl. repeat split; try assumption; lia.
  - intros d s1 s2 (Hs & Hb & Hl & Hd & H1 & H2 & H3 & H4).
    split; [exact Hs|]. simpl. repeat split; try assumption.
    rewrite Hd, app_assoc. reflexivity.
  - intros vx vy vm s1 s2 H. exact H.
Qed.

Lemma init_stats vars d1 d2 d3 d4 b s c g ct tz (self : Backtest) :
  __init__ vars d1 d2 d3 d4 b s c g ct tz = Ok self ->
  stocks self = [] /\ dates self = []
  /\ totalBuys self = 0 /\ correctBuys self = 0
  /\ totalSells self = 0 /\ correctSells self = 0
  /\ XX self = None /\ yy self = None /\ model self = None
  /\ variables self = vars
  /\ buyThreshold self = b /\ sellThreshold self = s
  /\ C self = c /\ gamma self = g /\ continuedTraining self = ct.
Proof.
  unfold __init__.
  destruct (localize tz d1); [|discriminate].
  destruct (localize tz d2); [|discriminate].
  destruct (localize tz d3); [|discriminate].
  destruct (localize tz d4); [|discriminate].
  intros [= <-]. simpl. repeat split.
Qed.

(** C7. The constructor leaves the four counters at zero and the date list
    empty.  A run never resets them: what a run leaves is what the
    instance held before plus what the same run leaves on the instance
    with cleared statistics (whether it returns or raises), and a run that
    returns has appended exactly one entry to the date list. *)
Theorem stats_accumulate_across_runs :
  (forall vars d1 d2 d3 d4 b s c g ct tz self,
     __init__ vars d1 d2 d3 d4 b s c g ct tz = Ok self ->
     dates self = []
     /\ totalBuys self = 0 /\ correctBuys self = 0
     /\ totalSells self = 0 /\ correctSells self = 0)
  /\ (forall data self,
        let after := fst (runModel data self) in
        let alone := fst (runModel data (clear_stats self)) in
        snd (runModel data self) = snd (runModel data (clear_stats self))
        /\ dates after = dates self ++ dates alone
        /\ totalBuys after = totalBuys self + totalBuys alone
        /\ correctBuys after = correctBuys self + correctBuys alone
        /\ totalSells after = totalSells self + totalSells alone
        /\ correctSells after = correctSells self + correctSells alone)
  /\ (forall data self self',
        runModel data self = (self', Ok tt) ->
        (exists d, dates self' = dates self ++ [d])
        /\ totalBuys self <= totalBuys self'
        /\ correctBuys self <= correctBuys self'
        /\ totalSells self <= totalSells self'
        /\ correctSells self <= correctSells self').
Proof.
  split; [|split].
  - intros vars d1 d2 d3 d4 b s c g ct tz self H.
    apply init_stats in H.
    destruct H as (_ & Hd & H1 & H2 & H3 & H4 & _).
    repeat split; assumption.
  - intros data self after alone.
    assert (H0 : on_top_of self self (clear_stats self)).
    { split; [exact (same_setup_refl self)|].
      simpl. rewrite app_nil_r. repeat split; lia. }
    destruct (@on_top_of_runModel self data self (clear_stats self) H0)
      as (Hr & _ & _ & _ & Hd & H1 & H2 & H3 & H4).
    subst after alone. repeat split; assumption.
  - intros data self self' H.
    pose proof (evolves_runModel data self) as Hev. rewrite H in Hev.
    destruct Hev as (_ & _ & _ & _ & Hb & Hs). simpl in Hb, Hs.
    split; [|lia].
    apply runModel_ok_inv in H.
    destruct H
      as (stock & trS & trE & teS & teE & d & X & y & XX' & yy' & m & s1 & l'
          & _ & _ & _ & _ & _ & _ & _ & _ & _ & Ete & ->).
    pose proof (only_stats_testing data teE
                  (mkLocals X y XX' yy' m teS)
                  (set_dates (dates self ++ [d]) self)) as Ho.
    rewrite Ete in Ho. simpl in Ho. exists d.
    simpl. rewrite Ho. reflexivity.
Qed.

Lemma evolves_counters_ok (s s' : Backtest) :
  evolves s s' -> counters_ok s -> counters_ok s'.
Proof.
  intros (_ & _ & _ & _ & Hb & Hs) [H1 H2]. unfold counters_ok. lia.
Qed.

Lemma visualizeModel_stats w h st (self : Backtest) :
  let self' := fst (visualizeModel w h st self) in
  totalBuys self' = totalBuys self /\ correctBuys self' = correctBuys self
  /\ totalSells self' = totalSells self
  /\ correctSells self' = correctSells self.
Proof.
  unfold visualizeModel.
  destruct (negb _); [simpl; auto|].
  destruct (XX self); [|simpl; auto].
  destruct (yy self); [|simpl; auto].
  destruct (model self); [|simpl; auto].
  destruct (fit_transform _); [|simpl; auto].
  destruct (fit _ _ _); [|simpl; auto].
  destruct (contour_grid _ _ _ _ _); [|simpl; auto].
  destruct (last_item _); [|simpl; auto].
  destruct (draw _ _ _ _); simpl; auto.
Qed.

Lemma reachable_counters_ok (self : Backtest) :
  reachable self -> counters_ok self.
Proof.
  induction 1 as [vars d1 d2 d3 d4 b s c g ct tz self H
                 |stock self _ IH|data self _ IH|data l self _ IH
                 |p self _ IH|w h st self _ IH].
  - apply init_stats in H. unfold counters_ok.
    destruct H as (_ & _ & -> & -> & -> & -> & _). lia.
  - exact IH.
  - eapply evolves_counters_ok; [apply evolves_runModel|exact IH].
  - eapply evolves_counters_ok; [apply evolves_body|exact IH].
  - rewrite count_prediction_eq. destruct IH as [H1 H2].
    unfold counters_ok, buys_of, sells_of. simpl.
    destruct (p =? 1), (p =? -1); lia.
  - destruct (visualizeModel_stats w h st self) as (A & B & C' & D).
    unfold counters_ok. rewrite A, B, C', D. exact IH.
Qed.

(** C10. In every state an instance goes through, between runs and inside
    them, [0 <= correctBuys <= totalBuys] and
    [0 <= correctSells <= totalSells].  Within one iteration each counter
    grows by 0 or 1, and a correct counter grows only if its total counter
    grew in that iteration. *)
Theorem correct_never_exceeds_total :
  (forall self, reachable self ->
     0 <= correctBuys self <= totalBuys self
     /\ 0 <= correctSells self <= totalSells self)
  /\ (forall data l self,
        let self' := fst (test_body data l self) in
        0 <= correctBuys self' - correctBuys self
          <= totalBuys self' - totalBuys self
        /\ totalBuys self' - totalBuys self <= 1
        /\ 0 <= correctSells self' - correctSells self
          <= totalSells self' - totalSells self
        /\ totalSells self' - totalSells self <= 1).
Proof.
  split.
  - intros self H. apply reachable_counters_ok, H.
  - intros data l self self'. subst self'. rewrite test_body_self.
    pose proof (tally_bounds data l self) as Hb.
    destruct (tally data l self) as [[[tb cb] ts] cs]. simpl. lia.
Qed.

(* ---------------------------------------------------------------- *)
(** ** The accuracy figures *)

Lemma round_half_even_comp (x y : Q) :
  (x == y)%Q -> round_half_even x = round_half_even y.
Proof.
  intros H. unfold round_half_even.
  rewrite (Qfloor_comp _ _ H).
  assert (Hc : ((x - inject_Z (Qfloor y) ?= 1 # 2)
                = (y - inject_Z (Qfloor y) ?= 1 # 2))%Q).
  { apply Qcompare_comp; [rewrite H|]; reflexivity. }
  rewrite Hc. reflexivity.
Qed.

(** Rounding stays between two integer bounds. *)
Lemma round_half_even_bounds (x : Q) (lo hi : Z) :
  (inject_Z lo <= x)%Q -> (x <= inject_Z hi)%Q ->
  lo <= round_half_even x <= hi.
Proof.
  intros Hlo Hhi. unfold round_half_even.
  pose proof (Qfloor_resp_le _ _ Hlo) as H1.
  pose proof (Qfloor_resp_le _ _ Hhi) as H2.
  rewrite Qfloor_Z in H1, H2.
  destruct (Z.eq_dec (Qfloor x) hi) as [E|E].
  - assert (Hx : (x - inject_Z (Qfloor x) <= 0)%Q).
    { rewrite E. unfold Qminus. rewrite <- (Qplus_opp_r (inject_Z hi)).
      apply Qplus_le_l. exact Hhi. }
    assert (Hc : ((x - inject_Z (Qfloor x) ?= 1 # 2) = Lt)%Q).
    { apply Qlt_alt. eapply Qle_lt_trans; [exact Hx|reflexivity]. }
    rewrite Hc. lia.
  - destruct (x - inject_Z (Qfloor x) ?= 1 # 2)%Q;
      try destruct (Z.even (Qfloor x)); lia.
Qed.

(** What the statistics return, for any rounding. *)
Lemma stats_value (c t : Z) :
  match float_div c t with
  | Ok q => Ok (round (fl (q * 100)) 2)
  | Raise ZeroDivisionError => Ok 0%Q
  | Raise e => Raise e
  end
  = if t =? 0 then Ok 0%Q
    else Ok (round (fl (fl (fl (inject_Z c) / fl (inject_Z t)) * 100)) 2).
Proof. unfold float_div. destruct (t =? 0); reflexivity. Qed.

Section Rounding.

(** What the bounds need of the rounding: it is monotone on the
    non-negative numbers, and 0, 1 and 100 are floats. *)
Hypothesis fl_mono :
  forall x y : Q, (0 <= x)%Q -> (x <= y)%Q -> (fl x <= fl y)%Q.
Hypothesis fl_0 : (fl 0 == 0)%Q.
Hypothesis fl_1 : (fl 1 == 1)%Q.
Hypothesis fl_100 : (fl 100 == 100)%Q.

Lemma fl_between (x hi : Q) :
  (fl hi == hi)%Q ->
  (0 <= x)%Q -> (x <= hi)%Q -> (0 <= fl x)%Q /\ (fl x <= hi)%Q.
Proof.
  intros Hhi H1 H2. split.
  - rewrite <- fl_0. apply fl_mono; [apply Qle_refl|exact H1].
  - rewrite <- Hhi. apply fl_mono; assumption.
Qed.

Lemma round2_percent (x : Q) :
  (0 <= x)%Q -> (x <= 100)%Q -> (0 <= round x 2 <= 100)%Q.
Proof.
  intros H0 H100. unfold round.
  change (inject_Z (10 ^ Z.of_nat 2)) with (inject_Z 100).
  assert (Hb : 0 <= round_half_even (x * inject_Z 100) <= 10000).
  { apply round_half_even_bounds.
    - change (inject_Z 0) with (0 * inject_Z 100)%Q.
      apply Qmult_le_compat_r; [exact H0|discriminate].
    - change (inject_Z 10000) with (100 * inject_Z 100)%Q.
      apply Qmult_le_compat_r; [exact H100|discriminate]. }
  generalize dependent (round_half_even (x * inject_Z 100)). intros k Hk.
  apply fl_between; try assumption;
    unfold Qle, Qdiv, Qmult, Qinv; simpl; lia.
Qed.

Lemma ratio_percent (c t : Z) :
  0 <= c <= t -> t <> 0 ->
  (0 <= fl (fl (fl (inject_Z c) / fl (inject_Z t)) * 100))%Q
  /\ (fl (fl (fl (inject_Z c) / fl (inject_Z t)) * 100) <= 100)%Q.
Proof.
  intros Hc Ht.
  assert (Ha : (0 <= fl (inject_Z c))%Q).
  { rewrite <- fl_0. apply fl_mono; [apply Qle_refl|].
    change 0%Q with (inject_Z 0). rewrite <- Zle_Qle. lia. }
  assert (Hab : (fl (inject_Z c) <= fl (inject_Z t))%Q).
  { apply fl_mono.
    - change 0%Q with (inject_Z 0). rewrite <- Zle_Qle. lia.
    - rewrite <- Zle_Qle. lia. }
  assert (Hb : (1 <= fl (inject_Z t))%Q).
  { rewrite <- fl_1. apply fl_mono; [discriminate|].
    change 1%Q with (inject_Z 1). rewrite <- Zle_Qle. lia. }
  assert (Hbpos : (0 < fl (inject_Z t))%Q).
  { eapply Qlt_le_trans; [|exact Hb]. reflexivity. }
  assert (Hq : (0 <= fl (inject_Z c) / fl (inject_Z t))%Q
               /\ (fl (inject_Z c) / fl (inject_Z t) <= 1)%Q).
  { split.
    - apply Qle_shift_div_l; [exact Hbpos|]. rewrite Qmult_0_l. exact Ha.
    - apply Qle_shift_div_r; [exact Hbpos|]. rewrite Qmult_1_l. exact Hab. }
  destruct Hq as [Hq0 Hq1].
  destruct (fl_between fl_1 Hq0 Hq1) as [Hf0 Hf1].
  apply fl_between; try assumption.
  - rewrite <- (Qmult_0_l 100). apply Qmult_le_compat_r; [exact Hf0|].
    discriminate.
  - rewrite <- (Qmult_1_l 100) at 2.
    apply Qmult_le_compat_r; [exact Hf1|]. discriminate.
Qed.

Lemma stats_percent (c t : Z) :
  0 <= c <= t ->
  exists v : Q,
    (if t =? 0 then Ok 0%Q
     else Ok (round (fl (fl (fl (inject_Z c) / fl (inject_Z t)) * 100)) 2))
    = Ok v
    /\ (0 <= v <= 100)%Q.
Proof.
  intros H. destruct (Z.eqb_spec t 0) as [E|E].
  - exists 0%Q. split; [reflexivity|]. split; discriminate.
  - eexists. split; [reflexivity|].
    destruct (ratio_percent H E). apply round2_percent; assumption.
Qed.

(** C6 as the code has it.  [buyStats] returns [0.0] when totalBuys is 0
    and never raises; otherwise it returns
    [round((correctBuys / totalBuys) * 100, 2)], the quotient taken first
    and every step rounded to a float.  Likewise [sellStats] with the sell
    counters.  For a rounding that is monotone on the non-negative numbers
    and keeps 0, 1 and 100 (as rounding to double does, see
    [accuracy_in_double_precision]), both values lie in [0, 100] in every
    state an instance goes through. *)
Theorem accuracy_is_a_percentage :
  (forall self,
     (totalBuys self = 0 -> buyStats self = Ok 0%Q)
     /\ (totalBuys self <> 0 ->
         buyStats self
         = Ok (round (fl (fl (fl (inject_Z (correctBuys self))
                                / fl (inject_Z (totalBuys self))) * 100))
                 2))
     /\ (totalSells self = 0 -> sellStats self = Ok 0%Q)
     /\ (totalSells self <> 0 ->
         sellStats self
         = Ok (round (fl (fl (fl (inject_Z (correctSells self))
                                / fl (inject_Z (totalSells self))) * 100))
                 2)))
  /\ (forall self, reachable self ->
        exists vb vs : Q,
          buyStats self = Ok vb /\ sellStats self = Ok vs
          /\ (0 <= vb <= 100)%Q /\ (0 <= vs <= 100)%Q).
Proof.
  split.
  - intros self. unfold buyStats, sellStats. rewrite !stats_value.
    repeat split; intros H.
    + rewrite H. reflexivity.
    + apply Z.eqb_neq in H. rewrite H. reflexivity.
    + rewrite H. reflexivity.
    + apply Z.eqb_neq in H. rewrite H. reflexivity.
  - intros self H. apply reachable_counters_ok in H. destruct H as [Hb Hs].
    unfold buyStats, sellStats. rewrite !stats_value.
    destruct (stats_percent Hb) as (vb & Eb & Hvb).
    destruct (stats_percent Hs) as (vs & Es & Hvs).
    exists vb, vs. auto.
Qed.

End Rounding.

(** In exact arithmetic the order of the operations does not matter: the
    value is [100 * correct / total] rounded half to even at 2 decimals. *)
Lemma stats_exact (c t : Z) :
  (forall x : Q, (fl x == x)%Q) ->
  (round (fl (fl (fl (inject_Z c) / fl (inject_Z t)) * 100)) 2
   == inject_Z (round_half_even
                  (100 * inject_Z c / inject_Z t * inject_Z 100))
      / inject_Z 100)%Q.
Proof.
  intros Hfl. unfold round. rewrite Hfl.
  change (inject_Z (10 ^ Z.of_nat 2)) with (inject_Z 100).
  rewrite (@round_half_even_comp
             (fl (fl (fl (inject_Z c) / fl (inject_Z t)) * 100)
              * inject_Z 100)
             (100 * inject_Z c / inject_Z t * inject_Z 100));
    [reflexivity|].
  rewrite !Hfl. unfold Qdiv. ring.
Qed.

(* ---------------------------------------------------------------- *)
(** ** Plotting and the constructor *)

(** C8. [visualizeModel] needs exactly two configured features and the
    matrices and model of a run that returned.  When a feature count other
    than 2 is configured, or any of [XX], [yy], [model] is missing, it
    prints one error line, saves no file, returns normally and leaves the
    instance as it was; so it does on a freshly constructed instance.  It
    saves a file only when all four conditions hold, and a run that
    returns leaves [XX], [yy] and [model] in place. *)
Theorem visualize_precondition :
  (forall w h st self,
     List.length (variables self) <> 2%nat ->
     visualizeModel w h st self
     = (self, ([Print "Error: Plotting is restricted to 2 dimensions"],
               Ok tt)))
  /\ (forall w h st self,
        List.length (variables self) = 2%nat ->
        XX self = None \/ yy self = None \/ model self = None ->
        visualizeModel w h st self
        = (self, ([Print "Error: Please run model before visualizing"],
                  Ok tt)))
  /\ (forall vars d1 d2 d3 d4 b s c g ct tz self w h st,
        __init__ vars d1 d2 d3 d4 b s c g ct tz = Ok self ->
        exists msg,
          visualizeModel w h st self = (self, ([Print msg], Ok tt)))
  /\ (forall w h st self path fig,
        In (SaveFig path fig) (fst (snd (visualizeModel w h st self))) ->
        List.length (variables self) = 2%nat
        /\ XX self <> None /\ yy self <> None /\ model self <> None)
  /\ (forall data self self',
        runModel data self = (self', Ok tt) ->
        XX self' <> None /\ yy self' <> None /\ model self' <> None).
Proof.
  assert (H1 : forall w h st self,
             List.length (variables self) <> 2%nat ->
             visualizeModel w h st self
             = (self, ([Print "Error: Plotting is restricted to 2 dimensions"],
                       Ok tt))).
  { intros w h st self H. unfold visualizeModel.
    apply Nat.eqb_neq in H. rewrite H. reflexivity. }
  assert (H2 : forall w h st self,
             List.length (variables self) = 2%nat ->
             XX self = None \/ yy self = None \/ model self = None ->
             visualizeModel w h st self
             = (self, ([Print "Error: Please run model before visualizing"],
                       Ok tt))).
  { intros w h st self H Hn. unfold visualizeModel.
    apply Nat.eqb_eq in H. rewrite H. simpl.
    destruct Hn as [->|[Hn|Hn]]; [reflexivity| |].
    - rewrite Hn. destruct (XX self); reflexivity.
    - rewrite Hn. destruct (XX self); [destruct (yy self)|]; reflexivity. }
  split; [exact H1|]. split; [exact H2|]. split; [|split].
  - intros vars d1 d2 d3 d4 b s c g ct tz self w h st H.
    apply init_stats in H.
    destruct H as (_ & _ & _ & _ & _ & _ & HX & _).
    destruct (Nat.eq_dec (List.length (variables self)) 2) as [E|E].
    + eexists. apply H2; auto.
    + eexists. apply H1; auto.
  - intros w h st self path fig.
    destruct (Nat.eq_dec (List.length (variables self)) 2) as [E|E].
    2:{ rewrite H1 by exact E. simpl. intros [H|[]]. discriminate. }
    destruct (XX self) as [X|] eqn:EX.
    2:{ rewrite H2 by auto. simpl. intros [H|[]]. discriminate. }
    destruct (yy self) as [y|] eqn:Ey.
    2:{ rewrite H2 by auto. simpl. intros [H|[]]. discriminate. }
    destruct (model self) as [m|] eqn:Em.
    2:{ rewrite H2 by auto. simpl. intros [H|[]]. discriminate. }
    intros _. repeat split; try assumption; discriminate.
  - intros data self self' H. apply runModel_ok_inv in H.
    destruct H
      as (stock & trS & trE & teS & teE & d & X & y & XX' & yy' & m & s1 & l'
          & _ & _ & _ & _ & _ & _ & _ & _ & _ & _ & ->).
    simpl. repeat split; discriminate.
Qed.

(** C9 as the code has it.  The constructor does not look at the
    thresholds: once the four dates are converted it returns an instance
    that holds [buyThreshold] and [sellThreshold] exactly as given,
    whether or not they lie in [0, 1]. *)
Theorem constructor_keeps_any_threshold vars d1 d2 d3 d4 (b s c g : Q)
    (ct : bool) tz (i1 i2 i3 i4 : Instant) :
  localize tz d1 = Ok i1 -> localize tz d2 = Ok i2 ->
  localize tz d3 = Ok i3 -> localize tz d4 = Ok i4 ->
  exists self,
    __init__ vars d1 d2 d3 d4 b s c g ct tz = Ok self
    /\ buyThreshold self = b /\ sellThreshold self = s.
Proof.
  intros E1 E2 E3 E4. unfold __init__. rewrite E1, E2, E3, E4.
  eexists. split; [reflexivity|]. split; reflexivity.
Qed.

(* ---------------------------------------------------------------- *)
(** ** Runs that raise, and what a run leaves alone *)

Lemma only_stats_refl (s : Backtest) : only_stats s s.
Proof. unfold only_stats. symmetry. apply set_stats_id. Qed.

(** How a run ends: it raises before anything is assigned; or it appends
    the four dates and then raises, with nothing but counters changed
    since; or it returns, and then the data for plotting is assigned
    too. *)
Lemma runModel_shape (data : Data) (self : Backtest) :
  (exists e, runModel data self = (self, Raise e))
  \/ exists d1 d2 d3 d4,
       let s0 := set_dates (dates self ++ [[d1; d2; d3; d4]]) self in
       (exists e s1, runModel data self = (s1, Raise e) /\ only_stats s0 s1)
       \/ (exists s1 vx vy vm,
             runModel data self = (set_visualize vx vy vm s1, Ok tt)
             /\ only_stats s0 s1).
Proof.
  destruct (runModel data self) as [s' r] eqn:H. revert H.
  unfold runModel, bind at 1 2 3 4 5 6 7 8 9 10 11 12 13 14, attr, call.
  destruct (last_item _) as [stock|];
    [|intros [= <- <-]; left; eexists; reflexivity].
  destruct (DateIndex data (trainStart self) _ _) as [trS|];
    [|intros [= <- <-]; left; eexists; reflexivity].
  destruct (DateIndex data (trainEnd self) _ _) as [trE|];
    [|intros [= <- <-]; left; eexists; reflexivity].
  destruct (DateIndex data (testStart self) _ _) as [teS|];
    [|intros [= <- <-]; left; eexists; reflexivity].
  destruct (DateIndex data (testEnd self) _ _) as [teE|];
    [|intros [= <- <-]; left; eexists; reflexivity].
  destruct (date_strftime data trS) as [d1|];
    [|intros [= <- <-]; left; eexists; reflexivity].
  destruct (date_strftime data trE) as [d2|];
    [|intros [= <- <-]; left; eexists; reflexivity].
  destruct (date_strftime data teS) as [d3|];
    [|intros [= <- <-]; left; eexists; reflexivity].
  destruct (date_strftime data teE) as [d4|];
    [|intros [= <- <-]; left; eexists; reflexivity].
  intros H. right. exists d1, d2, d3, d4. cbv zeta. revert H.
  unfold bind at 1, assign. unfold bind at 1.
  set (s0 := set_dates (dates self ++ [[d1; d2; d3; d4]]) self).
  pose proof (training_self data (range trS (trE + 1)) [] [] s0) as Hs.
  destruct (training data _ _ _ _) as [s0' [[X y]|]] eqn:Etr;
    simpl in Hs; subst s0'.
  2:{ intros [= <- <-]. left. do 2 eexists.
      split; [reflexivity|apply only_stats_refl]. }
  unfold bind at 1 2 3 4 5. simpl fst; simpl snd.
  destruct (vstack X) as [XX'|].
  2:{ intros [= <- <-]. left. do 2 eexists.
      split; [reflexivity|apply only_stats_refl]. }
  destruct (hstack y) as [yy'|].
  2:{ intros [= <- <-]. left. do 2 eexists.
      split; [reflexivity|apply only_stats_refl]. }
  destruct (fit _ XX' yy') as [m|].
  2:{ intros [= <- <-]. left. do 2 eexists.
      split; [reflexivity|apply only_stats_refl]. }
  unfold bind.
  pose proof (only_stats_testing data teE (mkLocals X y XX' yy' m teS) s0)
    as Ho.
  destruct (testing _ _ _ _) as [s1 [l'|]]; simpl in Ho; intros [= <- <-].
  - right. exists s1, (l_XX l'), (l_yy l'), (l_model l').
    split; [reflexivity|exact Ho].
  - left. do 2 eexists. split; [reflexivity|exact Ho].
Qed.

(** X1. A run on an instance without a symbol, as the constructor leaves
    it, raises [IndexError] and changes nothing. *)
Theorem run_without_stock_raises (data : Data) :
  (forall self, stocks self = [] ->
     runModel data self = (self, Raise IndexError))
  /\ (forall vars d1 d2 d3 d4 b s c g ct tz self,
        __init__ vars d1 d2 d3 d4 b s c g ct tz = Ok self ->
        runModel data self = (self, Raise IndexError)).
Proof.
  assert (H : forall self, stocks self = [] ->
                runModel data self = (self, Raise IndexError)).
  { intros self H. unfold runModel, bind at 1 2, attr, call.
    rewrite H. reflexivity. }
  split; [exact H|].
  intros vars d1 d2 d3 d4 b s c g ct tz self Hi. apply H.
  apply init_stats in Hi. apply Hi.
Qed.

(** X2. When the resolved training window is empty ([trainEnd] before
    [trainStart]) the run appends the four dates and then raises
    [ValueError], the stacking of an empty list; no counter moves and the
    data for plotting stays as it was. *)
Theorem empty_training_window_raises (data : Data) (self : Backtest)
    (stock : string) (trS trE teS teE : Z) (d1 d2 d3 d4 : string) :
  last_item (stocks self) = Ok stock ->
  DateIndex data (trainStart self) false stock = Ok trS ->
  DateIndex data (trainEnd self) true stock = Ok trE ->
  DateIndex data (testStart self) false stock = Ok teS ->
  DateIndex data (testEnd self) true stock = Ok teE ->
  date_strftime data trS = Ok d1 -> date_strftime data trE = Ok d2 ->
  date_strftime data teS = Ok d3 -> date_strftime data teE = Ok d4 ->
  trE < trS ->
  runModel data self
  = (set_dates (dates self ++ [[d1; d2; d3; d4]]) self, Raise ValueError).
Proof.
  intros E0 E1 E2 E3 E4 F1 F2 F3 F4 Hlt.
  unfold runModel, bind at 1 2 3 4 5 6 7 8 9 10 11 12 13 14, attr, call.
  rewrite E0, E1, E2, E3, E4, F1, F2, F3, F4.
  rewrite range_nil by lia. reflexivity.
Qed.

(** X3. Whether it returns or raises, a run leaves the configuration and
    the list of symbols as they were, appends at most one entry (of four
    strings) to the date list and lets no counter decrease. *)
Theorem run_changes_only_results (data : Data) (self : Backtest) :
  let self' := fst (runModel data self) in
  variables self' = variables self
  /\ trainStart self' = trainStart self /\ trainEnd self' = trainEnd self
  /\ testStart self' = testStart self /\ testEnd self' = testEnd self
  /\ buyThreshold self' = buyThreshold self
  /\ sellThreshold self' = sellThreshold self
  /\ C self' = C self /\ gamma self' = gamma self
  /\ continuedTraining self' = continuedTraining self
  /\ stocks self' = stocks self
  /\ (dates self' = dates self
      \/ exists d1 d2 d3 d4, dates self' = dates self ++ [[d1; d2; d3; d4]])
  /\ totalBuys self <= totalBuys self'
  /\ correctBuys self <= correctBuys self'
  /\ totalSells self <= totalSells self'
  /\ correctSells self <= correctSells self'.
Proof.
  intros self'.
  pose proof (evolves_runModel data self) as Hev. fold self' in Hev.
  destruct Hev as ((A1 & A2 & A3 & A4 & A5 & A6 & A7 & A8 & A9)
                   & B1 & B2 & _ & B3 & B4).
  repeat (split; [congruence || lia|]).
  split; [|lia].
  destruct (runModel_shape data self)
    as [[e E]|(d1 & d2 & d3 & d4 & [(e & s1 & E & Ho)|(s1 & vx & vy & vm & E & Ho)])];
    subst self'; rewrite E; simpl.
  - left. reflexivity.
  - right. exists d1, d2, d3, d4. rewrite Ho. reflexivity.
  - right. exists d1, d2, d3, d4. rewrite Ho. reflexivity.
Qed.

(** X4. A run that raises never touches the data kept for plotting, and if
    it did not get to append its dates it changed nothing at all. *)
Theorem failed_run_keeps_plot_data (data : Data) (self self' : Backtest)
    (e : exn) :
  runModel data self = (self', Raise e) ->
  XX self' = XX self /\ yy self' = yy self /\ model self' = model self
  /\ (dates self' = dates self -> self' = self).
Proof.
  intros H.
  destruct (runModel_shape data self)
    as [[e' E]|(d1 & d2 & d3 & d4 & [(e' & s1 & E & Ho)|(s1 & vx & vy & vm & E & Ho)])];
    rewrite E in H; try discriminate; injection H as <- _.
  - repeat split; reflexivity.
  - rewrite Ho. simpl. repeat split; try reflexivity.
    intros Hd. exfalso.
    apply (f_equal (@List.length _)) in Hd. rewrite length_app in Hd.
    simpl in Hd. lia.
Qed.

(* ---------------------------------------------------------------- *)
(** ** Decisions and test periods *)

Lemma testing_decisions (data : Data) (tE : Z) (n : nat) :
  forall (l : Locals) (self : Backtest),
    Z.to_nat (tE - testPeriod l) = n ->
    let self' := fst (testing data tE l self) in
    0 <= (totalBuys self' + totalSells self')
         - (totalBuys self + totalSells self) <= Z.of_nat n.
Proof.
  induction n as [|n IH]; intros l self Hn; rewrite testing_loop.
  - replace (testPeriod l <? tE) with false by (symmetry; apply Z.ltb_ge; lia).
    simpl. lia.
  - replace (testPeriod l <? tE) with true by (symmetry; apply Z.ltb_lt; lia).
    pose proof (test_body_self data l self) as Hb.
    pose proof (tally_bounds data l self) as Ht.
    destruct (tally data l self) as [[[tb cb] ts] cs].
    destruct (test_body data l self) as [s1 [l1|e]] eqn:E; simpl in Hb.
    + pose proof (test_body_testPeriod _ _ _ E) as Hp.
      assert (Hn1 : Z.to_nat (tE - testPeriod l1) = n) by lia.
      specialize (IH l1 s1 Hn1). cbv zeta in IH. cbv zeta.
      assert (T1 : totalBuys s1 = totalBuys self + tb)
        by (rewrite Hb; reflexivity).
      assert (T2 : totalSells s1 = totalSells self + ts)
        by (rewrite Hb; reflexivity).
      lia.
    + rewrite Hb. simpl. lia.
Qed.

(** X5. A run counts at most one decision per test period: the buys and
    sells it adds are no more than [testEnd - testStart] (none when the
    resolved test window is empty), whether it returns or raises. *)
Theorem decisions_bounded_by_test_periods (data : Data) (self : Backtest)
    (stock : string) (teS teE : Z) :
  last_item (stocks self) = Ok stock ->
  DateIndex data (testStart self) false stock = Ok teS ->
  DateIndex data (testEnd self) true stock = Ok teE ->
  let self' := fst (runModel data self) in
  0 <= (totalBuys self' + totalSells self')
       - (totalBuys self + totalSells self) <= Z.max 0 (teE - teS).
Proof.
  intros E0 E3 E4 self'. subst self'.
  destruct (runModel data self) as [s' r] eqn:H. simpl fst. revert H.
  unfold runModel, bind at 1 2 3 4 5 6 7 8 9 10 11 12 13 14, attr, call.
  rewrite E0, E3, E4.
  destruct (DateIndex data (trainStart self) _ _) as [trS|];
    [|intros [= <- _]; lia].
  destruct (DateIndex data (trainEnd self) _ _) as [trE|];
    [|intros [= <- _]; lia].
  destruct (date_strftime data trS) as [d1|]; [|intros [= <- _]; lia].
  destruct (date_strftime data trE) as [d2|]; [|intros [= <- _]; lia].
  destruct (date_strftime data teS) as [d3|]; [|intros [= <- _]; lia].
  destruct (date_strftime data teE) as [d4|]; [|intros [= <- _]; lia].
  unfold bind at 1, assign. unfold bind at 1.
  set (s0 := set_dates (dates self ++ [[d1; d2; d3; d4]]) self).
  pose proof (training_self data (range trS (trE + 1)) [] [] s0) as Hs.
  destruct (training data _ _ _ _) as [s0' [[X y]|]];
    simpl in Hs; subst s0'; [|intros [= <- _]; simpl; lia].
  unfold bind at 1 2 3 4 5. simpl fst; simpl snd.
  destruct (vstack X) as [XX'|]; [|intros [= <- _]; simpl; lia].
  destruct (hstack y) as [yy'|]; [|intros [= <- _]; simpl; lia].
  destruct (fit _ XX' yy') as [m|]; [|intros [= <- _]; simpl; lia].
  unfold bind.
  pose proof (@testing_decisions data teE _
                (mkLocals X y XX' yy' m teS) s0 eq_refl) as Hd.
  cbv zeta in Hd. simpl testPeriod in Hd.
  destruct (testing _ _ _ _) as [s1 [l'|]]; simpl in Hd;
    intros [= <- _]; simpl; lia.
Qed.

(* ---------------------------------------------------------------- *)
(** ** What is retained for plotting *)

Lemma conditions_spec (data : Data) (i : Z) (vars : list string) :
  forall acc Xs,
    conditions data i vars acc = Ok Xs <->
    exists xs, Xs = acc ++ xs
               /\ Forall2 (fun var x => FindConditions data i var = Ok x)
                    vars xs.
Proof.
  induction vars as [|var vars IH]; intros acc Xs; simpl.
  - split.
    + intros [= <-]. exists []. rewrite app_nil_r. split; constructor.
    + intros (xs & -> & H). inversion H. rewrite app_nil_r. reflexivity.
  - destruct (FindConditions data i var) as [x|e] eqn:E.
    + rewrite IH. split.
      * intros (xs & -> & H). exists (x :: xs). rewrite <- app_assoc.
        split; [reflexivity|]. constructor; assumption.
      * intros (xs & -> & H). inversion H as [|v x' vs xs' Hx Hxs]; subst.
        rewrite E in Hx. injection Hx as <-.
        exists xs'. rewrite <- app_assoc. split; [reflexivity|exact Hxs].
    + split; [discriminate|].
      intros (xs & _ & H). inversion H as [|v x' vs xs' Hx Hxs]; subst.
      rewrite E in Hx. discriminate.
Qed.

Lemma test_body_fitted (data : Data) (l l' : Locals) (self self' : Backtest) :
  test_body data l self = (self', Ok l') ->
  (continuedTraining self = false -> l' = set_testPeriod (testPeriod l + 1) l)
  /\ (fitted_on l -> fitted_on l').
Proof.
  rewrite test_body_unfold.
  destruct (conditions _ _ _ _) as [Xs|]; [|discriminate].
  destruct (Predict _ _) as [np|]; [|discriminate].
  cbv zeta.
  destruct (PercentChange _ _) as [o|]; [|discriminate].
  unfold update_model, bind, attr, call, ret.
  rewrite record_outcome_eq, continuedTraining_set_stats,
    count_prediction_eq, continuedTraining_set_stats.
  destruct (continuedTraining self).
  - destruct (vstack _) as [XX'|]; [|discriminate].
    destruct (hstack _) as [yy'|]; [|discriminate].
    destruct (fit _ _ _) as [m|] eqn:Ef; [|discriminate].
    intros [= _ <-]. split; [discriminate|].
    intros _. exists (l_model l). exact Ef.
  - intros [= _ <-]. split; [reflexivity|].
    intros H. exact H.
Qed.

Lemma testing_fitted (data : Data) (tE : Z) (n : nat) :
  forall (l l' : Locals) (self self' : Backtest),
    Z.to_nat (tE - testPeriod l) = n ->
    testing data tE l self = (self', Ok l') ->
    (continuedTraining self = false -> l' = set_testPeriod (testPeriod l') l)
    /\ (fitted_on l -> fitted_on l').
Proof.
  induction n as [|n IH]; intros l l' self self' Hn; rewrite testing_loop.
  - replace (testPeriod l <? tE) with false by (symmetry; apply Z.ltb_ge; lia).
    intros [= <- <-]. split; [|auto].
    intros _. symmetry. apply set_testPeriod_id.
  - replace (testPeriod l <? tE) with true by (symmetry; apply Z.ltb_lt; lia).
    destruct (test_body data l self) as [s1 [l1|e]] eqn:E; [|discriminate].
    intros H.
    pose proof (test_body_testPeriod _ _ _ E) as Ht.
    destruct (test_body_fitted _ _ _ E) as [Hc Hf].
    pose proof (evolves_body data l self) as Hev. rewrite E in Hev.
    destruct Hev as ((_ & _ & _ & _ & _ & _ & _ & Hct & _) & _).
    simpl in Hct.
    apply IH in H; [|lia]. destruct H as [Hc' Hf'].
    split; [|auto].
    intros Hfalse. rewrite Hc' by congruence. rewrite (Hc Hfalse).
    reflexivity.
Qed.

(** What a run that returns retains, by index. *)
Lemma runModel_retained (data : Data) (self self' : Backtest) :
  runModel data self = (self', Ok tt) ->
  exists stock trS trE teS teE X y m,
    last_item (stocks self) = Ok stock
    /\ DateIndex data (trainStart self) false stock = Ok trS
    /\ DateIndex data (trainEnd self) true stock = Ok trE
    /\ DateIndex data (testStart self) false stock = Ok teS
    /\ DateIndex data (testEnd self) true stock = Ok teE
    /\ XX self' = Some X /\ yy self' = Some y /\ model self' = Some m
    /\ trS <= trE
    /\ (let periods := range trS (trE + 1)
                       ++ (if continuedTraining self
                           then range teS teE else []) in
        Forall2 (features_at data (variables self)) periods X
        /\ Forall2 (label_at data) periods y)
    /\ (exists m0, fit m0 X y = Ok m)
    /\ (continuedTraining self = false ->
        fit (SVC (C self) (gamma self)) X y = Ok m).
Proof.
  intros H.
  destruct (runModel_ok_inv _ _ H)
    as (stock & trS & trE & teS & teE & d & X & y & XX' & yy' & m & s1 & l'
        & E0 & E1 & E2 & E3 & E4 & Etr & EX & Ey & Ef & Ete & ->).
  apply training_ok in Etr. destruct Etr as (Xn & yn & -> & -> & HX & Hy).
  simpl in HX, Hy.
  pose proof (vstack_nonempty EX) as Hne.
  apply vstack_ok in EX. apply hstack_ok in Ey. subst XX' yy'.
  assert (Hle : trS < trE + 1).
  { apply range_nonempty. intros Hr. rewrite Hr in HX.
    inversion HX. subst. apply Hne. reflexivity. }
  pose proof Ete as Ete'.
  eapply testing_fitted in Ete'; [|reflexivity].
  destruct Ete' as [Hsame Hfit].
  eapply testing_locals in Ete; try reflexivity.
  destruct Ete as (HXX & Hyy & Xt & yt & EXt & Eyt & HF).
  simpl in EXt, Eyt, HF, Hsame, Hfit. destruct HF as [HF1 HF2].
  assert (Hfitted : fitted_on l').
  { apply Hfit. exists (SVC (C self) (gamma self)). exact Ef. }
  destruct Hfitted as [m0 Hm0].
  exists stock, trS, trE, teS, teE, (l_XX l'), (l_yy l'), (l_model l').
  do 5 (split; [assumption|]). do 3 (split; [reflexivity|]).
  split; [lia|]. split; [|split].
  - rewrite HXX, Hyy, EXt, Eyt. split; apply Forall2_app; assumption.
  - exists m0. exact Hm0.
  - intros Hc. rewrite (Hsame Hc). simpl. exact Ef.
Qed.

(** X6. After a run that returns, the retained model is the result of a
    fit on exactly the retained matrices, which hold as many rows as
    labels and at least one; without continued training it is the one fit
    of a fresh [SVC(C, gamma)] made before the testing loop. *)
Theorem retained_model_fits_retained_data (data : Data)
    (self self' : Backtest) :
  runModel data self = (self', Ok tt) ->
  exists X y m,
    XX self' = Some X /\ yy self' = Some y /\ model self' = Some m
    /\ X <> [] /\ List.length X = List.length y
    /\ (exists m0, fit m0 X y = Ok m)
    /\ (continuedTraining self = false ->
        fit (SVC (C self) (gamma self)) X y = Ok m).
Proof.
  intros H. apply runModel_retained in H.
  destruct H as (stock & trS & trE & teS & teE & X & y & m
                 & _ & _ & _ & _ & _ & HX & Hy & Hm & Hle & [F1 F2]
                 & Hfit & Hfresh).
  exists X, y, m. do 3 (split; [assumption|]).
  split; [|split; [|split; assumption]].
  - intros ->. apply Forall2_length in F1. rewrite length_app in F1.
    pose proof (range_length trS (trE + 1)) as Hl. simpl in F1. lia.
  - rewrite <- (Forall2_length F1), <- (Forall2_length F2). reflexivity.
Qed.

(** X7. The conditions of an index are computed for the configured
    variables in their order, one value each, and fail if any of them
    fails; so every row retained by a run that returns has as many entries
    as there are variables. *)
Theorem feature_vectors_follow_variables (data : Data) :
  (forall i vars Xs,
     conditions data i vars [] = Ok Xs <->
     Forall2 (fun var x => FindConditions data i var = Ok x) vars Xs)
  /\ (forall self self' X,
        runModel data self = (self', Ok tt) ->
        XX self' = Some X ->
        Forall (fun row => List.length row = List.length (variables self))
          X).
Proof.
  assert (Hc : forall i vars Xs,
             conditions data i vars [] = Ok Xs <->
             Forall2 (fun var x => FindConditions data i var = Ok x)
               vars Xs).
  { intros i vars Xs. rewrite conditions_spec. simpl. split.
    - intros (xs & -> & H). exact H.
    - intros H. exists Xs. split; [reflexivity|exact H]. }
  split; [exact Hc|].
  intros self self' X H HX. apply runModel_retained in H.
  destruct H as (stock & trS & trE & teS & teE & X' & y & m
                 & _ & _ & _ & _ & _ & HX' & _ & _ & _ & [F1 _] & _).
  rewrite HX in HX'. injection HX' as <-. clear HX.
  revert F1.
  generalize (range trS (trE + 1)
              ++ (if continuedTraining self then range teS teE else [])).
  intros idx F1.
  induction F1 as [|i row idx rows Hrow _ IH]; [constructor|].
  constructor; [|exact IH].
  apply Hc in Hrow. symmetry. exact (Forall2_length Hrow).
Qed.

(* ---------------------------------------------------------------- *)
(** ** The two thresholds side by side *)

Lemma predict_sell_mono (b s1 s2 neg pos : Q) :
  (s1 <= s2)%Q ->
  let p1 := predict_decision b s1 neg pos in
  let p2 := predict_decision b s2 neg pos in
  buys_of p2 = buys_of p1
  /\ sells_of p2 <= sells_of p1
  /\ forall o, good_buy p2 o = good_buy p1 o
               /\ good_sell p2 o <= good_sell p1 o.
Proof.
  intros Hs. unfold predict_decision.
  destruct (Qle_bool b pos).
  - repeat split; lia.
  - destruct (Qle_bool s2 neg) eqn:E2.
    + apply Qle_bool_iff in E2.
      assert (E1 : Qle_bool s1 neg = true).
      { apply Qle_bool_iff. eapply Qle_trans; eassumption. }
      rewrite E1. repeat split; lia.
    + destruct (Qle_bool s1 neg); cbv zeta;
        unfold buys_of, sells_of, good_buy, good_sell; simpl;
        repeat split; try lia;
        destruct (Qlt_bool o 0); lia.
Qed.

Lemma predict_buy_mono (b1 b2 s neg pos : Q) :
  (b1 <= b2)%Q ->
  let p1 := predict_decision b1 s neg pos in
  let p2 := predict_decision b2 s neg pos in
  sells_of p1 <= sells_of p2
  /\ buys_of p2 + sells_of p2 <= buys_of p1 + sells_of p1.
Proof.
  intros Hb. unfold predict_decision.
  destruct (Qle_bool b2 pos) eqn:E2.
  - apply Qle_bool_iff in E2.
    assert (E1 : Qle_bool b1 pos = true).
    { apply Qle_bool_iff. eapply Qle_trans; eassumption. }
    rewrite E1. cbv zeta. unfold buys_of, sells_of. simpl. lia.
  - destruct (Qle_bool b1 pos), (Qle_bool s neg); cbv zeta;
      unfold buys_of, sells_of; simpl; lia.
Qed.

Lemma fewer_sells_body (data : Data) (l : Locals) (s1 s2 : Backtest) :
  fewer_sells s1 s2 ->
  fewer_sells (fst (test_body data l s1)) (fst (test_body data l s2)).
Proof.
  intros (Hs & Hb & Hl & T1 & T2 & T3 & T4).
  split; [apply same_setup_body, Hs|].
  rewrite !test_body_self. unfold tally.
  destruct Hs as (Hv & _). rewrite <- Hv, <- Hb.
  destruct (conditions _ _ _ _) as [Xs|]; [|simpl; repeat split; auto; lia].
  destruct (Predict _ _) as [np|]; [|simpl; repeat split; auto; lia].
  destruct (predict_sell_mono (buyThreshold s1) (fst np) (snd np) Hl)
    as (P1 & P2 & P3).
  cbv zeta.
  destruct (PercentChange _ _) as [o|]; simpl.
  - destruct (P3 o) as [P4 P5]. repeat split; auto; lia.
  - repeat split; auto; lia.
Qed.

Lemma buys_turn_into_sells_body (data : Data) (l : Locals)
    (s1 s2 : Backtest) :
  buys_turn_into_sells s1 s2 ->
  buys_turn_into_sells (fst (test_body data l s1))
    (fst (test_body data l s2)).
Proof.
  intros (Hs & Hb & Hl & T1 & T2).
  split; [apply same_setup_body, Hs|].
  rewrite !test_body_self. unfold tally.
  destruct Hs as (Hv & _). rewrite <- Hv, <- Hl.
  destruct (conditions _ _ _ _) as [Xs|]; [|simpl; repeat split; auto; lia].
  destruct (Predict _ _) as [np|]; [|simpl; repeat split; auto; lia].
  destruct (predict_buy_mono (sellThreshold s1) (fst np) (snd np) Hb)
    as (P1 & P2).
  cbv zeta.
  destruct (PercentChange _ _) as [o|]; simpl; repeat split; auto; lia.
Qed.

Lemma fewer_sells_runModel (data : Data) :
  lockstep fewer_sells (runModel data) (runModel data).
Proof.
  apply lockstep_runModel.
  - intros a b H. apply H.
  - intros d l a b H. apply fewer_sells_body, H.
  - intros d a b H. exact H.
  - intros vx vy vm a b H. exact H.
Qed.

Lemma buys_turn_into_sells_runModel (data : Data) :
  lockstep buys_turn_into_sells (runModel data) (runModel data).
Proof.
  apply lockstep_runModel.
  - intros a b H. apply H.
  - intros d l a b H. apply buys_turn_into_sells_body, H.
  - intros d a b H. exact H.
  - intros vx vy vm a b H. exact H.
Qed.

(* ---------------------------------------------------------------- *)
(** ** Plotting, beyond its checks *)

(** The instance after [visualizeModel]: as before, or with the retained
    model replaced by its refit. *)
Lemma visualizeModel_frame w h st (self : Backtest) :
  fst (visualizeModel w h st self) = self
  \/ exists m m',
       model self = Some m /\ XX self <> None /\ yy self <> None
       /\ fst (visualizeModel w h st self) = set_model (Some m') self.
Proof.
  unfold visualizeModel.
  destruct (negb _); [left; reflexivity|].
  destruct (XX self) as [X|]; [|left; reflexivity].
  destruct (yy self) as [y|]; [|left; reflexivity].
  destruct (model self) as [m|]; [|left; reflexivity].
  destruct (fit_transform X) as [Xn|]; [|left; reflexivity].
  destruct (fit m Xn y) as [m'|]; [|left; reflexivity].
  right. exists m, m'.
  do 3 (split; [try reflexivity; discriminate|]).
  destruct (contour_grid _ _ _ _ _); [|reflexivity].
  destruct (last_item _); [|reflexivity].
  destruct (draw _ _ _ _); reflexivity.
Qed.

(** X10. [visualizeModel] changes nothing of the instance but the retained
    model.  It saves at most one file, named after the last symbol with
    [.png] appended; it prints a line only when it refuses to plot; and
    when it raises it has neither printed nor saved anything. *)
Theorem visualize_touches_only_model w h st (self : Backtest) :
  let self' := fst (visualizeModel w h st self) in
  let shown := fst (snd (visualizeModel w h st self)) in
  let r := snd (snd (visualizeModel w h st self)) in
  (self' = self \/ exists m', self' = set_model (Some m') self)
  /\ XX self' = XX self /\ yy self' = yy self
  /\ ((shown = [] /\ exists e, r = Raise e)
      \/ (exists msg, shown = [Print msg] /\ self' = self /\ r = Ok tt)
      \/ (exists stock fig,
            last_item (stocks self) = Ok stock
            /\ shown = [SaveFig (stock ++ ".png") fig] /\ r = Ok tt)).
Proof.
  intros self' shown r. split; [|split; [|split]].
  - destruct (visualizeModel_frame w h st self)
      as [H|(m & m' & _ & _ & _ & H)]; [left; exact H|].
    right. exists m'. exact H.
  - destruct (visualizeModel_frame w h st self)
      as [H|(m & m' & _ & _ & _ & H)]; subst self'; rewrite H; reflexivity.
  - destruct (visualizeModel_frame w h st self)
      as [H|(m & m' & _ & _ & _ & H)]; subst self'; rewrite H; reflexivity.
  - subst self' shown r. unfold visualizeModel.
    destruct (negb _).
    { right. left. eexists. repeat split. }
    destruct (XX self) as [X|]; [|right; left; eexists; repeat split].
    destruct (yy self) as [y|]; [|right; left; eexists; repeat split].
    destruct (model self) as [m|]; [|right; left; eexists; repeat split].
    destruct (fit_transform X) as [Xn|];
      [|left; split; [reflexivity|eexists; reflexivity]].
    destruct (fit m Xn y) as [m'|];
      [|left; split; [reflexivity|eexists; reflexivity]].
    destruct (contour_grid _ _ _ _ _) as [g|];
      [|left; split; [reflexivity|eexists; reflexivity]].
    simpl stocks.
    destruct (last_item (stocks self)) as [stock|] eqn:Es;
      [|left; split; [reflexivity|eexists; reflexivity]].
    destruct (draw _ _ _ _) as [fig|];
      [|left; split; [reflexivity|eexists; reflexivity]].
    right. right. exists stock, fig. repeat split.
Qed.

Lemma last_item_nonempty {A} (l : list A) (a : A) :
  last_item l = Ok a -> l <> [].
Proof. intros H ->. discriminate. Qed.

Lemma nonempty_last_item {A} (l : list A) :
  l <> [] -> exists a, last_item l = Ok a.
Proof.
  intros H. unfold last_item.
  destruct (rev l) as [|a r] eqn:E.
  - apply (f_equal (@rev A)) in E. rewrite rev_involutive in E.
    simpl in E. contradiction.
  - exists a. reflexivity.
Qed.

Lemma reachable_plot_data (self : Backtest) :
  reachable self -> plot_data_ok self /\ dates_ok self.
Proof.
  induction 1 as [vars d1 d2 d3 d4 b s c g ct tz self H
                 |stock self _ IH|data self _ IH|data l self _ IH
                 |p self _ IH|w h st self _ IH].
  - apply init_stats in H.
    destruct H as (_ & Hd & _ & _ & _ & _ & HX & Hy & Hm & _).
    split; [left; auto|]. unfold dates_ok. rewrite Hd. constructor.
  - destruct IH as [[IH|(A & B & C' & D & E)] Hd]; split; try exact Hd.
    + left. exact IH.
    + right. repeat split; try assumption.
      simpl. intros H. apply app_eq_nil in H. destruct H. discriminate.
  - destruct IH as [IH Hd].
    destruct (runModel_shape data self)
      as [[e' E']|(d1 & d2 & d3 & d4
                   & [(e' & s2 & E' & Ho')|(s2 & vx & vy & vm & E' & Ho')])];
      rewrite E'; simpl.
    + split; assumption.
    + split.
      * destruct IH as [IH|(A & B & C' & D & F)]; rewrite Ho'.
        -- left. exact IH.
        -- right. simpl. repeat split; try assumption.
           intros H. apply app_eq_nil in H. destruct H. discriminate.
      * unfold dates_ok. rewrite Ho'. simpl.
        apply Forall_app. split; [exact Hd|].
        constructor; [reflexivity|constructor].
    + pose proof E' as Einv. apply runModel_ok_inv in Einv.
      destruct Einv as (stock & trS & trE & teS & teE & d & X & y & XX'
                        & yy' & m & s1 & l' & E0 & _).
      split.
      * right. simpl. rewrite Ho'. simpl.
        repeat split; try discriminate.
        -- eapply last_item_nonempty, E0.
        -- intros H. apply app_eq_nil in H. destruct H. discriminate.
      * unfold dates_ok. simpl. rewrite Ho'. simpl.
        apply Forall_app. split; [exact Hd|].
        constructor; [reflexivity|constructor].
  - rewrite test_body_self. destruct (tally data l self) as [[[? ?] ?] ?].
    exact IH.
  - rewrite count_prediction_eq. exact IH.
  - destruct IH as [IH Hd].
    destruct (visualizeModel_frame w h st self)
      as [H|(m & m' & Hm & HX & Hy & H)]; rewrite H; [split; assumption|].
    split; [|exact Hd].
    destruct IH as [(A & _)|(A & B & C' & D & F)]; [contradiction|].
    right. simpl. repeat split; try assumption. discriminate.
Qed.

(** X11. In every state an instance goes through, [XX], [yy] and [model]
    are absent together or present together; when they are present the
    instance has a last symbol (so [visualizeModel] finds its title and
    file name) and a date entry (so [displayStats] does not refuse); and
    every date entry holds four strings. *)
Theorem plot_data_all_or_nothing (self : Backtest) :
  reachable self ->
  ((XX self = None /\ yy self = None /\ model self = None)
   \/ (XX self <> None /\ yy self <> None /\ model self <> None
       /\ (exists stock, last_item (stocks self) = Ok stock)
       /\ dates self <> []))
  /\ Forall (fun d => List.length d = 4%nat) (dates self).
Proof.
  intros H. apply reachable_plot_data in H. destruct H as [Hp Hd].
  split; [|exact Hd].
  destruct Hp as [Hp|(A & B & C' & D & E)]; [left; exact Hp|].
  right. repeat split; try assumption.
  apply nonempty_last_item, D.
Qed.

(* ---------------------------------------------------------------- *)
(** ** The two reports *)

Lemma buyStats_returns (self : Backtest) : exists v, buyStats self = Ok v.
Proof.
  unfold buyStats. rewrite stats_value.
  destruct (totalBuys self =? 0); eexists; reflexivity.
Qed.

Lemma sellStats_returns (self : Backtest) : exists v, sellStats self = Ok v.
Proof.
  unfold sellStats. rewrite stats_value.
  destruct (totalSells self =? 0); eexists; reflexivity.
Qed.

Lemma date_item_ok (ds : list (list string)) (i k : nat) :
  Forall (fun d => List.length d = 4%nat) ds ->
  (i < List.length ds)%nat -> (k < 4)%nat ->
  exists x, date_item ds i k = Ok x.
Proof.
  intros Hd Hi Hk. unfold date_item.
  destruct (nth_error ds i) as [d|] eqn:E.
  - assert (Hl : List.length d = 4%nat).
    { rewrite Forall_forall in Hd. apply Hd.
      eapply nth_error_In, E. }
    destruct (nth_error d k) as [x|] eqn:Ek; [eexists; reflexivity|].
    apply nth_error_None in Ek. lia.
  - apply nth_error_None in E. lia.
Qed.

Lemma date_item_out (ds : list (list string)) (i k : nat) :
  (List.length ds <= i)%nat -> date_item ds i k = Raise IndexError.
Proof.
  intros H. unfold date_item.
  rewrite (proj2 (nth_error_None ds i) H). reflexivity.
Qed.

(** The lines for the stocks: all of them when every stock has a date
    entry of its index, else those before the first that has none. *)
Lemma stock_lines_spec (ds : list (list string)) (stocks0 : list string) :
  Forall (fun d => List.length d = 4%nat) ds ->
  forall i,
    ((i + List.length stocks0 <= List.length ds)%nat ->
     snd (stock_lines ds i stocks0) = Ok tt
     /\ List.length (fst (stock_lines ds i stocks0))
        = List.length stocks0)
    /\ ((i <= List.length ds)%nat ->
        (List.length ds < i + List.length stocks0)%nat ->
        snd (stock_lines ds i stocks0) = Raise IndexError
        /\ List.length (fst (stock_lines ds i stocks0))
           = (List.length ds - i)%nat).
Proof.
  intros Hd. induction stocks0 as [|stock rest IH]; intros i; simpl.
  - split; [auto|]. intros H1 H2. lia.
  - destruct (Nat.lt_ge_cases i (List.length ds)) as [Hlt|Hge].
    + destruct (@date_item_ok ds i 0 Hd Hlt) as [d0 ->]; [lia|].
      destruct (@date_item_ok ds i 1 Hd Hlt) as [d1 ->]; [lia|].
      destruct (@date_item_ok ds i 2 Hd Hlt) as [d2 ->]; [lia|].
      destruct (@date_item_ok ds i 3 Hd Hlt) as [d3 ->]; [lia|].
      simpl. destruct (IH (S i)) as [IH1 IH2]. split.
      * intros H. destruct IH1 as [A B]; [lia|]. rewrite A, B. auto.
      * intros H1 H2. destruct IH2 as [A B]; [lia|lia|].
        rewrite A, B. split; [reflexivity|lia].
    + rewrite (date_item_out ds 0 Hge). simpl. split.
      * intros H. lia.
      * intros H1 H2. split; [reflexivity|lia].
Qed.

(** X12. Before any run has appended its dates, [displayStats] prints one
    error line and returns; so it does on a freshly constructed instance.
    After a run that returns it prints the statistics instead. *)
Theorem displayStats_needs_a_run :
  (forall self, dates self = [] ->
     displayStats self
     = ([Print "Error: Please run model before displaying stats"], Ok tt))
  /\ (forall vars d1 d2 d3 d4 b s c g ct tz self,
        __init__ vars d1 d2 d3 d4 b s c g ct tz = Ok self ->
        displayStats self
        = ([Print "Error: Please run model before displaying stats"],
           Ok tt))
  /\ (forall data self self',
        runModel data self = (self', Ok tt) ->
        exists shown,
          fst (displayStats self')
          = Print (bld ++ "Stats" ++ end_)%string
            :: Print "Stock(s):" :: shown).
Proof.
  assert (H1 : forall self, dates self = [] ->
             displayStats self
             = ([Print "Error: Please run model before displaying stats"],
                Ok tt)).
  { intros self H. unfold displayStats. rewrite H. reflexivity. }
  split; [exact H1|]. split.
  - intros vars d1 d2 d3 d4 b s c g ct tz self H. apply H1.
    apply init_stats in H. apply H.
  - intros data self self' H.
    assert (Hd : Nat.eqb (List.length (dates self')) 0 = false).
    { apply runModel_ok_inv in H.
      destruct H as (stock & trS & trE & teS & teE & d & X & y & XX' & yy'
                     & m & s1 & l' & _ & _ & _ & _ & _ & _ & _ & _ & _
                     & Ete & ->).
      pose proof (only_stats_testing data teE (mkLocals X y XX' yy' m teS)
                    (set_dates (dates self ++ [d]) self)) as Ho.
      rewrite Ete in Ho. simpl in Ho. simpl. rewrite Ho. simpl.
      rewrite length_app. simpl. apply Nat.eqb_neq. lia. }
    unfold displayStats. rewrite Hd.
    destruct (stock_lines _ _ _) as [ev [[]|e]].
    + destruct (buyStats_returns self') as [vb ->].
      destruct (sellStats_returns self') as [vs ->].
      simpl. eexists. reflexivity.
    + simpl. eexists. reflexivity.
Qed.

(** X13. [displayStats] pairs the stock of index [i] with the date entry
    of index [i].  With a date list that is not empty and holds four
    strings per entry: if every stock has its entry the method returns,
    having printed a line per stock and six more; if there are more stocks
    than entries (a symbol was appended and its run raised before the
    dates) it raises [IndexError] after the two header lines and a line
    for each stock that has an entry. *)
Theorem displayStats_pairs_stocks_with_dates (self : Backtest) :
  Forall (fun d => List.length d = 4%nat) (dates self) ->
  dates self <> [] ->
  ((List.length (stocks self) <= List.length (dates self))%nat ->
   snd (displayStats self) = Ok tt
   /\ List.length (fst (displayStats self))
      = (List.length (stocks self) + 6)%nat)
  /\ ((List.length (dates self) < List.length (stocks self))%nat ->
      snd (displayStats self) = Raise IndexError
      /\ List.length (fst (displayStats self))
         = (2 + List.length (dates self))%nat).
Proof.
  intros Hd Hne.
  assert (Hz : Nat.eqb (List.length (dates self)) 0 = false).
  { apply Nat.eqb_neq. destruct (dates self); [contradiction|discriminate]. }
  destruct (stock_lines_spec (stocks self) Hd 0%nat) as [S1 S2].
  unfold displayStats. rewrite Hz. split.
  - intros Hle. destruct S1 as [A B]; [simpl; exact Hle|].
    destruct (stock_lines _ _ _) as [ev r]. simpl in A, B. subst r.
    destruct (buyStats_returns self) as [vb ->].
    destruct (sellStats_returns self) as [vs ->].
    simpl. split; [reflexivity|].
    rewrite ?length_app. simpl. rewrite ?length_app. simpl. lia.
  - intros Hlt. destruct S2 as [A B]; [lia|simpl; exact Hlt|].
    destruct (stock_lines _ _ _) as [ev r]. simpl in A, B. subst r.
    simpl. split; [reflexivity|]. lia.
Qed.

Lemma condition_lines_length (i : Z) (vars : list string) :
  List.length (condition_lines i vars) = List.length vars.
Proof.
  revert i. induction vars as [|v vars IH]; intros i; simpl;
    [reflexivity|]. rewrite IH. reflexivity.
Qed.

Lemma condition_lines_nth (vars : list string) :
  forall (i : Z) (k : nat) (var : string),
    nth_error vars k = Some var ->
    nth_error (condition_lines i vars) k
    = Some (Print ("X" ++ str_int (i + Z.of_nat k) ++ ": " ++ var)%string).
Proof.
  induction vars as [|v vars IH]; intros i k var H.
  - destruct k; discriminate.
  - destruct k as [|k]; simpl in *.
    + injection H as ->. rewrite Z.add_0_r. reflexivity.
    + rewrite (IH (i + 1) k var H).
      replace (i + 1 + Z.of_nat k) with (i + Z.pos (Pos.of_succ_nat k))
        by lia.
      reflexivity.
Qed.

(** X14. [displayConditions] prints a title, one line per configured
    variable and five lines of settings.  The line of the variable of
    index [k] is the one after the title and [k] lines, and reads
    [X<k+1>: <variable>]: the numbering starts at 1 and follows the
    configured order. *)
Theorem displayConditions_numbers_from_one (self : Backtest) :
  List.length (displayConditions self)
  = (List.length (variables self) + 6)%nat
  /\ forall (k : nat) (var : string),
       nth_error (variables self) k = Some var ->
       nth_error (displayConditions self) (S k)
       = Some (Print ("X" ++ str_int (Z.of_nat k + 1) ++ ": " ++ var)%string).
Proof.
  unfold displayConditions. split.
  - simpl. rewrite length_app, condition_lines_length. simpl. lia.
  - intros k var H. simpl.
    rewrite nth_error_app1
      by (rewrite condition_lines_length; apply nth_error_Some;
          rewrite H; discriminate).
    rewrite (condition_lines_nth _ 1 k H).
    replace (1 + Z.of_nat k) with (Z.of_nat k + 1) by lia. reflexivity.
Qed.

(* ---------------------------------------------------------------- *)
(** ** The accuracy at its ends *)

Lemma round_half_even_Z (k : Z) : round_half_even (inject_Z k) = k.
Proof.
  unfold round_half_even. rewrite Qfloor_Z.
  assert (Hc : ((inject_Z k - inject_Z k ?= 1 # 2) = Lt)%Q).
  { apply Qlt_alt.
    assert (E : (inject_Z k - inject_Z k == 0)%Q) by ring.
    rewrite E. reflexivity. }
  rewrite Hc. reflexivity.
Qed.

Section RoundingEnds.

Hypothesis fl_mono :
  forall x y : Q, (0 <= x)%Q -> (x <= y)%Q -> (fl x <= fl y)%Q.
Hypothesis fl_0 : (fl 0 == 0)%Q.
Hypothesis fl_1 : (fl 1 == 1)%Q.
Hypothesis fl_100 : (fl 100 == 100)%Q.

Lemma fl_comp (x y : Q) : (0 <= x)%Q -> (x == y)%Q -> (fl x == fl y)%Q.
Proof.
  intros H0 E. apply Qle_antisym.
  - apply fl_mono; [exact H0|]. rewrite E. apply Qle_refl.
  - apply fl_mono; [rewrite <- E; exact H0|]. rewrite E. apply Qle_refl.
Qed.

Lemma round2_of (x : Q) (k : Z) :
  0 <= k -> (x == inject_Z k)%Q -> (fl (inject_Z k) == inject_Z k)%Q ->
  (round x 2 == inject_Z k)%Q.
Proof.
  intros Hk Hx Hfl. unfold round.
  change (inject_Z (10 ^ Z.of_nat 2)) with (inject_Z 100).
  rewrite (@round_half_even_comp (x * inject_Z 100) (inject_Z (k * 100))).
  2:{ rewrite Hx, inject_Z_mult. reflexivity. }
  rewrite round_half_even_Z.
  assert (E : (inject_Z (k * 100) / inject_Z 100 == inject_Z k)%Q).
  { rewrite inject_Z_mult. field; discriminate. }
  transitivity (fl (inject_Z k)); [|exact Hfl]. apply fl_comp; [|exact E].
  rewrite E. change 0%Q with (inject_Z 0). rewrite <- Zle_Qle. exact Hk.
Qed.

Lemma stats_all_correct (t : Z) :
  0 < t ->
  (round (fl (fl (fl (inject_Z t) / fl (inject_Z t)) * 100)) 2 == 100)%Q.
Proof.
  intros Ht.
  assert (Hb : (1 <= fl (inject_Z t))%Q).
  { rewrite <- fl_1. apply fl_mono; [discriminate|].
    change 1%Q with (inject_Z 1). rewrite <- Zle_Qle. lia. }
  assert (Hnz : ~ (fl (inject_Z t) == 0)%Q).
  { intros E. rewrite E in Hb. unfold Qle in Hb. simpl in Hb. lia. }
  assert (E1 : (fl (inject_Z t) / fl (inject_Z t) == 1)%Q)
    by (apply Qmult_inv_r, Hnz).
  assert (E2 : (fl (fl (inject_Z t) / fl (inject_Z t)) == 1)%Q).
  { transitivity (fl 1); [|exact fl_1]. apply fl_comp; [|exact E1].
    rewrite E1. discriminate. }
  assert (E3 : (fl (fl (fl (inject_Z t) / fl (inject_Z t)) * 100)
                == 100)%Q).
  { transitivity (fl 100); [|exact fl_100]. apply fl_comp.
    - rewrite E2. discriminate.
    - rewrite E2. reflexivity. }
  apply (@round2_of _ 100); [lia|exact E3|exact fl_100].
Qed.

Lemma stats_none_correct (t : Z) :
  (round (fl (fl (fl (inject_Z 0) / fl (inject_Z t)) * 100)) 2 == 0)%Q.
Proof.
  assert (E1 : (fl (inject_Z 0) / fl (inject_Z t) == 0)%Q).
  { change (inject_Z 0) with 0%Q. rewrite fl_0. unfold Qdiv.
    apply Qmult_0_l. }
  assert (E2 : (fl (fl (inject_Z 0) / fl (inject_Z t)) == 0)%Q).
  { transitivity (fl 0); [|exact fl_0]. apply fl_comp; [|exact E1].
    rewrite E1. apply Qle_refl. }
  assert (E3 : (fl (fl (fl (inject_Z 0) / fl (inject_Z t)) * 100) == 0)%Q).
  { transitivity (fl 0); [|exact fl_0]. apply fl_comp.
    - rewrite E2. discriminate.
    - rewrite E2. reflexivity. }
  apply (@round2_of _ 0); [lia|exact E3|exact fl_0].
Qed.

(** X15. For a rounding that is monotone on the non-negative numbers and
    keeps 0, 1 and 100: when every buy was correct (and there was one)
    [buyStats] is exactly 100, and when none was correct it is exactly 0;
    likewise [sellStats]. *)
Theorem accuracy_ends (self : Backtest) :
  (0 < totalBuys self -> correctBuys self = totalBuys self ->
   exists v, buyStats self = Ok v /\ (v == 100)%Q)
  /\ (correctBuys self = 0 ->
      exists v, buyStats self = Ok v /\ (v == 0)%Q)
  /\ (0 < totalSells self -> correctSells self = totalSells self ->
      exists v, sellStats self = Ok v /\ (v == 100)%Q)
  /\ (correctSells self = 0 ->
      exists v, sellStats self = Ok v /\ (v == 0)%Q).
Proof.
  unfold buyStats, sellStats. rewrite !stats_value.
  split; [|split; [|split]].
  - intros Ht ->. replace (totalBuys self =? 0) with false
      by (symmetry; apply Z.eqb_neq; lia).
    eexists. split; [reflexivity|apply stats_all_correct, Ht].
  - intros ->. destruct (totalBuys self =? 0).
    + eexists. split; reflexivity.
    + eexists. split; [reflexivity|apply stats_none_correct].
  - intros Ht ->. replace (totalSells self =? 0) with false
      by (symmetry; apply Z.eqb_neq; lia).
    eexists. split; [reflexivity|apply stats_all_correct, Ht].
  - intros ->. destruct (totalSells self =? 0).
    + eexists. split; reflexivity.
    + eexists. split; [reflexivity|apply stats_none_correct].
Qed.

End RoundingEnds.

End Engine.

(* ------------------------------------------------------------------ *)
(** ** Double precision *)

Unset Implicit Arguments.

Lemma round_half_even_mono (x y : Q) :
  (x <= y)%Q -> round_half_even x <= round_half_even y.
Proof.
  intros H. unfold round_half_even.
  pose proof (Qfloor_resp_le _ _ H) as Hf.
  destruct (Z.eq_dec (Qfloor x) (Qfloor y)) as [E|E].
  - rewrite E.
    assert (Hr : (x - inject_Z (Qfloor y) <= y - inject_Z (Qfloor y))%Q).
    { apply Qplus_le_l. exact H. }
    destruct (x - inject_Z (Qfloor y) ?= 1 # 2)%Q eqn:Cx;
      destruct (y - inject_Z (Qfloor y) ?= 1 # 2)%Q eqn:Cy;
      try (destruct (Z.even (Qfloor y)); lia);
      exfalso;
      first [apply Qeq_alt in Cx|apply Qlt_alt in Cx|apply Qgt_alt in Cx];
      first [apply Qeq_alt in Cy|apply Qlt_alt in Cy|apply Qgt_alt in Cy].
    + rewrite Cx in Hr. exact (Qlt_irrefl _ (Qle_lt_trans _ _ _ Hr Cy)).
    + rewrite Cy in Hr. exact (Qlt_irrefl _ (Qlt_le_trans _ _ _ Cx Hr)).
    + exact (Qlt_irrefl _ (Qlt_trans _ _ _ Cx (Qle_lt_trans _ _ _ Hr Cy))).
  - destruct (x - inject_Z (Qfloor x) ?= 1 # 2)%Q;
      destruct (y - inject_Z (Qfloor y) ?= 1 # 2)%Q;
      try destruct (Z.even (Qfloor x)); try destruct (Z.even (Qfloor y));
      lia.
Qed.

Lemma two_neq_0 : ~ (2 == 0)%Q.
Proof. discriminate. Qed.

Lemma pow2_pos (k : Z) : (0 < 2 ^ k)%Q.
Proof. apply Qpower_0_lt. reflexivity. Qed.

(** The exponent of a positive rational. *)
Lemma expo_spec (x : Q) :
  (0 < x)%Q -> (2 ^ expo x <= x)%Q /\ (x < 2 ^ (expo x + 1))%Q.
Proof.
  intros Hx. unfold expo.
  destruct x as [n d]. unfold Qabs. cbn [Qnum Qden].
  assert (Hn : 0 < n) by (unfold Qlt in Hx; simpl in Hx; lia).
  rewrite (Z.abs_eq n) by lia.
  pose proof (Z.log2_spec n Hn) as [Ha1 Ha2].
  pose proof (Z.log2_spec (Z.pos d) (Pos2Z.is_pos d)) as [Hb1 Hb2].
  pose proof (Z.log2_nonneg n) as Ha0.
  pose proof (Z.log2_nonneg (Z.pos d)) as Hb0.
  set (a := Z.log2 n) in *. set (b := Z.log2 (Z.pos d)) in *.
  assert (Hup : (n # d < 2 ^ (a - b + 1))%Q).
  { replace (a - b + 1) with ((a + 1) - b) by lia.
    rewrite Qpower_minus by exact two_neq_0.
    apply Qlt_shift_div_l; [apply pow2_pos|].
    change 2%Q with (inject_Z 2).
    rewrite <- !Zpower_Qpower by lia.
    unfold Qlt, Qmult; simpl. rewrite Z.mul_1_r.
    rewrite Z.succ_double_spec || idtac.
    nia. }
  assert (Hlo : (2 ^ (a - b - 1) <= n # d)%Q).
  { replace (a - b - 1) with (a - (b + 1)) by lia.
    rewrite Qpower_minus by exact two_neq_0.
    apply Qle_shift_div_r; [apply pow2_pos|].
    change 2%Q with (inject_Z 2).
    rewrite <- !Zpower_Qpower by lia.
    unfold Qle, Qmult; simpl. rewrite Z.mul_1_r.
    nia. }
  destruct (Qlt_bool (n # d) (2 ^ (a - b))) eqn:E.
  - apply Qlt_bool_iff in E. split; [exact Hlo|].
    replace (a - b - 1 + 1) with (a - b) by lia. exact E.
  - apply Qlt_bool_false_iff in E. split; [exact E|exact Hup].
Qed.

Lemma pow2_split (k a b : Z) : k = a + b -> (2 ^ k == 2 ^ a * 2 ^ b)%Q.
Proof. intros ->. apply Qpower_plus, two_neq_0. Qed.

Lemma fl64_pos (x : Q) :
  (0 < x)%Q ->
  fl64 x
  = (inject_Z (round_half_even (x * 2 ^ (52 - expo x)))
     * 2 ^ (- (52 - expo x)))%Q.
Proof.
  intros Hx. unfold fl64.
  destruct (Qeq_bool x 0) eqn:E; [|reflexivity].
  apply Qeq_bool_iff in E. rewrite E in Hx. discriminate.
Qed.

Lemma scaled_bounds (x : Q) :
  (0 < x)%Q ->
  (inject_Z (2 ^ 52) <= x * 2 ^ (52 - expo x))%Q
  /\ (x * 2 ^ (52 - expo x) <= inject_Z (2 ^ 53))%Q.
Proof.
  intros Hx. destruct (expo_spec x Hx) as [Hlo Hup].
  pose proof (pow2_pos (52 - expo x)) as Hs.
  split.
  - rewrite (Zpower_Qpower 2 52) by lia. change (inject_Z 2) with 2%Q.
    rewrite (pow2_split 52 (expo x) (52 - expo x)) by lia.
    apply Qmult_le_compat_r; [exact Hlo|apply Qlt_le_weak, Hs].
  - rewrite (Zpower_Qpower 2 53) by lia. change (inject_Z 2) with 2%Q.
    rewrite (pow2_split 53 (expo x + 1) (52 - expo x)) by lia.
    apply Qmult_le_compat_r; [apply Qlt_le_weak, Hup|apply Qlt_le_weak, Hs].
Qed.

(** A positive rational and its double lie in the same binade. *)
Lemma fl64_pos_bounds (x : Q) :
  (0 < x)%Q ->
  (2 ^ expo x <= fl64 x)%Q /\ (fl64 x <= 2 ^ (expo x + 1))%Q.
Proof.
  intros Hx. rewrite (fl64_pos x Hx).
  destruct (scaled_bounds x Hx) as [Hlo Hup].
  destruct (@round_half_even_bounds _ _ _ Hlo Hup) as [Klo Kup].
  pose proof (pow2_pos (- (52 - expo x))) as Hs.
  rewrite Zle_Qle in Klo, Kup.
  split.
  - rewrite (pow2_split (expo x) 52 (- (52 - expo x))) by lia.
    apply Qmult_le_compat_r; [|apply Qlt_le_weak, Hs].
    rewrite (Zpower_Qpower 2 52) in Klo by lia. exact Klo.
  - rewrite (pow2_split (expo x + 1) 53 (- (52 - expo x))) by lia.
    apply Qmult_le_compat_r; [|apply Qlt_le_weak, Hs].
    rewrite (Zpower_Qpower 2 53) in Kup by lia. exact Kup.
Qed.

Lemma expo_mono (x y : Q) :
  (0 < x)%Q -> (x <= y)%Q -> expo x <= expo y.
Proof.
  intros Hx Hxy.
  assert (Hy : (0 < y)%Q) by (eapply Qlt_le_trans; eassumption).
  destruct (expo_spec x Hx) as [Hlo _].
  destruct (expo_spec y Hy) as [_ Hup].
  assert (H : (2 ^ expo x < 2 ^ (expo y + 1))%Q).
  { eapply Qle_lt_trans; [exact Hlo|].
    eapply Qle_lt_trans; [exact Hxy|exact Hup]. }
  apply Qpower_lt_compat_l_inv in H; [lia|reflexivity].
Qed.

(** Rounding to double is monotone on the non-negative rationals. *)
Lemma fl64_mono (x y : Q) :
  (0 <= x)%Q -> (x <= y)%Q -> (fl64 x <= fl64 y)%Q.
Proof.
  intros Hx Hxy.
  destruct (Qeq_bool x 0) eqn:Ex.
  - unfold fl64 at 1. rewrite Ex.
    destruct (Qeq_bool y 0) eqn:Ey.
    + unfold fl64. rewrite Ey. apply Qle_refl.
    + apply Qeq_bool_neq in Ey.
      assert (Hy : (0 < y)%Q).
      { apply Qlt_leneq. split; [eapply Qle_trans; eassumption|].
        intros H. apply Ey. symmetry. exact H. }
      destruct (fl64_pos_bounds y Hy) as [Hlo _].
      eapply Qle_trans; [|exact Hlo]. apply Qlt_le_weak, pow2_pos.
  - apply Qeq_bool_neq in Ex.
    assert (Hx' : (0 < x)%Q).
    { apply Qlt_leneq. split; [exact Hx|].
      intros H. apply Ex. symmetry. exact H. }
    assert (Hy : (0 < y)%Q) by (eapply Qlt_le_trans; eassumption).
    pose proof (expo_mono x y Hx' Hxy) as He.
    destruct (Z.eq_dec (expo x) (expo y)) as [E|E].
    + rewrite (fl64_pos x Hx'), (fl64_pos y Hy), E.
      apply Qmult_le_compat_r; [|apply Qlt_le_weak, pow2_pos].
      rewrite <- Zle_Qle. apply round_half_even_mono.
      apply Qmult_le_compat_r; [exact Hxy|apply Qlt_le_weak, pow2_pos].
    + destruct (fl64_pos_bounds x Hx') as [_ Hup].
      destruct (fl64_pos_bounds y Hy) as [Hlo _].
      eapply Qle_trans; [exact Hup|].
      eapply Qle_trans; [|exact Hlo].
      apply Qpower_le_compat_l; [lia|discriminate].
Qed.

Lemma fl64_0 : (fl64 0 == 0)%Q. Proof. reflexivity. Qed.
Lemma fl64_1 : (fl64 1 == 1)%Q. Proof. vm_compute. reflexivity. Qed.
Lemma fl64_100 : (fl64 100 == 100)%Q. Proof. vm_compute. reflexivity. Qed.

(** Rounding to an integer moves a number by no more than one half. *)
Lemma round_half_even_near (x : Q) :
  (x - (1 # 2) <= inject_Z (round_half_even x))%Q
  /\ (inject_Z (round_half_even x) <= x + (1 # 2))%Q.
Proof.
  unfold round_half_even.
  pose proof (Qfloor_le x) as Hlo.
  pose proof (Qlt_floor x) as Hhi.
  rewrite inject_Z_plus in Hhi. change (inject_Z 1) with 1%Q in Hhi.
  set (f := Qfloor x) in *.
  destruct (x - inject_Z f ?= 1 # 2)%Q eqn:Cx.
  - apply Qeq_alt in Cx.
    destruct (Z.even f); [|rewrite inject_Z_plus; change (inject_Z 1) with 1%Q];
      split; lra.
  - apply Qlt_alt in Cx. split; lra.
  - apply Qgt_alt in Cx. rewrite inject_Z_plus. change (inject_Z 1) with 1%Q.
    split; lra.
Qed.

(** Doubles of equal numbers are equal. *)
Lemma fl64_comp (x y : Q) : (0 <= x)%Q -> (x == y)%Q -> (fl64 x == fl64 y)%Q.
Proof.
  intros H0 E. apply Qle_antisym.
  - apply fl64_mono; [exact H0|]. rewrite E. apply Qle_refl.
  - apply fl64_mono; [rewrite <- E; exact H0|]. rewrite E. apply Qle_refl.
Qed.

(** A double is within half a unit in the last place of what it rounds. *)
Lemma fl64_error (x : Q) (k : Z) :
  (0 <= x)%Q -> (x <= 2 ^ k)%Q ->
  (x - 2 ^ (k - 53) <= fl64 x)%Q /\ (fl64 x <= x + 2 ^ (k - 53))%Q.
Proof.
  intros H0 Hk.
  pose proof (pow2_pos (k - 53)) as Hu.
  destruct (Qeq_bool x 0) eqn:Ex.
  - unfold fl64. rewrite Ex. apply Qeq_bool_iff in Ex. split; lra.
  - apply Qeq_bool_neq in Ex.
    assert (Hx : (0 < x)%Q) by lra.
    destruct (expo_spec x Hx) as [Hlo _].
    assert (He : expo x <= k).
    { assert (H : (2 ^ expo x < 2 ^ (k + 1))%Q).
      { eapply Qle_lt_trans; [exact Hlo|].
        eapply Qle_lt_trans; [exact Hk|].
        apply Qpower_lt_compat_l; [lia|reflexivity]. }
      apply Qpower_lt_compat_l_inv in H; [lia|reflexivity]. }
    assert (Hue : (2 ^ (expo x - 53) <= 2 ^ (k - 53))%Q).
    { apply Qpower_le_compat_l; [lia|discriminate]. }
    rewrite (fl64_pos x Hx).
    set (s := 52 - expo x).
    destruct (round_half_even_near (x * 2 ^ s)) as [Rlo Rhi].
    pose proof (pow2_pos (- s)) as Hs.
    assert (E1 : (x * 2 ^ s * 2 ^ (- s) == x)%Q).
    { rewrite <- Qmult_assoc, <- (pow2_split 0 s (- s)) by lia.
      change (2 ^ 0)%Q with 1%Q. ring. }
    assert (E2 : ((1 # 2) * 2 ^ (- s) == 2 ^ (expo x - 53))%Q).
    { rewrite (pow2_split (expo x - 53) (-1) (- s)) by (unfold s; lia).
      reflexivity. }
    apply (Qmult_le_compat_r _ _ (2 ^ (- s))) in Rlo; [|lra].
    apply (Qmult_le_compat_r _ _ (2 ^ (- s))) in Rhi; [|lra].
    assert (D1 : ((x * 2 ^ s - (1 # 2)) * 2 ^ (- s)
                  == x - 2 ^ (expo x - 53))%Q).
    { transitivity (x * 2 ^ s * 2 ^ (- s) - (1 # 2) * 2 ^ (- s))%Q;
        [ring|]. rewrite E1, E2. reflexivity. }
    assert (D2 : ((x * 2 ^ s + (1 # 2)) * 2 ^ (- s)
                  == x + 2 ^ (expo x - 53))%Q).
    { transitivity (x * 2 ^ s * 2 ^ (- s) + (1 # 2) * 2 ^ (- s))%Q;
        [ring|]. rewrite E1, E2. reflexivity. }
    rewrite D1 in Rlo. rewrite D2 in Rhi. split; lra.
Qed.

(** An int below [2^53] is a double. *)
Lemma fl64_int (n : Z) :
  0 <= n < 2 ^ 53 -> (fl64 (inject_Z n) == inject_Z n)%Q.
Proof.
  intros [H0 Hn].
  destruct (Z.eq_dec n 0) as [->|Hnz]; [reflexivity|].
  assert (Hx : (0 < inject_Z n)%Q).
  { change 0%Q with (inject_Z 0). rewrite <- Zlt_Qlt. lia. }
  destruct (expo_spec _ Hx) as [Hlo _].
  assert (He : expo (inject_Z n) <= 52).
  { assert (H : (2 ^ expo (inject_Z n) < 2 ^ 53)%Q).
    { eapply Qle_lt_trans; [exact Hlo|].
      change 2%Q with (inject_Z 2). rewrite <- (Zpower_Qpower 2 53) by lia.
      rewrite <- Zlt_Qlt. exact Hn. }
    apply Qpower_lt_compat_l_inv in H; [lia|reflexivity]. }
  rewrite (fl64_pos _ Hx).
  set (s := 52 - expo (inject_Z n)).
  assert (Hs : 0 <= s) by (unfold s; lia).
  assert (E : (inject_Z n * 2 ^ s == inject_Z (n * 2 ^ s))%Q).
  { rewrite inject_Z_mult, (Zpower_Qpower 2 s) by exact Hs. reflexivity. }
  rewrite (round_half_even_comp E), round_half_even_Z, <- E.
  rewrite <- Qmult_assoc, <- (pow2_split 0 s (- s)) by lia.
  change (2 ^ 0)%Q with 1%Q. ring.
Qed.

(** The hundredths the code arrives at and the hundredths of the exact
    percentage. *)
Lemma hundredths_within_one (c t : Z) :
  0 <= c <= t -> 0 < t < 2 ^ 53 ->
  let N := round_half_even
             (fl64 (fl64 (fl64 (inject_Z c) / fl64 (inject_Z t)) * 100)
              * inject_Z 100) in
  let M := round_half_even
             (100 * inject_Z c / inject_Z t * inject_Z 100) in
  M - 1 <= N <= M + 1.
Proof.
  intros Hc Ht N M.
  set (q := (inject_Z c / inject_Z t)%Q).
  assert (Tpos : (0 < inject_Z t)%Q).
  { change 0%Q with (inject_Z 0). rewrite <- Zlt_Qlt. lia. }
  assert (Cnn : (0 <= inject_Z c)%Q).
  { change 0%Q with (inject_Z 0). rewrite <- Zle_Qle. lia. }
  assert (Cle : (inject_Z c <= inject_Z t)%Q) by (rewrite <- Zle_Qle; lia).
  assert (Q0 : (0 <= q)%Q).
  { unfold q. apply Qle_shift_div_l; [exact Tpos|]. lra. }
  assert (Q1 : (q <= 1)%Q).
  { unfold q. apply Qle_shift_div_r; [exact Tpos|]. lra. }
  assert (Eq : (fl64 (inject_Z c) / fl64 (inject_Z t) == q)%Q).
  { unfold q. rewrite (fl64_int c), (fl64_int t) by lia. reflexivity. }
  set (a := fl64 (fl64 (inject_Z c) / fl64 (inject_Z t))) in *.
  assert (Ea : (a == fl64 q)%Q).
  { unfold a. apply fl64_comp; [rewrite Eq; exact Q0|exact Eq]. }
  destruct (fl64_error q 0 Q0 Q1) as [A1 A2].
  rewrite <- Ea in A1, A2.
  assert (A0 : (0 <= a)%Q).
  { rewrite Ea, <- fl64_0. apply fl64_mono; [apply Qle_refl|exact Q0]. }
  assert (A3 : (a <= 1)%Q).
  { rewrite Ea, <- fl64_1. apply fl64_mono; [exact Q0|exact Q1]. }
  assert (U53 : (2 ^ (0 - 53) == 1 # 9007199254740992)%Q) by reflexivity.
  assert (U46 : (2 ^ (7 - 53) == 1 # 70368744177664)%Q) by reflexivity.
  assert (P7 : (2 ^ 7 == 128)%Q) by reflexivity.
  assert (B0 : (0 <= a * 100)%Q) by lra.
  assert (B1 : (a * 100 <= 2 ^ 7)%Q) by (rewrite P7; lra).
  destruct (fl64_error (a * 100) 7 B0 B1) as [B2 B3].
  set (b := fl64 (a * 100)) in *.
  rewrite U53 in A1, A2. rewrite U46 in B2, B3.
  destruct (round_half_even_near (b * inject_Z 100)) as [N1 N2].
  destruct (round_half_even_near (100 * inject_Z c / inject_Z t * inject_Z 100))
    as [M1 M2].
  fold N in N1, N2. fold M in M1, M2.
  assert (EM : (100 * inject_Z c / inject_Z t * inject_Z 100 == 10000 * q)%Q).
  { unfold q. change (inject_Z 100) with 100%Q. field. lra. }
  rewrite EM in M1, M2.
  change (inject_Z 100) with 100%Q in N1, N2.
  assert (L : (inject_Z N < inject_Z (M + 2))%Q).
  { rewrite inject_Z_plus. change (inject_Z 2) with 2%Q. lra. }
  assert (R : (inject_Z M < inject_Z (N + 2))%Q).
  { rewrite inject_Z_plus. change (inject_Z 2) with 2%Q. lra. }
  rewrite <- Zlt_Qlt in L, R. lia.
Qed.

(** X16. In double precision the order in which [buyStats] divides and
    multiplies matters by no more than one hundredth: with the correct
    buys within the total and the total a positive int below [2^53],
    [buyStats] returns the double of [N/100] for an integer [N] that is at
    most 1 away from the hundredths of the exact percentage,
    [100 * correctBuys / totalBuys] rounded half to even at two decimals.
    Likewise [sellStats]. *)
Theorem accuracy_within_one_hundredth (Instant Model : Type)
    (self : Backtest Instant Model) :
  (0 <= correctBuys self <= totalBuys self ->
   0 < totalBuys self < 2 ^ 53 ->
   exists N : Z,
     buyStats fl64 self = Ok (fl64 (inject_Z N / inject_Z 100))
     /\ Z.abs (N - round_half_even
                      (100 * inject_Z (correctBuys self)
                       / inject_Z (totalBuys self) * inject_Z 100)) <= 1)
  /\ (0 <= correctSells self <= totalSells self ->
      0 < totalSells self < 2 ^ 53 ->
      exists N : Z,
        sellStats fl64 self = Ok (fl64 (inject_Z N / inject_Z 100))
        /\ Z.abs (N - round_half_even
                         (100 * inject_Z (correctSells self)
                          / inject_Z (totalSells self) * inject_Z 100)) <= 1).
Proof.
  unfold buyStats, sellStats. rewrite !stats_value. split.
  - intros Hc Ht.
    replace (totalBuys self =? 0) with false by (symmetry; apply Z.eqb_neq; lia).
    eexists. split; [reflexivity|].
    pose proof (hundredths_within_one _ _ Hc Ht) as H. cbv zeta in H.
    change (inject_Z (10 ^ Z.of_nat 2)) with (inject_Z 100). lia.
  - intros Hc Ht.
    replace (totalSells self =? 0) with false
      by (symmetry; apply Z.eqb_neq; lia).
    eexists. split; [reflexivity|].
    pose proof (hundredths_within_one _ _ Hc Ht) as H. cbv zeta in H.
    change (inject_Z (10 ^ Z.of_nat 2)) with (inject_Z 100). lia.
Qed.

Set Implicit Arguments.

(** In double precision too, both accuracies lie in [0, 100] whenever the
    correct counters are within the totals, as they are in every state an
    instance goes through. *)
Lemma accuracy_in_double_precision (Instant Model : Type)
    (self : Backtest Instant Model) :
  counters_ok self ->
  exists vb vs : Q,
    buyStats fl64 self = Ok vb /\ sellStats fl64 self = Ok vs
    /\ (0 <= vb <= 100)%Q /\ (0 <= vs <= 100)%Q.
Proof.
  intros [Hb Hs]. unfold buyStats, sellStats. rewrite !stats_value.
  destruct (stats_percent fl64 fl64_mono fl64_0 fl64_1 fl64_100 Hb)
    as (vb & Eb & Hvb).
  destruct (stats_percent fl64 fl64_mono fl64_0 fl64_1 fl64_100 Hs)
    as (vs & Es & Hvs).
  exists vb, vs. auto.
Qed.

(* ------------------------------------------------------------------ *)
(** ** The outcome an iteration looks at *)

Section Lookahead.

Variables (Data Instant Model : Type).
Variable FindConditions : Data -> Z -> string -> result Q.
Variable Predict : Model -> list Q -> result (Q * Q).
Variable fit : Model -> list (list Q) -> list Z -> result Model.
Variable PercentChange : Data -> Z -> result Q.

(** C2. The testing loop runs its body once for each index
    [t = testPeriod .. testEnd - 1], in increasing order with step 1 (until
    a call raises).  An iteration that returns leaves the cursor at [t+1].
    The only percent change the iteration at [t] looks at is the one at
    [t+1]: it is the outcome by which the prediction made from the
    conditions at [t] is judged. *)
Theorem cursor_advances_before_outcome (data : Data) (tE : Z)
    (l : Locals Model) (self : Backtest Instant Model) :
  let body := test_body FindConditions PercentChange Predict fit data in
  testing FindConditions PercentChange Predict fit data tE l self
  = test_each FindConditions PercentChange Predict fit data
      (range (testPeriod l) tE) l self
  /\ range (testPeriod l) tE
     = map (fun k => testPeriod l + Z.of_nat k)
         (seq 0 (Z.to_nat (tE - testPeriod l)))
  /\ (forall self' l',
        body l self = (self', Ok l') -> testPeriod l' = testPeriod l + 1)
  /\ (forall PercentChange' : Data -> Z -> result Q,
        PercentChange' data (testPeriod l + 1)
        = PercentChange data (testPeriod l + 1) ->
        test_body FindConditions PercentChange' Predict fit data l self
        = body l self)
  /\ (forall Xs neg pos o,
        conditions FindConditions data (testPeriod l) (variables self) []
        = Ok Xs ->
        Predict (l_model l) Xs = Ok (neg, pos) ->
        PercentChange data (testPeriod l + 1) = Ok o ->
        let p := predict_decision (buyThreshold self) (sellThreshold self)
                   neg pos in
        correctBuys (fst (body l self))
        = correctBuys self + (if (p =? 1) && Qlt_bool 0 o then 1 else 0)
        /\ correctSells (fst (body l self))
           = correctSells self
             + (if (p =? -1) && Qlt_bool o 0 then 1 else 0)).
Proof.
  intros body. split; [|split; [|split; [|split]]].
  - eapply testing_test_each. reflexivity.
  - reflexivity.
  - intros self' l' H. eapply test_body_testPeriod. exact H.
  - intros PercentChange' H. unfold body.
    rewrite !test_body_unfold, H. reflexivity.
  - intros Xs neg pos o HX HP HO p.
    exact (test_body_correct FindConditions PercentChange Predict fit
             data l self HX HP HO).
Qed.

End Lookahead.

(* ------------------------------------------------------------------ *)
(** ** The data a run reads *)

Section Reads.

Variables (Data Instant Model : Type).
Variable DateIndex : Data -> Instant -> bool -> string -> result Z.
Variable Predict : Model -> list Q -> result (Q * Q).
Variable date_strftime : Data -> Z -> result string.
Variable SVC : Q -> Q -> Model.
Variable fit : Model -> list (list Q) -> list Z -> result Model.
(** Two sources of conditions and of percent changes. *)
Variables FindConditions FindConditions' : Data -> Z -> string -> result Q.
Variables PercentChange PercentChange' : Data -> Z -> result Q.

Lemma range_In (lo hi i : Z) : In i (range lo hi) <-> lo <= i < hi.
Proof.
  unfold range. rewrite in_map_iff. split.
  - intros (k & <- & Hk). apply in_seq in Hk. lia.
  - intros H. exists (Z.to_nat (i - lo)). split; [lia|].
    apply in_seq. lia.
Qed.

Lemma conditions_ext (data : Data) (i : Z) (vars : list string) :
  (forall var, FindConditions data i var = FindConditions' data i var) ->
  forall acc,
    conditions FindConditions data i vars acc
    = conditions FindConditions' data i vars acc.
Proof.
  intros H. induction vars as [|var vars IH]; intros acc; simpl;
    [reflexivity|].
  rewrite H. destruct (FindConditions' data i var); [apply IH|reflexivity].
Qed.

Lemma training_ext (data : Data) (idx : list Z) :
  (forall i var, In i idx ->
     FindConditions data i var = FindConditions' data i var) ->
  (forall i, In i idx ->
     PercentChange data (i + 1) = PercentChange' data (i + 1)) ->
  forall X y (self : Backtest Instant Model),
    training FindConditions PercentChange data idx X y self
    = training FindConditions' PercentChange' data idx X y self.
Proof.
  induction idx as [|i idx IH]; intros HF HP X y self; simpl;
    [reflexivity|].
  unfold bind, attr, call.
  rewrite (@conditions_ext data i (variables self)
             (fun var => HF i var (or_introl eq_refl))).
  rewrite (HP i (or_introl eq_refl)).
  destruct (conditions _ _ _ _ _); [|reflexivity].
  destruct (PercentChange' _ _); [|reflexivity].
  apply IH; intros; [apply HF|apply HP]; right; assumption.
Qed.

Lemma test_body_ext (data : Data) (l : Locals Model)
    (self : Backtest Instant Model) :
  (forall var, FindConditions data (testPeriod l) var
               = FindConditions' data (testPeriod l) var) ->
  PercentChange data (testPeriod l + 1)
  = PercentChange' data (testPeriod l + 1) ->
  test_body FindConditions PercentChange Predict fit data l self
  = test_body FindConditions' PercentChange' Predict fit data l self.
Proof.
  intros HF HP. rewrite !test_body_unfold.
  rewrite (@conditions_ext data (testPeriod l) (variables self) HF), HP.
  reflexivity.
Qed.

Lemma testing_ext (data : Data) (tE : Z) (n : nat) :
  forall (l : Locals Model) (self : Backtest Instant Model),
    Z.to_nat (tE - testPeriod l) = n ->
    (forall i var, testPeriod l <= i < tE ->
       FindConditions data i var = FindConditions' data i var) ->
    (forall i, testPeriod l < i <= tE ->
       PercentChange data i = PercentChange' data i) ->
    testing FindConditions PercentChange Predict fit data tE l self
    = testing FindConditions' PercentChange' Predict fit data tE l self.
Proof.
  induction n as [|n IH]; intros l self Hn HF HP; rewrite !testing_loop.
  - replace (testPeriod l <? tE) with false by (symmetry; apply Z.ltb_ge; lia).
    reflexivity.
  - replace (testPeriod l <? tE) with true by (symmetry; apply Z.ltb_lt; lia).
    rewrite (@test_body_ext data l self).
    + destruct (test_body FindConditions' _ _ _ _ _ _)
        as [s1 [l1|e]] eqn:E; [|reflexivity].
      pose proof (test_body_testPeriod _ _ _ _ _ _ _ E) as Ht.
      apply IH; [lia| |]; intros; [apply HF|apply HP]; lia.
    + intros var. apply HF. lia.
    + apply HP. lia.
Qed.

(** X17. A run reads the conditions only at the indices of the training
    window [trainStart..trainEnd] and of the test periods
    [testStart..testEnd-1], and the percent changes only one index later:
    at [trainStart+1..trainEnd+1] and [testStart+1..testEnd].  Data that
    differs elsewhere gives the same run: no condition is computed at
    [testEnd] and no percent change is looked at beyond [trainEnd+1] and
    [testEnd]. *)
Theorem run_reads_only_its_windows (data : Data)
    (self : Backtest Instant Model) (stock : string)
    (trS trE teS teE : Z) :
  last_item (stocks self) = Ok stock ->
  DateIndex data (trainStart self) false stock = Ok trS ->
  DateIndex data (trainEnd self) true stock = Ok trE ->
  DateIndex data (testStart self) false stock = Ok teS ->
  DateIndex data (testEnd self) true stock = Ok teE ->
  (forall i var, trS <= i <= trE \/ teS <= i < teE ->
     FindConditions data i var = FindConditions' data i var) ->
  (forall i, trS < i <= trE + 1 \/ teS < i <= teE ->
     PercentChange data i = PercentChange' data i) ->
  runModel DateIndex FindConditions PercentChange Predict date_strftime
    SVC fit data self
  = runModel DateIndex FindConditions' PercentChange' Predict date_strftime
      SVC fit data self.
Proof.
  intros E0 E1 E2 E3 E4 HF HP.
  unfold runModel, bind, attr, call, assign.
  rewrite E0, E1, E2, E3, E4.
  destruct (date_strftime data trS) as [d1|]; [|reflexivity].
  destruct (date_strftime data trE) as [d2|]; [|reflexivity].
  destruct (date_strftime data teS) as [d3|]; [|reflexivity].
  destruct (date_strftime data teE) as [d4|]; [|reflexivity].
  rewrite (@training_ext data (range trS (trE + 1))).
  2:{ intros i var Hi. apply range_In in Hi. apply HF. lia. }
  2:{ intros i Hi. apply range_In in Hi. apply HP. lia. }
  destruct (training FindConditions' _ _ _ _ _ _) as [s0 [[X y]|]];
    [|reflexivity].
  simpl fst; simpl snd.
  destruct (vstack X) as [XX'|]; [|reflexivity].
  destruct (hstack y) as [yy'|]; [|reflexivity].
  destruct (fit _ XX' yy') as [m|]; [|reflexivity].
  rewrite (@testing_ext data teE _ (mkLocals X y XX' yy' m teS) s0 eq_refl).
  - reflexivity.
  - intros i var Hi. simpl in Hi. apply HF. lia.
  - intros i Hi. simpl in Hi. apply HP. lia.
Qed.

End Reads.

(* ------------------------------------------------------------------ *)
(** ** Two runs, each with its own fits *)

Section Refits.

Variables (Data Instant Model : Type).
Variable DateIndex : Data -> Instant -> bool -> string -> result Z.
Variable FindConditions : Data -> Z -> string -> result Q.
Variable PercentChange : Data -> Z -> result Q.
Variable Predict : Model -> list Q -> result (Q * Q).
Variable date_strftime : Data -> Z -> result string.
Variable SVC : Q -> Q -> Model.
(** What [model.fit] returns in the first run and in the second. *)
Variables fit1 fit2 : Model -> list (list Q) -> list Z -> result Model.

Lemma update_model_refit (l : Locals Model) (Xs : list Q) (o : Q) (t : Z)
    (self : Backtest Instant Model) :
  (forall m X y, fit1 m X y = fit2 m X y) ->
  update_model fit1 l Xs o t self = update_model fit2 l Xs o t self.
Proof.
  intros H. unfold update_model, bind, attr, call, ret.
  destruct (continuedTraining self); [|reflexivity].
  destruct (vstack _) as [XX'|]; [|reflexivity].
  destruct (hstack _) as [yy'|]; [|reflexivity].
  rewrite H. reflexivity.
Qed.

Lemma test_body_refit (data : Data) (l : Locals Model)
    (self : Backtest Instant Model) :
  (forall m X y, fit1 m X y = fit2 m X y) ->
  test_body FindConditions PercentChange Predict fit1 data l self
  = test_body FindConditions PercentChange Predict fit2 data l self.
Proof.
  intros H. rewrite !test_body_unfold.
  destruct (conditions _ _ _ _ _) as [Xs|]; [|reflexivity].
  destruct (Predict _ _) as [np|]; [|reflexivity].
  cbv zeta.
  destruct (PercentChange _ _) as [o|]; [|reflexivity].
  apply update_model_refit, H.
Qed.

Lemma testing_refit (data : Data) (tE : Z) (n : nat) :
  (forall m X y, fit1 m X y = fit2 m X y) ->
  forall (l : Locals Model) (self : Backtest Instant Model),
    Z.to_nat (tE - testPeriod l) = n ->
    testing FindConditions PercentChange Predict fit1 data tE l self
    = testing FindConditions PercentChange Predict fit2 data tE l self.
Proof.
  intros H.
  induction n as [|n IH]; intros l self Hn; rewrite !testing_loop.
  - replace (testPeriod l <? tE) with false by (symmetry; apply Z.ltb_ge; lia).
    reflexivity.
  - replace (testPeriod l <? tE) with true by (symmetry; apply Z.ltb_lt; lia).
    rewrite (test_body_refit data l self H).
    destruct (test_body FindConditions PercentChange Predict fit2 data l self)
      as [s1 [l1|e]] eqn:E; [|reflexivity].
    pose proof (test_body_testPeriod _ _ _ _ _ _ _ E) as Ht.
    apply IH. lia.
Qed.

(** Two runs whose fits return the same models are the same run. *)
Lemma runModel_refit (data : Data) (self : Backtest Instant Model) :
  (forall m X y, fit1 m X y = fit2 m X y) ->
  runModel DateIndex FindConditions PercentChange Predict date_strftime
    SVC fit1 data self
  = runModel DateIndex FindConditions PercentChange Predict date_strftime
      SVC fit2 data self.
Proof.
  intros H. unfold runModel, bind, attr, call, assign.
  destruct (last_item (stocks self)) as [stock|]; [|reflexivity].
  destruct (DateIndex data (trainStart self) false stock) as [trS|];
    [|reflexivity].
  destruct (DateIndex data (trainEnd self) true stock) as [trE|];
    [|reflexivity].
  destruct (DateIndex data (testStart self) false stock) as [teS|];
    [|reflexivity].
  destruct (DateIndex data (testEnd self) true stock) as [teE|];
    [|reflexivity].
  destruct (date_strftime data trS) as [d1|]; [|reflexivity].
  destruct (date_strftime data trE) as [d2|]; [|reflexivity].
  destruct (date_strftime data teS) as [d3|]; [|reflexivity].
  destruct (date_strftime data teE) as [d4|]; [|reflexivity].
  destruct (training FindConditions PercentChange _ _ _ _ _)
    as [s0 [[X y]|]]; [|reflexivity].
  simpl fst; simpl snd.
  destruct (vstack X) as [XX'|]; [|reflexivity].
  destruct (hstack y) as [yy'|]; [|reflexivity].
  rewrite H.
  destruct (fit2 _ XX' yy') as [m|]; [|reflexivity].
  rewrite (testing_refit data teE H (mkLocals X y XX' yy' m teS) s0 eq_refl).
  reflexivity.
Qed.

(** C5. For one dataset and one instance, and a classifier whose fits are
    the same in both runs (a deterministic classifier: the same model from
    the same training data), the run with the higher of two buy thresholds
    counts no more buys than the run with the lower one, with or without
    continued training.  Without that condition the statement fails: line
    80 sets no [random_state], and a second run whose fit returns another
    model can count more buys at the higher threshold. *)
Theorem raising_buyThreshold_never_adds_buys (data : Data)
    (self : Backtest Instant Model) (b1 b2 : Q) :
  (forall m X y, fit1 m X y = fit2 m X y) ->
  (b1 <= b2)%Q ->
  totalBuys
    (fst (runModel DateIndex FindConditions PercentChange Predict
            date_strftime SVC fit2 data (set_buyThreshold b2 self)))
  <= totalBuys
       (fst (runModel DateIndex FindConditions PercentChange Predict
               date_strftime SVC fit1 data (set_buyThreshold b1 self))).
Proof.
  intros H Hb. rewrite (runModel_refit data _ H).
  assert (H0 : fewer_buys (set_buyThreshold b1 self)
                 (set_buyThreshold b2 self)).
  { repeat split; simpl; [exact Hb|lia]. }
  apply (fewer_buys_runModel DateIndex FindConditions PercentChange Predict
           date_strftime SVC fit2 data H0).
Qed.

(** X8. When the fits of two runs return the same models, the buy
    statistics do not depend on the sell threshold: two runs that differ in
    it only count the same buys and the same correct buys, and the run with
    the higher sell threshold counts no more sells and no more correct
    sells. *)
Theorem buys_ignore_sellThreshold (data : Data)
    (self : Backtest Instant Model) (s1 s2 : Q) :
  (forall m X y, fit1 m X y = fit2 m X y) ->
  let r1 := fst (runModel DateIndex FindConditions PercentChange Predict
                   date_strftime SVC fit1 data (set_sellThreshold s1 self)) in
  let r2 := fst (runModel DateIndex FindConditions PercentChange Predict
                   date_strftime SVC fit2 data (set_sellThreshold s2 self)) in
  totalBuys r2 = totalBuys r1 /\ correctBuys r2 = correctBuys r1
  /\ ((s1 <= s2)%Q ->
      totalSells r2 <= totalSells r1 /\ correctSells r2 <= correctSells r1).
Proof.
  intros H. rewrite (runModel_refit data _ H).
  pose proof (fewer_sells_runModel DateIndex FindConditions PercentChange
                Predict date_strftime SVC fit2 data) as HL.
  assert (H0 : forall a b, (a <= b)%Q ->
                 fewer_sells (set_sellThreshold a self)
                   (set_sellThreshold b self)).
  { intros a b Hab. repeat split; simpl; try lia. exact Hab. }
  intros r1 r2. subst r1 r2.
  destruct (Qlt_le_dec s2 s1) as [Hlt|Hle].
  - destruct (HL _ _ (H0 s2 s1 (Qlt_le_weak _ _ Hlt)))
      as (_ & _ & _ & _ & A & B & _).
    split; [symmetry; exact A|]. split; [symmetry; exact B|].
    intros Hle. exfalso. exact (Qlt_irrefl _ (Qlt_le_trans _ _ _ Hlt Hle)).
  - destruct (HL _ _ (H0 s1 s2 Hle)) as (_ & _ & _ & _ & A & B & C' & D).
    repeat split; assumption.
Qed.

(** X9. When the fits of two runs return the same models then, because
    buy is tried first, the run with the higher of two buy thresholds
    counts no fewer sells than the run with the lower one, and no more
    decisions (buys and sells together). *)
Theorem raising_buyThreshold_turns_buys_into_sells (data : Data)
    (self : Backtest Instant Model) (b1 b2 : Q) :
  (forall m X y, fit1 m X y = fit2 m X y) ->
  (b1 <= b2)%Q ->
  let r1 := fst (runModel DateIndex FindConditions PercentChange Predict
                   date_strftime SVC fit1 data (set_buyThreshold b1 self)) in
  let r2 := fst (runModel DateIndex FindConditions PercentChange Predict
                   date_strftime SVC fit2 data (set_buyThreshold b2 self)) in
  totalSells r1 <= totalSells r2
  /\ totalBuys r2 + totalSells r2 <= totalBuys r1 + totalSells r1.
Proof.
  intros H Hb. rewrite (runModel_refit data _ H).
  pose proof (buys_turn_into_sells_runModel DateIndex FindConditions
                PercentChange Predict date_strftime SVC fit2 data) as HL.
  assert (H0 : buys_turn_into_sells (set_buyThreshold b1 self)
                 (set_buyThreshold b2 self)).
  { repeat split; simpl; try lia. exact Hb. }
  destruct (HL _ _ H0) as (_ & _ & _ & _ & A & B).
  split; assumption.
Qed.

End Refits.

(* ------------------------------------------------------------------ *)
(** ** The engine at the concrete market *)

Module MarketRun.
Import Market.

Definition new := @__init__ Z Z unit Model localize.
Definition body :=
  @test_body Data Z Model FindConditions PercentChange Predict fit.
Definition loop :=
  @testing Data Z Model FindConditions PercentChange Predict fit.
Definition run :=
  @runModel Data Z Model DateIndex FindConditions PercentChange Predict
    date_strftime SVC fit.
Definition visualize :=
  @visualizeModel Z Model unit fit fit_transform unit contour_grid draw.
Definition reached :=
  @reachable Data Z Z unit Model unit localize DateIndex FindConditions
    PercentChange Predict date_strftime SVC fit fit_transform unit
    contour_grid draw.

(** [Backtest(["x"], 1, 5, 6, 9, 0.5, 0.5, 1, 10, ct)] and
    [stocks.append("SBUX")]. *)
Definition sbux (ct : bool) : Backtest Z Model :=
  mkBacktest ["x"%string] 1 5 6 9 (1 # 2) (1 # 2) 1 10 ct
    ["SBUX"%string] [] 0 0 0 0 None None None.

(** Local variables on entry to the loop: a model that is undecided. *)
Definition undecided (t : Z) : Locals Model :=
  mkLocals [[1%Q]; [-1 # 1]] [1; 0] [[1%Q]; [-1 # 1]] [1; 0]
    (1 # 2, 1 # 2)%Q t.

(** A call returns a float of the given value. *)
Definition returns (r : result Q) (q : Q) : Prop :=
  match r with
  | Ok v => (v == q)%Q
  | Raise _ => False
  end.

Example new_sbux :
  new ["x"%string] 1 5 6 9 (1 # 2) (1 # 2) 1 10 false tt
  = Ok (set_stocks [] (sbux false)).
Proof. reflexivity. Qed.

Example run_sbux :
  let r := run prices (sbux false) in
  snd r = Ok tt
  /\ (totalBuys (fst r), correctBuys (fst r),
      totalSells (fst r), correctSells (fst r)) = (1, 1, 2, 1)
  /\ yy (fst r) = Some [0; 1; 0; 1; 0].
Proof. vm_compute. repeat split. Qed.

Example run_sbux_continued :
  let r := run prices (sbux true) in
  snd r = Ok tt /\ yy (fst r) = Some [0; 1; 0; 1; 0; 1; 1; 0].
Proof. vm_compute. repeat split. Qed.

Example run_sbux_twice :
  let r := run prices (fst (run prices (sbux false))) in
  (totalBuys (fst r), correctBuys (fst r),
   totalSells (fst r), correctSells (fst r)) = (2, 2, 4, 2)
  /\ List.length (dates (fst r)) = 2%nat
  /\ returns (buyStats fl64 (fst r)) 100
  /\ returns (sellStats fl64 (fst r)) 50.
Proof. vm_compute. repeat split. Qed.

End MarketRun.

(* ------------------------------------------------------------------ *)
(** ** The theorems at the concrete market *)

Import Market MarketRun.

Lemma sbux_reached (ct : bool) : reached (sbux ct).
Proof.
  change (sbux ct) with (add_stock "SBUX" (set_stocks [] (sbux ct))).
  apply reach_add_stock.
  apply (reach_init (Data:=Data) (Figure:=unit) (Grid:=unit)
           localize DateIndex FindConditions
           PercentChange Predict date_strftime SVC fit fit_transform
           contour_grid draw
           ["x"%string] 1 5 6 9 (1 # 2)%Q (1 # 2)%Q 1%Q 10%Q ct tt).
  reflexivity.
Defined.

(** C1 at the market.  An undecided model at index 6, both thresholds at
    one half: both are reached, and the iteration counts one buy and no
    sell. *)
Lemma decision_buy_first_witness :
  let self' := fst (body prices (undecided 6) (sbux false)) in
  totalBuys self' = 1 /\ totalSells self' = 0.
Proof.
  intros self'.
  destruct (@decision_buy_first Data Z Model FindConditions PercentChange
              Predict fit prices (undecided 6) (sbux false)
              [(-1 # 105)%Q] (1 # 2)%Q (1 # 2)%Q eq_refl eq_refl)
    as (_ & _ & _ & H).
  destruct H as (_ & Hb & Hs);
    [vm_compute; discriminate|vm_compute; discriminate|].
  split; [exact Hb|exact Hs].
Defined.

(** C3 at the market.  A buy at index 3 followed by a flat period (103 to
    103): the outcome is 0 and neither correct counter moves. *)
Lemma outcome_zero_is_incorrect_witness :
  let self' := fst (body prices (undecided 3) (sbux false)) in
  totalBuys self' = 1 /\ correctBuys self' = 0 /\ correctSells self' = 0.
Proof.
  intros self'.
  destruct (@outcome_zero_is_incorrect Data Z Model FindConditions
              PercentChange Predict fit prices (undecided 3) (sbux false)
              [(2 # 101)%Q] (1 # 2)%Q (1 # 2)%Q (0 # 103)%Q
              eq_refl eq_refl eq_refl)
    as (_ & _ & _ & H).
  destruct H as (Hb & Hs); [reflexivity|].
  split; [reflexivity|]. split; [exact Hb|exact Hs].
Defined.

(** C2 at the market.  The loop from index 6 to 9 runs the body at 6, 7
    and 8, and the iteration at 6 leaves the cursor at 7. *)
Lemma cursor_advances_before_outcome_witness :
  loop prices 9 (undecided 6) (sbux false)
  = test_each FindConditions PercentChange Predict fit prices [6; 7; 8]
      (undecided 6) (sbux false)
  /\ testPeriod
       (mkLocals [[1%Q]; [-1 # 1]] [1; 0] [[1%Q]; [-1 # 1]] [1; 0]
          (1 # 2, 1 # 2)%Q 7) = 6 + 1.
Proof.
  destruct (@cursor_advances_before_outcome Data Z Model FindConditions
              Predict fit PercentChange prices 9 (undecided 6)
              (sbux false))
    as (Hloop & _ & Hnext & _).
  split; [exact Hloop|].
  apply (Hnext (fst (body prices (undecided 6) (sbux false)))).
  vm_compute. reflexivity.
Defined.

(** C4 at the market.  The run on SBUX with training window 1..5 retains
    5 pairs. *)
Lemma training_set_size_witness :
  exists X y,
    XX (fst (run prices (sbux false))) = Some X
    /\ yy (fst (run prices (sbux false))) = Some y
    /\ Z.of_nat (List.length X) = 5 /\ Z.of_nat (List.length y) = 5.
Proof.
  assert (Hrun : run prices (sbux false)
                 = (fst (run prices (sbux false)), Ok tt))
    by (vm_compute; reflexivity).
  destruct (proj1 (@training_set_size Data Z Model DateIndex FindConditions
                     PercentChange Predict date_strftime SVC fit prices)
              (sbux false) _ Hrun)
    as (stock & trS & trE & teS & teE & X & y
        & _ & E1 & E2 & _ & _ & HX & Hy & Hoff & _).
  injection E1 as <-. injection E2 as <-.
  destruct (Hoff eq_refl) as (LX & Ly & _).
  exists X, y. repeat split; assumption.
Defined.

(** C5 at the market.  Thresholds 1/2 and 3/4, both runs with the fit of
    the market. *)
Lemma raising_buyThreshold_never_adds_buys_witness :
  totalBuys (fst (run prices (set_buyThreshold (3 # 4) (sbux false))))
  <= totalBuys (fst (run prices (set_buyThreshold (1 # 2) (sbux false)))).
Proof.
  apply (@raising_buyThreshold_never_adds_buys Data Z Model DateIndex
           FindConditions PercentChange Predict date_strftime SVC fit fit
           prices (sbux false) (1 # 2)%Q (3 # 4)%Q).
  - intros m X y. reflexivity.
  - vm_compute. discriminate.
Defined.

(** The fit of the market as another run may get it: the two
    probabilities come out one hundredth away from those of [fit], as
    another draw of the random numbers behind them can give. *)
Definition fit_again (m : Model) (X : list (list Q)) (y : list Z)
    : result Model :=
  match fit m X y with
  | Ok (neg, pos) => Ok (neg + (1 # 100), pos - (1 # 100))%Q
  | Raise e => Raise e
  end.

Definition run_again :=
  @runModel Data Z Model DateIndex FindConditions PercentChange Predict
    date_strftime SVC fit_again.

(** C5 as the claim has it fails: same data, same configuration but the
    buy threshold, 0.601 in the first run and 0.605 in the second.  In the
    first run the confidence at index 6 is 0.6, short of 0.601, and no
    period is a buy; in the second run the fit returns 0.61 there, which
    reaches 0.605, and the run counts one buy. *)
Lemma higher_buyThreshold_more_buys_after_another_fit :
  let b1 := (601 # 1000)%Q in
  let b2 := (605 # 1000)%Q in
  let first := fst (run prices (set_buyThreshold b1 (sbux false))) in
  let second := fst (run_again prices (set_buyThreshold b2 (sbux false))) in
  (b1 <= b2)%Q
  /\ totalBuys first = 0 /\ totalBuys second = 1
  /\ ~ totalBuys second <= totalBuys first.
Proof.
  vm_compute. repeat split; try discriminate.
  intros H. apply H. reflexivity.
Qed.

(** C6 at the market.  After two runs on SBUX both accuracies are
    percentages (here in exact arithmetic, the rounding being the
    identity). *)
Lemma accuracy_is_a_percentage_witness :
  exists vb vs : Q,
    buyStats (fun x => x) (fst (run prices (fst (run prices (sbux false)))))
    = Ok vb
    /\ sellStats (fun x => x)
         (fst (run prices (fst (run prices (sbux false))))) = Ok vs
    /\ (0 <= vb <= 100)%Q /\ (0 <= vs <= 100)%Q.
Proof.
  apply (proj2 (@accuracy_is_a_percentage Data Z Z unit Model unit localize
                  DateIndex FindConditions PercentChange Predict
                  date_strftime SVC fit (fun x => x) fit_transform unit
                  contour_grid draw
                  (fun x y _ H => H) (Qeq_refl 0) (Qeq_refl 1)
                  (Qeq_refl 100))).
  apply reach_run, reach_run, sbux_reached.
Defined.

(** C6 as the claim has it fails.  With 23 correct buys out of 160 the
    code, in double precision, returns 14.37: the quotient 23/160 rounds
    to a double just below 0.14375, and 100 times it to one just below
    14.375.  The value [round(100 * 23 / 160, 2)] is 14.38, whether
    100 * 23 / 160 = 14.375 is computed exactly or in double precision. *)
Lemma accuracy_differs_from_reordered_formula :
  let self := set_stats 160 23 0 0 (sbux false) in
  returns (buyStats fl64 self) (fl64 (1437 # 100))
  /\ (round fl64 (fl64 (100 * inject_Z 23 / inject_Z 160)) 2
      == fl64 (1438 # 100))%Q
  /\ (round (fun x => x) (100 * inject_Z 23 / inject_Z 160) 2
      == 1438 # 100)%Q
  /\ ~ returns (buyStats fl64 self)
         (round fl64 (fl64 (100 * inject_Z 23 / inject_Z 160)) 2).
Proof.
  vm_compute. repeat split; discriminate.
Qed.

(** C7 at the market.  A second run on SBUX appends one entry to the date
    list. *)
Lemma stats_accumulate_across_runs_witness :
  exists d,
    dates (fst (run prices (fst (run prices (sbux false)))))
    = dates (fst (run prices (sbux false))) ++ [d].
Proof.
  apply (proj2 (proj2 (@stats_accumulate_across_runs Data Z Z unit Model
                         localize DateIndex FindConditions PercentChange
                         Predict date_strftime SVC fit))
           prices (fst (run prices (sbux false)))
           (fst (run prices (fst (run prices (sbux false)))))).
  vm_compute. reflexivity.
Defined.

(** C8 at the market.  Plotting on a fresh instance with one feature
    prints an error and saves nothing. *)
Lemma visualize_precondition_witness :
  visualize 5 5 (2 # 100) (sbux false)
  = (sbux false,
     ([Print unit "Error: Plotting is restricted to 2 dimensions"], Ok tt)).
Proof.
  apply (proj1 (@visualize_precondition Data Z Z unit Model unit localize
                  DateIndex FindConditions PercentChange Predict
                  date_strftime SVC fit fit_transform unit contour_grid
                  draw)).
  vm_compute. discriminate.
Defined.

(** C9 as the code has it, at the market.  A buy threshold of 2 and a sell
    threshold of -1 are stored as given. *)
Lemma constructor_keeps_any_threshold_witness :
  exists self,
    new ["x"%string] 1 5 6 9 2 (-1 # 1) 1 10 false tt = Ok self
    /\ buyThreshold self = 2%Q /\ sellThreshold self = (-1 # 1)%Q.
Proof.
  apply (@constructor_keeps_any_threshold Z Z unit Model localize
           ["x"%string] 1 5 6 9 2%Q (-1 # 1)%Q 1%Q 10%Q false tt 1 5 6 9);
    reflexivity.
Defined.

(** C9 as the claim has it fails.  A buy threshold of 2 is outside [0, 1];
    the constructor returns an instance all the same, and a run on it
    returns too. *)
Lemma threshold_outside_unit_interval_accepted :
  ~ (0 <= 2 <= 1)%Q
  /\ exists self,
       new ["x"%string] 1 5 6 9 2 (1 # 2) 1 10 false tt = Ok self
       /\ buyThreshold self = 2%Q
       /\ snd (run prices (add_stock "SBUX" self)) = Ok tt.
Proof.
  split.
  - intros [_ H]. vm_compute in H. apply H. reflexivity.
  - eexists. split; [reflexivity|]. split; [reflexivity|].
    vm_compute. reflexivity.
Qed.

(** C10 at the market.  After a run on SBUX the correct counters are
    within the totals. *)
Lemma correct_never_exceeds_total_witness :
  let self := fst (run prices (sbux false)) in
  0 <= correctBuys self <= totalBuys self
  /\ 0 <= correctSells self <= totalSells self.
Proof.
  apply (proj1 (@correct_never_exceeds_total Data Z Z unit Model unit
                  localize DateIndex FindConditions PercentChange Predict
                  date_strftime SVC fit fit_transform unit contour_grid
                  draw)).
  apply reach_run, sbux_reached.
Defined.

(* ------------------------------------------------------------------ *)
(** ** The further properties at the concrete market *)

(** [str(x)] at the market: numerator, a slash, denominator. *)
Definition str_ratio (q : Q) : string :=
  (str_int (Qnum q) ++ "/" ++ str_int (QDen q))%string.

Definition show_stats := @displayStats Z Model unit fl64 str_ratio.
Definition show_conditions := @displayConditions Z Model unit fl64 str_ratio.

(** A configuration whose training window ends before it starts. *)
Definition backwards : Backtest Z Model :=
  mkBacktest ["x"%string] 5 1 6 9 (1 # 2) (1 # 2) 1 10 false
    ["SBUX"%string] [] 0 0 0 0 None None None.

(** The market's data with nothing readable from index [hi] on (conditions)
    or after it (percent changes). *)
Definition FindConditions_before (hi : Z) (data : Data) (i : Z)
    (var : string) : result Q :=
  if i <? hi then FindConditions data i var else Raise IndexError.

Definition PercentChange_upto (hi : Z) (data : Data) (i : Z) : result Q :=
  if i <=? hi then PercentChange data i else Raise IndexError.

(** X1 at the market. *)
Lemma run_without_stock_raises_witness :
  run prices (set_stocks [] (sbux false))
  = (set_stocks [] (sbux false), Raise IndexError).
Proof.
  apply (proj1 (run_without_stock_raises localize DateIndex FindConditions
                  PercentChange Predict date_strftime SVC fit prices)).
  reflexivity.
Defined.

(** X2 at the market: training window 5..1. *)
Lemma empty_training_window_raises_witness :
  run prices backwards
  = (set_dates
       (dates backwards
        ++ [["01/01/2016"; "01/01/2016"; "01/01/2016"; "01/01/2016"]%string])
       backwards,
     Raise ValueError).
Proof.
  apply (empty_training_window_raises DateIndex FindConditions
           PercentChange Predict date_strftime SVC fit prices backwards
           (stock:="SBUX"%string) (trS:=5) (trE:=1) (teS:=6) (teE:=9));
    reflexivity.
Defined.

(** X4 at the market: after a run on SBUX, a run on two prices only
    raises at the window resolution. *)
Lemma failed_run_keeps_plot_data_witness :
  let self := fst (run prices (sbux false)) in
  let self' := fst (run [100; 102] self) in
  XX self' = XX self /\ yy self' = yy self /\ model self' = model self
  /\ (dates self' = dates self -> self' = self).
Proof.
  intros self self'.
  apply (failed_run_keeps_plot_data DateIndex FindConditions PercentChange
           Predict date_strftime SVC fit [100; 102] self (e:=IndexError)).
  vm_compute. reflexivity.
Defined.

(** X5 at the market: test window 6..9, so at most 3 decisions. *)
Lemma decisions_bounded_by_test_periods_witness :
  let self' := fst (run prices (sbux false)) in
  0 <= (totalBuys self' + totalSells self')
       - (totalBuys (sbux false) + totalSells (sbux false))
    <= Z.max 0 (9 - 6).
Proof.
  apply (decisions_bounded_by_test_periods DateIndex FindConditions
           PercentChange Predict date_strftime SVC fit prices (sbux false)
           (stock:="SBUX"%string) (teS:=6) (teE:=9));
    reflexivity.
Defined.

(** X6 at the market. *)
Lemma retained_model_fits_retained_data_witness :
  exists X y m,
    XX (fst (run prices (sbux false))) = Some X
    /\ yy (fst (run prices (sbux false))) = Some y
    /\ model (fst (run prices (sbux false))) = Some m
    /\ X <> [] /\ List.length X = List.length y
    /\ (exists m0, fit m0 X y = Ok m)
    /\ (continuedTraining (sbux false) = false ->
        fit (SVC (C (sbux false)) (gamma (sbux false))) X y = Ok m).
Proof.
  apply (retained_model_fits_retained_data DateIndex FindConditions
           PercentChange Predict date_strftime SVC fit prices (sbux false)
           (self':=fst (run prices (sbux false)))).
  vm_compute. reflexivity.
Defined.

(** X7 at the market: one variable, so rows of one entry. *)
Lemma feature_vectors_follow_variables_witness :
  exists X,
    XX (fst (run prices (sbux true))) = Some X
    /\ Forall (fun row => List.length row
                          = List.length (variables (sbux true))) X.
Proof.
  eexists. split; [vm_compute; reflexivity|].
  apply (proj2 (feature_vectors_follow_variables DateIndex FindConditions
                  PercentChange Predict date_strftime SVC fit prices)
           (sbux true) (fst (run prices (sbux true)))).
  - vm_compute. reflexivity.
  - vm_compute. reflexivity.
Defined.

(** X8 at the market: sell thresholds 1/4 and 3/4, both runs with the fit
    of the market. *)
Lemma buys_ignore_sellThreshold_witness :
  let r1 := fst (run prices (set_sellThreshold (1 # 4) (sbux false))) in
  let r2 := fst (run prices (set_sellThreshold (3 # 4) (sbux false))) in
  totalBuys r2 = totalBuys r1 /\ correctBuys r2 = correctBuys r1
  /\ totalSells r2 <= totalSells r1 /\ correctSells r2 <= correctSells r1.
Proof.
  destruct (@buys_ignore_sellThreshold Data Z Model DateIndex
              FindConditions PercentChange Predict date_strftime SVC
              fit fit prices (sbux false) (1 # 4)%Q (3 # 4)%Q
              (fun m X y => eq_refl)) as (A & B & H).
  split; [exact A|]. split; [exact B|].
  apply H. vm_compute. discriminate.
Defined.

(** X9 at the market: buy thresholds 1/2 and 3/4, both runs with the fit
    of the market. *)
Lemma raising_buyThreshold_turns_buys_into_sells_witness :
  let r1 := fst (run prices (set_buyThreshold (1 # 2) (sbux false))) in
  let r2 := fst (run prices (set_buyThreshold (3 # 4) (sbux false))) in
  totalSells r1 <= totalSells r2
  /\ totalBuys r2 + totalSells r2 <= totalBuys r1 + totalSells r1.
Proof.
  apply (@raising_buyThreshold_turns_buys_into_sells Data Z Model DateIndex
           FindConditions PercentChange Predict date_strftime SVC fit fit
           prices (sbux false) (1 # 2)%Q (3 # 4)%Q).
  - intros m X y. reflexivity.
  - vm_compute. discriminate.
Defined.

(** X11 at the market: after a run on SBUX. *)
Lemma plot_data_all_or_nothing_witness :
  let self := fst (run prices (sbux false)) in
  ((XX self = None /\ yy self = None /\ model self = None)
   \/ (XX self <> None /\ yy self <> None /\ model self <> None
       /\ (exists stock, last_item (stocks self) = Ok stock)
       /\ dates self <> []))
  /\ Forall (fun d => List.length d = 4%nat) (dates self).
Proof.
  apply (@plot_data_all_or_nothing Data Z Z unit Model unit localize
           DateIndex FindConditions PercentChange Predict date_strftime SVC
           fit fit_transform unit contour_grid draw).
  apply reach_run, sbux_reached.
Defined.

(** X12 at the market: a fresh instance. *)
Lemma displayStats_needs_a_run_witness :
  show_stats (set_stocks [] (sbux false))
  = ([Print unit "Error: Please run model before displaying stats"], Ok tt).
Proof.
  apply (proj1 (displayStats_needs_a_run unit localize DateIndex
                  FindConditions PercentChange Predict date_strftime SVC
                  fit fl64 str_ratio)).
  reflexivity.
Defined.

(** X13 at the market: a second symbol is appended after the run on SBUX
    and no run is made for it; the report stops after the line of SBUX. *)
Lemma displayStats_pairs_stocks_with_dates_witness :
  let self := add_stock "AAPL" (fst (run prices (sbux false))) in
  snd (show_stats self) = Raise IndexError
  /\ List.length (fst (show_stats self))
     = (2 + List.length (dates self))%nat.
Proof.
  intros self.
  apply (proj2 (displayStats_pairs_stocks_with_dates unit fl64 str_ratio
                  self
                  ltac:(vm_compute; repeat constructor)
                  ltac:(vm_compute; discriminate))).
  vm_compute. lia.
Defined.

(** X14 at the market: the one variable is shown as [X1]. *)
Lemma displayConditions_numbers_from_one_witness :
  nth_error (show_conditions (sbux false)) 1
  = Some (Print unit ("X" ++ str_int (Z.of_nat 0 + 1) ++ ": " ++ "x")%string).
Proof.
  apply (proj2 (displayConditions_numbers_from_one unit fl64 str_ratio
                  (sbux false)) 0%nat "x"%string).
  reflexivity.
Defined.

(** X15 at the market, in exact arithmetic: three correct buys of three. *)
Lemma accuracy_ends_witness :
  exists v,
    buyStats (fun x => x) (set_stats 3 3 0 0 (sbux false)) = Ok v
    /\ (v == 100)%Q.
Proof.
  apply (proj1 (accuracy_ends (fun x => x) (fun x y _ H => H)
                  (Qeq_refl 0) (Qeq_refl 1) (Qeq_refl 100)
                  (set_stats 3 3 0 0 (sbux false))));
    reflexivity.
Defined.

(** X16 at the market: 23 correct buys of 160, where the code gives 14.37
    and the exact percentage rounds to 14.38. *)
Lemma accuracy_within_one_hundredth_witness :
  exists N : Z,
    buyStats fl64 (set_stats 160 23 0 0 (sbux false))
    = Ok (fl64 (inject_Z N / inject_Z 100))
    /\ Z.abs (N - round_half_even
                     (100 * inject_Z 23 / inject_Z 160 * inject_Z 100)) <= 1.
Proof.
  apply (proj1 (accuracy_within_one_hundredth Z Model
                  (set_stats 160 23 0 0 (sbux false)))); simpl; lia.
Defined.

(** X17 at the market: windows 1..5 and 6..9; no condition from index 9
    on and no percent change after index 9 is needed. *)
Lemma run_reads_only_its_windows_witness :
  run prices (sbux false)
  = runModel DateIndex (FindConditions_before 9) (PercentChange_upto 9)
      Predict date_strftime SVC fit prices (sbux false).
Proof.
  apply (run_reads_only_its_windows DateIndex Predict date_strftime SVC fit
           FindConditions (FindConditions_before 9)
           PercentChange (PercentChange_upto 9) prices (sbux false)
           (stock:="SBUX"%string) (trS:=1) (trE:=5) (teS:=6) (teE:=9));
    try reflexivity.
  - intros i var H. unfold FindConditions_before.
    destruct (Z.ltb_spec i 9); [reflexivity|lia].
  - intros i H. unfold PercentChange_upto.
    destruct (Z.leb_spec i 9); [reflexivity|lia].
Defined.
